(** * PRISM pdf_loader: section partitioning and metadata extraction

    A shallow embedding of [src/prism/pdf_loader.py] together with the
    properties of its specification.

    Python strings are sequences of Unicode code points; a character is
    modelled as its code point ([N]) and a string as a list of them.  The
    parts of the Python runtime the module relies on ([str] methods and the
    [re] engine) are modelled in [Module Py] and [Module Re]; case mapping,
    [\d] and [\w] are modelled on the ASCII range, whitespace and line
    boundaries on the full code-point tables of CPython. *)

From Stdlib Require Import NArith String Ascii Lia Bool.
From stdpp Require Import base list option numbers strings gmap.

Open Scope N_scope.
Open Scope nat_scope.
Open Scope list_scope.

(** ** Python strings *)

Definition char := N.
Bind Scope N_scope with char.
Definition str := list char.

(** An ASCII literal of the source, written as a Rocq string. *)
Definition s (x : string) : str := map N_of_ascii (list_ascii_of_string x).

Definition chr (x : string) : char :=
  match x with
  | String a _ => N_of_ascii a
  | EmptyString => 0%N
  end.

Definition NL : char := 10%N.
Definition EN_DASH : char := 8211%N.  (* – *)
Definition EM_DASH : char := 8212%N.  (* — *)

Module Py.

Definition between (lo hi c : char) : bool := ((lo <=? c) && (c <=? hi))%N.

(** [str.isspace] on one code point: CPython's [_PyUnicode_IsWhitespace]. *)
Definition isspace (c : char) : bool :=
  (between 9 13 c || between 28 32 c || (c =? 133) || (c =? 160)
   || (c =? 5760) || between 8192 8202 c || (c =? 8232) || (c =? 8233)
   || (c =? 8239) || (c =? 8287) || (c =? 12288))%N.

(** [x.isascii()]: every code point is below 128. *)
Definition isascii (x : str) : bool := forallb (fun c => (c <? 128)%N) x.

(** Letters, digits and word characters on ASCII text.  Outside ASCII
    Python has more of each ([\d] matches every decimal digit, [\w] every
    alphanumeric code point), which these tests leave out: they are those
    of Python on text that satisfies [isascii], and a statement that
    depends on what a letter, a digit or a word character is assumes such
    text. *)
Definition isupper (c : char) : bool := between 65 90 c.
Definition islower (c : char) : bool := between 97 122 c.
Definition isdigit (c : char) : bool := between 48 57 c.
Definition isword (c : char) : bool :=
  isupper c || islower c || isdigit c || (c =? 95)%N.

(** The case mapping of one ASCII code point; other code points are kept,
    where Python maps the cased letters outside ASCII as well. *)
Definition lower_char (c : char) : char := if isupper c then (c + 32)%N else c.
Definition upper_char (c : char) : char := if islower c then (c - 32)%N else c.

(** [s.lower()] on ASCII text ([isascii]): there it is [str.lower]. *)
Definition lower (x : str) : str := map lower_char x.

(** [s.lstrip()], [s.rstrip()], [s.strip()] *)
Fixpoint lstrip (x : str) : str :=
  match x with
  | c :: rest => if isspace c then lstrip rest else x
  | [] => []
  end.

Definition rstrip (x : str) : str := rev (lstrip (rev x)).

Definition strip (x : str) : str := rstrip (lstrip x).

(** [sep.join(parts)] *)
Fixpoint join (sep : str) (parts : list str) : str :=
  match parts with
  | [] => []
  | [p] => p
  | p :: rest => p ++ sep ++ join sep rest
  end.

(** Line boundaries of [str.splitlines]. *)
Definition islinebreak (c : char) : bool :=
  (between 10 13 c || between 28 30 c || (c =? 133) || (c =? 8232)
   || (c =? 8233))%N.

(** [s.splitlines()]: [cur] is the current line, reversed. *)
Fixpoint splitlines_from (cur : str) (x : str) : list str :=
  match x with
  | [] => match cur with [] => [] | _ => [rev cur] end
  | c :: rest =>
      if islinebreak c then
        rev cur ::
          match rest with
          | c' :: rest' =>
              if ((c =? 13)%N && (c' =? 10)%N)%bool
              then splitlines_from [] rest'
              else splitlines_from [] rest
          | [] => splitlines_from [] rest
          end
      else splitlines_from (c :: cur) rest
  end.

Definition splitlines (x : str) : list str := splitlines_from [] x.

(** [x.startswith(p)] *)
Fixpoint startswith (p x : str) : bool :=
  match p, x with
  | [], _ => true
  | a :: p', b :: x' => (a =? b)%N && startswith p' x'
  | _ :: _, [] => false
  end.

(** [needle in x] *)
Fixpoint contains (needle x : str) : bool :=
  startswith needle x ||
  match x with
  | [] => false
  | _ :: rest => contains needle rest
  end.

(** [l[lo:hi]] for non-negative bounds. *)
Definition slice {A} (l : list A) (lo hi : nat) : list A :=
  take (hi - lo) (drop lo l).

(** Truthiness of a string. *)
Definition truthy (x : str) : bool :=
  match x with [] => false | _ => true end.

End Py.

(** ** The regular expressions of Python's [re], as used by the module *)

Module Re.

(** Members of a bracketed class. *)
Inductive item :=
| One (c : char)
| Range (lo hi : char)
| Space        (* \s *)
| Digit.       (* \d *)

Inductive regex :=
| Eps
| Lit (c : char)
| Dot                                   (* . : anything but a newline *)
| Class (items : list item)             (* [...] *)
| Bol                                   (* ^ *)
| Eol                                   (* $ *)
| WordB                                 (* \b *)
| Seq (r1 r2 : regex)
| Alt (r1 r2 : regex)
| Rep (r : regex) (lo : nat) (hi : option nat)   (* greedy r{lo,hi} *)
| Group (n : nat) (r : regex).          (* capturing group number n *)

Definition in_item (c : char) (i : item) : bool :=
  match i with
  | One d => (c =? d)%N
  | Range lo hi => Py.between lo hi c
  | Space => Py.isspace c
  | Digit => Py.isdigit c
  end.

(** Membership in a class and equality with a literal; [ic] is
    [re.IGNORECASE].  Case is ignored through the ASCII case mapping, which
    is what [re] does on ASCII text; on other text [re] also equates the
    code points U+0130, U+0131, U+017F and U+212A with ASCII letters. *)
Definition in_class (ic : bool) (items : list item) (c : char) : bool :=
  existsb (in_item c) items
  || (ic && (existsb (in_item (Py.lower_char c)) items
             || existsb (in_item (Py.upper_char c)) items)).

Definition lit_eq (ic : bool) (pat c : char) : bool :=
  (c =? pat)%N || (ic && (Py.lower_char c =? Py.lower_char pat)%N).

(** Matcher state: the character before the cursor, the text after it,
    and the groups captured so far. *)
Record state := State {
  prev : option char;
  rest : str;
  caps : list (nat * str)
}.

Definition step1 (ok : char -> bool) {A} (k : state -> option A) (st : state)
  : option A :=
  match rest st with
  | c :: tl => if ok c then k (State (Some c) tl (caps st)) else None
  | [] => None
  end.

Definition is_word_opt (o : option char) : bool :=
  match o with Some c => Py.isword c | None => false end.

Definition under (n : nat) (hi : option nat) : bool :=
  match hi with Some h => n <? h | None => true end.

(** The loop of a greedy repetition [r{lo,hi}] after [n] iterations:
    one more iteration of [body] is tried first, stopping second.  An
    iteration beyond [lo] must consume text. *)
Fixpoint rep_loop {A} (body : (state -> option A) -> state -> option A)
  (k : state -> option A) (lo : nat) (hi : option nat) (fuel n : nat)
  (st0 : state) {struct fuel} : option A :=
  let stop := if lo <=? n then k st0 else None in
  match fuel with
  | O => stop
  | S fuel' =>
      if under n hi then
        match
          body
            (fun st1 =>
               if (length (rest st1) <? length (rest st0)) || (n <? lo)
               then rep_loop body k lo hi fuel' (S n) st1 else None) st0
        with
        | Some x => Some x
        | None => stop
        end
      else stop
  end.

(** Backtracking matcher in continuation-passing style: alternatives are
    tried left to right and repetitions are greedy, as in [re]. *)
Fixpoint run {A} (ic : bool) (r : regex) (k : state -> option A) (st : state)
  {struct r} : option A :=
  match r with
  | Eps => k st
  | Lit c => step1 (lit_eq ic c) k st
  | Dot => step1 (fun c => negb (c =? NL)%N) k st
  | Class items => step1 (in_class ic items) k st
  | Bol => match prev st with None => k st | Some _ => None end
  | Eol =>
      match rest st with
      | [] => k st
      | [c] => if (c =? NL)%N then k st else None
      | _ => None
      end
  | WordB =>
      if xorb (is_word_opt (prev st)) (is_word_opt (head (rest st)))
      then k st else None
  | Seq r1 r2 => run ic r1 (run ic r2 k) st
  | Alt r1 r2 =>
      match run ic r1 k st with
      | Some x => Some x
      | None => run ic r2 k st
      end
  | Rep r' lo hi => rep_loop (run ic r') k lo hi (lo + length (rest st)) 0 st
  | Group n r' =>
      run ic r'
        (fun st1 =>
           let got := take (length (rest st) - length (rest st1)) (rest st) in
           k (State (prev st1) (rest st1) ((n, got) :: caps st1)))
        st
  end.

(** A match object: where it starts, group 0 and the numbered groups. *)
Record Match := MkMatch {
  mstart : nat;
  group0 : str;
  mcaps : list (nat * str)
}.

Fixpoint assoc (n : nat) (l : list (nat * str)) : option str :=
  match l with
  | [] => None
  | (m, v) :: tl => if n =? m then Some v else assoc n tl
  end.

(** [m.group(n)] for a group that took part in the match. *)
Definition group (m : Match) (n : nat) : str :=
  match n with
  | O => group0 m
  | _ => default [] (assoc n (mcaps m))
  end.

Definition match_at (ic : bool) (r : regex) (start : nat) (p : option char)
  (x : str) : option Match :=
  run ic r
    (fun st => Some (MkMatch start (take (length x - length (rest st)) x) (caps st)))
    (State p x []).

(** [re.match(r, x)] *)
Definition match_ (ic : bool) (r : regex) (x : str) : option Match :=
  match_at ic r 0 None x.

(** [re.search(r, x)]: the leftmost start at which [r] matches. *)
Fixpoint search_from (ic : bool) (r : regex) (start : nat) (p : option char)
  (x : str) : option Match :=
  match match_at ic r start p x with
  | Some m => Some m
  | None =>
      match x with
      | [] => None
      | c :: tl => search_from ic r (S start) (Some c) tl
      end
  end.

Definition search (ic : bool) (r : regex) (x : str) : option Match :=
  search_from ic r 0 None x.

(** The character before offset [j] of a text [x] that follows [p]. *)
Definition char_before (p : option char) (x : str) (j : nat) : option char :=
  match j with
  | O => p
  | S j' => x !! j'
  end.

(** [re.sub(r, "", x)] for a pattern that matches no empty string: every
    leftmost match is deleted. *)
Fixpoint delete_from (fuel : nat) (r : regex) (p : option char) (x : str)
  : str :=
  match fuel, x with
  | O, _ => x
  | _, [] => []
  | S fuel', c :: tl =>
      match match_at false r 0 p x with
      | Some m =>
          match group0 m with
          | [] => c :: delete_from fuel' r (Some c) tl
          | g =>
              delete_from fuel' r (Some (List.last g c)) (drop (length g) x)
          end
      | None => c :: delete_from fuel' r (Some c) tl
      end
  end.

Definition delete_all (r : regex) (x : str) : str :=
  delete_from (length x) r None x.

(** Every character [r] can consume satisfies [ok]. *)
Fixpoint consumes_only (ic : bool) (ok : char -> bool) (r : regex) : Prop :=
  match r with
  | Eps | Bol | Eol | WordB => True
  | Lit c => forall x, lit_eq ic c x = true -> ok x = true
  | Dot => forall x, negb (x =? NL)%N = true -> ok x = true
  | Class items => forall x, in_class ic items x = true -> ok x = true
  | Seq r1 r2 | Alt r1 r2 => consumes_only ic ok r1 /\ consumes_only ic ok r2
  | Rep r' _ _ | Group _ r' => consumes_only ic ok r'
  end.

(** Every match of [r] consumes a character that satisfies [wanted]. *)
Fixpoint demands (ic : bool) (wanted : char -> bool) (r : regex) : Prop :=
  match r with
  | Eps | Bol | Eol | WordB | Dot => False
  | Lit c => forall x, lit_eq ic c x = true -> wanted x = true
  | Class items => forall x, in_class ic items x = true -> wanted x = true
  | Seq r1 r2 => demands ic wanted r1 \/ demands ic wanted r2
  | Alt r1 r2 => demands ic wanted r1 /\ demands ic wanted r2
  | Rep r' lo _ => 1 <= lo /\ demands ic wanted r'
  | Group _ r' => demands ic wanted r'
  end.

(** A result of the matcher is a result of its continuation, reached after
    consuming a prefix of the text. *)
Definition advances {A} (ok : char -> bool)
  (f : (state -> option A) -> state -> option A) : Prop :=
  forall k st a,
    f k st = Some a ->
    exists st' consumed,
      k st' = Some a
      /\ rest st = consumed ++ rest st'
      /\ forallb ok consumed = true.

(** Builders used to write the patterns of the source. *)
Definition lit (x : string) : regex :=
  foldr (fun c r => Seq (Lit c) r) Eps (s x).
Definition seq (rs : list regex) : regex := foldr Seq Eps rs.
Definition alts (r : regex) (rs : list regex) : regex :=
  foldl Alt r rs.
Definition star (r : regex) : regex := Rep r 0 None.
Definition plus (r : regex) : regex := Rep r 1 None.
Definition opt (r : regex) : regex := Rep r 0 (Some 1).
Definition atleast (n : nat) (r : regex) : regex := Rep r n None.
Definition times (lo hi : nat) (r : regex) : regex := Rep r lo (Some hi).
Definition one (x : string) : item := One (chr x).
Definition range (lo hi : string) : item := Range (chr lo) (chr hi).
Definition ws : regex := Class [Space].
Definition digit : regex := Class [Digit].

End Re.

(** ** Exceptions *)

Inductive exn :=
| IndexError
| ValueError
| RuntimeError
| FitzError.

Inductive result (A : Type) :=
| Ok (a : A)
| Raise (e : exn).
Arguments Ok {A} a.
Arguments Raise {A} e.

Definition rbind {A B} (m : result A) (f : A -> result B) : result B :=
  match m with
  | Ok a => f a
  | Raise e => Raise e
  end.

Notation "'let!' x ':=' m 'in' k" := (rbind m (fun x => k))
  (at level 10, x pattern, m at level 100, k at level 200).

(** [l[i]] *)
Definition index {A} (l : list A) (i : nat) : result A :=
  match l !! i with
  | Some x => Ok x
  | None => Raise IndexError
  end.

(** [min(l)] *)
Definition py_min (l : list nat) : result nat :=
  match l with
  | [] => Raise ValueError
  | x :: xs => Ok (foldl Nat.min x xs)
  end.

(** [[c for c in l if c is not None]] *)
Definition present (l : list (option nat)) : list nat := omap id l.

Definition is_some {A} (o : option A) : bool :=
  match o with Some _ => true | None => false end.

(** ** Boundary locator *)

Import Re.

(** The pattern [[=\s]+] of the normalised form. *)
Definition SIMPLE_PATTERN : regex := plus (Class [one "="; Space]).

(** [re.sub(r"[=\s]+", "", ln)] *)
Definition simplify (ln : str) : str := delete_all SIMPLE_PATTERN ln.

(** [re.match(pat, raw) or re.match(pat, simp)] for some [pat] of the list. *)
Definition any_match (patterns : list regex) (raw simp : str) : bool :=
  existsb (fun pat => is_some (match_ false pat raw)
                      || is_some (match_ false pat simp)) patterns.

(** The loop of [find_index] over [enumerate(zip(lc, lc_simple))], the
    enumeration starting at [idx]. *)
Fixpoint find_from (idx : nat) (patterns : list regex) (rows : list (str * str))
  : option nat :=
  match rows with
  | [] => None
  | (raw, simp) :: rows' =>
      if any_match patterns raw simp then Some idx
      else find_from (S idx) patterns rows'
  end.

Definition find_index (patterns : list regex) (lines : list str) : option nat :=
  let lc := map Py.lower lines in
  let lc_simple := map (fun ln => simplify (Py.lower ln)) lines in
  find_from 0 patterns (zip lc lc_simple).

(** *** Pattern tables *)

Definition dash_class : list item := [Space; One EN_DASH; One EM_DASH; one "-"].
Definition sep_class : list item := [one ":"; one "-"; One EN_DASH; One EM_DASH].

Definition ABSTRACT_PATTERNS : list regex := [
  (* ^abstract[:\s]*$ *)
  seq [Bol; lit "abstract"; star (Class [one ":"; Space]); Eol];
  (* ^abstract[\s–—-].+ *)
  seq [Bol; lit "abstract"; Class dash_class; plus Dot];
  (* ^summary[:\s]*$ *)
  seq [Bol; lit "summary"; star (Class [one ":"; Space]); Eol];
  (* ^={2,}\s*abstract\s*={2,}$ *)
  seq [Bol; atleast 2 (Lit (chr "=")); star ws; lit "abstract"; star ws;
       atleast 2 (Lit (chr "=")); Eol];
  (* ^abstract\s*[:\-–—]\s*.+$ *)
  seq [Bol; lit "abstract"; star ws; Class sep_class; star ws; plus Dot; Eol];
  (* ^summary\s*[:\-–—]\s*.+$ *)
  seq [Bol; lit "summary"; star ws; Class sep_class; star ws; plus Dot; Eol];
  (* ^#+\s*abstract\s*$ *)
  seq [Bol; plus (Lit (chr "#")); star ws; lit "abstract"; star ws; Eol];
  (* ^\*\*abstract\*\*$ *)
  seq [Bol; lit "**abstract**"; Eol]
].

Definition roman : regex :=
  Class [one "i"; one "v"; one "x"; one "l"; one "c"; one "d"; one "m"].

Definition INTRO_PATTERNS : list regex := [
  (* ^[0-9]+\.?\s*introduction$ *)
  seq [Bol; plus (Class [range "0" "9"]); opt (Lit (chr ".")); star ws;
       lit "introduction"; Eol];
  (* ^[ivxlcdm]+\.?\s*introduction$ *)
  seq [Bol; plus roman; opt (Lit (chr ".")); star ws; lit "introduction"; Eol];
  (* ^section\s*[0-9]+[:\.]?\s*introduction$ *)
  seq [Bol; lit "section"; star ws; plus (Class [range "0" "9"]);
       opt (Class [one ":"; one "."]); star ws; lit "introduction"; Eol];
  (* ^introduction$ *)
  seq [Bol; lit "introduction"; Eol];
  (* ^background$ *)
  seq [Bol; lit "background"; Eol];
  (* ^={2,}\s*introduction\s*={2,}$ *)
  seq [Bol; atleast 2 (Lit (chr "=")); star ws; lit "introduction"; star ws;
       atleast 2 (Lit (chr "=")); Eol]
].

Definition END_PATTERNS : list regex := [
  (* ^references$ *)
  seq [Bol; lit "references"; Eol];
  (* ^reference$ *)
  seq [Bol; lit "reference"; Eol];
  (* ^literature\s+cited$ *)
  seq [Bol; lit "literature"; plus ws; lit "cited"; Eol];
  (* ^works\s+cited$ *)
  seq [Bol; lit "works"; plus ws; lit "cited"; Eol];
  (* ^bibliography$ *)
  seq [Bol; lit "bibliography"; Eol];
  (* ^acknowledg(?:ements)?$ *)
  seq [Bol; lit "acknowledg"; opt (lit "ements"); Eol];
  (* ^appendix$ *)
  seq [Bol; lit "appendix"; Eol];
  (* ^supplementary$ *)
  seq [Bol; lit "supplementary"; Eol];
  (* ^data\s+availability$ *)
  seq [Bol; lit "data"; plus ws; lit "availability"; Eol];
  (* ^conflicts\s+of\s+interest$ *)
  seq [Bol; lit "conflicts"; plus ws; lit "of"; plus ws; lit "interest"; Eol];
  (* ^funding$ *)
  seq [Bol; lit "funding"; Eol];
  (* ^={2,}\s*(references|bibliography|acknowledg|appendix|supplementary)\s*={2,}$ *)
  seq [Bol; atleast 2 (Lit (chr "=")); star ws;
       Group 1 (alts (lit "references")
                  [lit "bibliography"; lit "acknowledg"; lit "appendix";
                   lit "supplementary"]);
       star ws; atleast 2 (Lit (chr "=")); Eol]
].

Definition KEYWORDS_PATTERNS : list regex := [
  (* ^keywords?\b *)
  seq [Bol; lit "keyword"; opt (Lit (chr "s")); WordB];
  (* ^author\s+keywords?\b *)
  seq [Bol; lit "author"; plus ws; lit "keyword"; opt (Lit (chr "s")); WordB];
  (* ^key\s*words?\b *)
  seq [Bol; lit "key"; star ws; lit "word"; opt (Lit (chr "s")); WordB];
  (* ^index\s+terms?\b *)
  seq [Bol; lit "index"; plus ws; lit "term"; opt (Lit (chr "s")); WordB];
  (* ^jel\s+classification\b *)
  seq [Bol; lit "jel"; plus ws; lit "classification"; WordB];
  (* ^msc\s+classification\b *)
  seq [Bol; lit "msc"; plus ws; lit "classification"; WordB]
].

Definition NUMBERED_PATTERNS : list regex := [
  (* ^[0-9]+\s*[\.)]?\s+[A-Z].* *)
  seq [Bol; plus (Class [range "0" "9"]); star ws;
       opt (Class [one "."; one ")"]); plus ws; Class [range "A" "Z"]; star Dot];
  (* ^(?:[ivxlcdm]+)\s*[\.)]?\s+[A-Z].* *)
  seq [Bol; plus roman; star ws; opt (Class [one "."; one ")"]); plus ws;
       Class [range "A" "Z"]; star Dot];
  (* ^[A-Z][A-Z\s]{3,}$ *)
  seq [Bol; Class [range "A" "Z"]; atleast 3 (Class [range "A" "Z"; Space]); Eol]
].

(** The inline pattern: [(?i)abstract], then [(?:[\s–—-]+)], then group 1
    capturing [.*]; the flag [(?i)] is passed to the matcher. *)
Definition INLINE_PATTERN : regex :=
  seq [lit "abstract"; plus (Class dash_class); Group 1 (star Dot)].

(** ** Section partitioner *)

(** [_first_after(start, patterns)] *)
Definition first_after (stripped : list str) (start : nat) (patterns : list regex)
  : option nat :=
  match find_index patterns (drop (start + 1) stripped) with
  | Some j => Some (start + 1 + j)
  | None => None
  end.

(** [idx if (idx is not None and idx > abstract_idx) else None] *)
Definition after (abstract_idx : nat) (idx : option nat) : option nat :=
  match idx with
  | Some k => if abstract_idx <? k then Some k else None
  | None => None
  end.

Definition keywords_index (stripped : list str) : option nat :=
  find_index KEYWORDS_PATTERNS stripped.

Definition kw_after (stripped : list str) (abstract_idx : nat) : option nat :=
  after abstract_idx (keywords_index stripped).

Definition intro_after (abstract_idx : nat) (intro_idx : option nat) : option nat :=
  after abstract_idx intro_idx.

Definition numbered_after (stripped : list str) (abstract_idx : nat)
  (intro_idx : option nat) : option nat :=
  if negb (is_some (kw_after stripped abstract_idx))
     && negb (is_some (intro_after abstract_idx intro_idx))
  then first_after stripped abstract_idx NUMBERED_PATTERNS
  else None.

Definition candidates (stripped : list str) (abstract_idx : nat)
  (intro_idx : option nat) : list nat :=
  present [kw_after stripped abstract_idx;
           intro_after abstract_idx intro_idx;
           numbered_after stripped abstract_idx intro_idx;
           Some (length stripped)].

Definition abs_end (stripped : list str) (abstract_idx : nat)
  (intro_idx : option nat) : result nat :=
  py_min (candidates stripped abstract_idx intro_idx).

Definition Zones : Type := list str * list str * list str * list str.

Definition extract_sections (stripped : list str)
  (abstract_idx intro_idx end_idx : option nat) : result Zones :=
  let! pre_intro :=
    if is_some abstract_idx || is_some intro_idx then
      let! first_break := py_min (present [abstract_idx; intro_idx]) in
      Ok (take first_break stripped)
    else Ok (take 50 stripped) in
  let! abstract :=
    match abstract_idx with
    | Some a =>
        let! abs_end := abs_end stripped a intro_idx in
        let! header_line := index stripped a in
        match match_ true INLINE_PATTERN header_line with
        | Some inline =>
            Ok ([Py.strip (group inline 1)] ++ Py.slice stripped (a + 1) abs_end)
        | None => Ok (Py.slice stripped (a + 1) abs_end)
        end
    | None =>
        match intro_idx with
        | Some i => if 5 <? i then Ok (take i stripped) else Ok []
        | None => Ok []
        end
    end in
  let body_start :=
    match intro_idx with
    | Some i => i
    | None => match abstract_idx with Some a => a + 1 | None => 0 end
    end in
  let body_end :=
    match end_idx with Some e => e | None => length stripped end in
  let main_body := Py.slice stripped body_start body_end in
  let end_matter :=
    match end_idx with Some e => drop (e + 1) stripped | None => [] end in
  Ok (pre_intro, abstract, main_body, end_matter).

(** ** Documents *)

(** A link annotation; [uri] is [link.get("uri")]. *)
Record Link := MkLink { uri : option str }.

(** A page of a [fitz.Document]; reading it may raise. *)
Record Page := MkPage {
  get_text : result str;
  get_links : result (list Link)
}.

(** The part of a [fitz.Document] the module reads.  A key of [metadata]
    whose value is [None] is modelled as absent (both are falsy). *)
Record Document := MkDocument {
  pages : list Page;
  metadata : option (gmap string str)
}.

Definition page_count (doc : Document) : nat := length (pages doc).

Fixpoint collect {A} (l : list (result A)) : result (list A) :=
  match l with
  | [] => Ok []
  | r :: rest =>
      let! x := r in
      let! xs := collect rest in
      Ok (x :: xs)
  end.

Definition extract_text_and_lines (doc : Document) : result (str * list str) :=
  let! pages := collect (map get_text (pages doc)) in
  let full_text := Py.join [NL] pages in
  let lines := Py.splitlines full_text in
  let stripped := map Py.strip lines in
  Ok (full_text, stripped).

(** ** Metadata extractor *)

(** [(20\d{2}|19\d{2})] *)
Definition YEAR_PATTERN : regex :=
  Group 1 (Alt (seq [lit "20"; times 2 2 digit]) (seq [lit "19"; times 2 2 digit])).

(** [publication in ([A-Za-z &()\.\-]+)] *)
Definition OUTLET_PATTERN : regex :=
  seq [lit "publication in ";
       Group 1 (plus (Class [range "A" "Z"; range "a" "z"; one " "; one "&";
                             one "("; one ")"; one "."; one "-"]))].

(** [\b10\.\d{4,9}/[-._;()/:A-Za-z0-9]+\b] *)
Definition doi_pattern : regex :=
  seq [WordB; lit "10."; times 4 9 digit; lit "/";
       plus (Class [one "-"; one "."; one "_"; one ";"; one "("; one ")";
                    one "/"; one ":"; range "A" "Z"; range "a" "z";
                    range "0" "9"]);
       WordB].

(** The identifier [\d{4}\.\d{4,5}(?:v\d+)?] in group 1 of the arXiv
    pattern. *)
Definition arxiv_id : regex :=
  seq [times 4 4 digit; lit "."; times 4 5 digit; opt (seq [lit "v"; plus digit])].

(** [arxiv[:\s]*(\d{4}\.\d{4,5}(?:v\d+)?)] *)
Definition arxiv_pattern : regex :=
  seq [lit "arxiv"; star (Class [one ":"; Space]); Group 1 arxiv_id].

Definition license_markers : list str := map s [
  "creative commons";
  "cc by";
  "cc-by";
  "open access article";
  "open-access article";
  "open access";
  "distributed under the terms of the";
  "this is an open access article";
  "open access funded";
  "public domain";
  "u.s. government work"
]%string.

(** The loop over [("creationDate", "modDate")]. *)
Fixpoint detect_year (meta : gmap string str) (keys : list string) : option str :=
  match keys with
  | [] => None
  | key :: keys' =>
      let val := default [] (meta !! key) in
      if Py.truthy val then
        match search false YEAR_PATTERN val with
        | Some m => Some (group m 1)
        | None => detect_year meta keys'
        end
      else detect_year meta keys'
  end.

Definition year_lines (doc : Document) : list str :=
  let meta := default ∅ (metadata doc) in
  match detect_year meta ["creationDate"; "modDate"]%string with
  | Some y => [s "Detected Publication Year: " ++ y]
  | None => []
  end.

(** The link targets appended to [id_chunks]. *)
Definition link_uris (links : list Link) : list str :=
  flat_map (fun link =>
              let u := Py.strip (default [] (uri link)) in
              if Py.truthy u then [u] else []) links.

Definition id_chunks (doc : Document) (pre_intro : list str) : result (list str) :=
  let chunks1 :=
    match pre_intro with [] => [] | _ => [Py.join [NL] pre_intro] end in
  match pages doc with
  | first_page :: _ =>
      let! text := get_text first_page in
      let chunks3 :=
        match get_links first_page with
        | Ok links => link_uris links
        | Raise _ => []
        end in
      Ok (chunks1 ++ [text] ++ chunks3)
  | [] => Ok chunks1
  end.

(** The safe zone of the identifier search. *)
Definition id_text (doc : Document) (pre_intro : list str) : result str :=
  let! chunks := id_chunks doc pre_intro in
  Ok (Py.join [NL] chunks).

Definition outlet_lines (pre_intro : list str) : list str :=
  match search true OUTLET_PATTERN (Py.join [NL] pre_intro) with
  | Some m => [s "Detected Publication Outlet: " ++ Py.strip (group m 1)]
  | None => []
  end.

Definition doi_lines (id_text : str) : list str :=
  match search false doi_pattern id_text with
  | Some m =>
      let detected_doi := group m 0 in
      [s "Detected DOI: " ++ detected_doi;
       s "Detected DOI URL: https://doi.org/" ++ detected_doi]
  | None => []
  end.

Definition arxiv_lines (id_text : str) : list str :=
  match search true arxiv_pattern id_text with
  | Some am =>
      let detected_arxiv := group am 1 in
      [s "Detected arXiv ID: " ++ detected_arxiv;
       s "Detected arXiv URL: https://arxiv.org/abs/" ++ detected_arxiv]
  | None => [s "No arXiv ID detected."]
  end.

(** [any(marker in text_lower for marker in license_markers)] *)
Definition has_marker (text_lower : str) : bool :=
  existsb (fun marker => Py.contains marker text_lower) license_markers.

Definition outlet_is_arxiv (meta_lines : list str) : bool :=
  existsb (Py.contains (s "Detected Publication Outlet: arXiv")) meta_lines.

Definition open_access (meta_lines : list str) (pre_intro : list str)
  (full_text : str) : str :=
  let text := Py.join [NL] pre_intro ++ [NL] ++ full_text in
  let text_lower := Py.lower text in
  let open_access := if has_marker text_lower then s "Yes" else s "No" in
  if outlet_is_arxiv meta_lines then s "Yes" else open_access.

(** The list [meta_lines] before the open-access line is appended. *)
Definition detected_lines (doc : Document) (pre_intro : list str) (id_text : str)
  : list str :=
  year_lines doc ++ outlet_lines pre_intro ++ doi_lines id_text
  ++ arxiv_lines id_text.

(** The list [meta_lines] at the end of [extract_metadata]. *)
Definition metadata_lines (doc : Document) (full_text : str) (pre_intro : list str)
  : result (list str) :=
  let! id_text := id_text doc pre_intro in
  let meta_lines := detected_lines doc pre_intro id_text in
  Ok (meta_lines
      ++ [s "Detected Open Access: " ++ open_access meta_lines pre_intro full_text]).

Definition extract_metadata (doc : Document) (full_text : str)
  (pre_intro : list str) : result str :=
  let! meta_lines := metadata_lines doc full_text pre_intro in
  match meta_lines with
  | [] => Ok []
  | _ => Ok (Py.join [NL] meta_lines ++ [NL])
  end.

(** ** The pipeline *)

Record Sections := MkSections {
  pre_intro : str;
  abstract : str;
  main_body : str;
  end_matter : str
}.

Record Output := MkOutput {
  sections : Sections;
  full_text : str
}.

(** The three boundary searches and the partition of the stripped lines. *)
Definition partition (stripped : list str) : result Zones :=
  let abstract_idx := find_index ABSTRACT_PATTERNS stripped in
  let intro_idx := find_index INTRO_PATTERNS stripped in
  let end_idx := find_index END_PATTERNS stripped in
  extract_sections stripped abstract_idx intro_idx end_idx.

(** The body of the [try] block of [extract_text_from_attachment]. *)
Definition process (doc : Document) : result Output :=
  let! (full_text, stripped) := extract_text_and_lines doc in
  let! (pre_intro, abstract, main_body, end_matter) := partition stripped in
  let! meta_block := extract_metadata doc full_text pre_intro in
  let pre_intro_section := Py.strip (meta_block ++ Py.join [NL] pre_intro) in
  let pre_intro_section :=
    if Py.truthy pre_intro_section then pre_intro_section else full_text in
  Ok {| sections :=
          {| pre_intro := pre_intro_section;
             abstract :=
               Py.strip (Py.join (s " ")
                           (filter (fun l => Py.truthy l = true)
                                   (map Py.strip abstract)));
             main_body := Py.strip (Py.join [NL] main_body);
             end_matter := Py.strip (Py.join [NL] end_matter) |};
        full_text := full_text |}.

(** *** The document handle *)

Inductive event := Opened | Closed.

#[global] Instance event_eq_dec : EqDecision event.
Proof. solve_decision. Defined.

(** The number of [close] calls in a trace. *)
Definition closes (t : list event) : nat :=
  length (filter (fun ev => ev = Closed) t).

(** Computations that act on the handle and may raise. *)
Definition M (A : Type) : Type := list event -> list event * result A.

Definition raise {A} (e : exn) : M A := fun t => (t, Raise e).

(** A call that returns an open document, or raises without opening one. *)
Definition opening (r : result Document) : M Document :=
  fun t =>
    match r with
    | Ok doc => (t ++ [Opened], Ok doc)
    | Raise e => (t, Raise e)
    end.

(** [doc.close()] *)
Definition close (doc : Document) : M unit := fun t => (t ++ [Closed], Ok tt).

Definition lift {A} (r : result A) : M A := fun t => (t, r).

Definition mbind {A B} (m : M A) (f : A -> M B) : M B :=
  fun t =>
    match m t with
    | (t', Ok a) => f a t'
    | (t', Raise e) => (t', Raise e)
    end.

(** [try: body finally: fin] *)
Definition try_finally {A} (body : M A) (fin : M unit) : M A :=
  fun t =>
    match body t with
    | (t1, r) =>
        match fin t1 with
        | (t2, Ok _) => (t2, r)
        | (t2, Raise e) => (t2, Raise e)
        end
    end.

Inductive attachment :=
| AStr (path : str)
| ADict (d : gmap string str)
| AOther.

Section Attachment.

(** The collaborators: [fitz.open], [os.path.exists] and [download_pdf]. *)
Variable fitz_open : str -> result Document.
Variable path_exists : str -> bool.
Variable download_pdf : str -> result Document.

(** The document an attachment resolves to. *)
Definition resolve (att : attachment) : result Document :=
  match att with
  | AStr path => fitz_open path
  | ADict d =>
      match d !! "url"%string with
      | Some url => if path_exists url then fitz_open url else download_pdf url
      | None => Raise ValueError
      end
  | AOther => Raise ValueError
  end.

Definition extract_text_from_attachment (att : attachment) : M Output :=
  mbind (opening (resolve att))
    (fun doc => try_finally (lift (process doc)) (close doc)).

End Attachment.

(** ** Line ranges of the zones *)

(** A half-open range of line indices, [(lo, hi)] standing for [lo:hi]. *)
Definition span : Type := nat * nat.

Definition lines_of (stripped : list str) (sp : span) : list str :=
  Py.slice stripped sp.1 sp.2.

(** Line [k] of a document of [n] lines lies in the slice [sp]. *)
Definition covers (n : nat) (sp : span) (k : nat) : bool :=
  (sp.1 <=? k) && (k <? sp.2) && (k <? n).

Definition body_start (abstract_idx intro_idx : option nat) : nat :=
  match intro_idx with
  | Some i => i
  | None => match abstract_idx with Some a => a + 1 | None => 0 end
  end.

(** The slices [extract_sections] takes, in the order of its result. *)
Definition zone_spans (stripped : list str)
  (abstract_idx intro_idx end_idx : option nat)
  : result (span * span * span * span) :=
  let! pre :=
    if is_some abstract_idx || is_some intro_idx then
      let! first_break := py_min (present [abstract_idx; intro_idx]) in
      Ok (0, first_break)
    else Ok (0, 50) in
  let! abs :=
    match abstract_idx with
    | Some a =>
        let! stop := abs_end stripped a intro_idx in
        Ok (a + 1, stop)
    | None =>
        match intro_idx with
        | Some i => if 5 <? i then Ok (0, i) else Ok (0, 0)
        | None => Ok (0, 0)
        end
    end in
  let body :=
    (body_start abstract_idx intro_idx,
     match end_idx with Some e => e | None => length stripped end) in
  let endm :=
    match end_idx with Some e => (e + 1, length stripped) | None => (0, 0) end in
  Ok (pre, abs, body, endm).

(** The number of the given slices that contain line [k]. *)
Definition zones_at (n : nat) (spans : list span) (k : nat) : nat :=
  length (filter (fun sp => covers n sp k = true) spans).

(** The partition invariant of the specification: every line lies in exactly
    one zone, the abstract counted either as a zone of its own or as carved
    from the range that contains it. *)
Definition every_line_in_one_zone (stripped : list str)
  (abstract_idx intro_idx end_idx : option nat) : Prop :=
  exists pre abs body endm,
    zone_spans stripped abstract_idx intro_idx end_idx = Ok (pre, abs, body, endm)
    /\ forall k, k < length stripped ->
         zones_at (length stripped) [pre; abs; body; endm] k = 1
         \/ zones_at (length stripped) [pre; body; endm] k = 1.

(** ** Readings of the boundary locator *)

(** A line matches when its lowercased form or its normalised form does:
    the test of [find_index]. *)
Definition matches_lowered (patterns : list regex) (ln : str) : bool :=
  any_match patterns (Py.lower ln) (simplify (Py.lower ln)).

(** A line matches when its raw form or its normalised form does. *)
Definition matches_raw (patterns : list regex) (ln : str) : bool :=
  any_match patterns ln (simplify (Py.lower ln)).

(** [find_index] returns the first line that [test] accepts, if any. *)
Definition first_line_where (test : str -> bool) (lines : list str)
  (found : option nat) : Prop :=
  match found with
  | Some idx =>
      (exists ln, lines !! idx = Some ln /\ test ln = true)
      /\ forall j ln, j < idx -> lines !! j = Some ln -> test ln = false
  | None => forall ln, ln ∈ lines -> test ln = false
  end.

(** ** Sample documents *)

Definition text_page (text : string) : Page :=
  {| get_text := Ok (s text); get_links := Ok [] |}.

(** The scenario of the specification, on one page. *)
Definition scenario_lines : list str :=
  map s ["Abstract"; "Line one"; "Line two"; "Introduction"; "Body text";
         "References"; "Cite 1"]%string.

Definition scenario_text : str := Py.join [NL] scenario_lines.

(** One page whose only DOI follows the References heading. *)
Definition doi_in_references : Document :=
  {| pages :=
       [{| get_text :=
             Ok (Py.join [NL]
                   (map s ["Abstract"; "Line one"; "Introduction"; "Body text";
                           "References"; "Cite 1 doi:10.1234/abc.567"]%string));
           get_links := Ok [] |}];
     metadata := None |}.

(** The same text with the end matter on a second page. *)
Definition doi_on_second_page : Document :=
  {| pages :=
       [{| get_text :=
             Ok (Py.join [NL]
                   (map s ["Abstract"; "Line one"; "Introduction";
                           "Body text"]%string));
           get_links := Ok [] |};
        {| get_text :=
             Ok (Py.join [NL]
                   (map s ["References"; "Cite 1 doi:10.1234/abc.567";
                           "Licensed under Creative Commons"]%string));
           get_links := Ok [] |}];
     metadata := None |}.

(** A document without pages that carries a creation date. *)
Definition dated_empty_document : Document :=
  {| pages := [];
     metadata := Some {[ "creationDate"%string := s "D:20210615120000Z" ]} |}.

(** A document whose second page cannot be read. *)
Definition unreadable_document : Document :=
  {| pages := [text_page "Abstract";
               {| get_text := Raise FitzError; get_links := Ok [] |}];
     metadata := None |}.

(** The value of a computation that did not raise. *)
Definition value {A} (d : A) (r : result A) : A :=
  match r with Ok a => a | Raise _ => d end.

(** The page texts of a document. *)
Definition texts_of (doc : Document) : list str :=
  value [] (collect (map get_text (pages doc))).

(** The full text, the [pre_intro] zone and the safe zone of a document, as
    the pipeline computes them. *)
Definition full_text_of (doc : Document) : str :=
  value [] (let! (full, _) := extract_text_and_lines doc in Ok full).

Definition pre_intro_of (doc : Document) : list str :=
  value []
    (let! (_, stripped) := extract_text_and_lines doc in
     let! (pre, _, _, _) := partition stripped in
     Ok pre).

Definition id_text_of (doc : Document) : str :=
  value [] (id_text doc (pre_intro_of doc)).

(** ** Readings of the metadata block *)

(** A string that starts with a character that is not whitespace. *)
Definition starts_nonspace (x : str) : Prop :=
  exists c tl, x = c :: tl /\ Py.isspace c = false.

(** A DOI that occurs only after the detected end-matter heading is not
    reported. *)
Definition doi_after_references_undetected (doc : Document) : Prop :=
  forall full stripped e pre abs body endm block,
    extract_text_and_lines doc = Ok (full, stripped) ->
    find_index END_PATTERNS stripped = Some e ->
    search false doi_pattern (Py.join [NL] (take (e + 1) stripped)) = None ->
    partition stripped = Ok (pre, abs, body, endm) ->
    extract_metadata doc full pre = Ok block ->
    Py.contains (s "Detected DOI") block = false.

(** The block of a document in which nothing was detected. *)
Definition bare_block : str :=
  Py.join [NL] [s "No arXiv ID detected."; s "Detected Open Access: No"] ++ [NL].

(** A document without pages yields the bare block. *)
Definition empty_document_bare_block (doc : Document) : Prop :=
  pages doc = [] -> extract_metadata doc [] [] = Ok bare_block.

(** An abstract heading with its text after a colon. *)
Definition colon_heading_lines : list str :=
  map s ["Abstract: We study X."; "More text"; "Introduction"; "Body"]%string.

(** The same heading with an em dash. *)
Definition dash_heading_lines : list str :=
  [s "Abstract " ++ [EM_DASH] ++ s " We study X."; s "More text";
   s "Introduction"; s "Body"].

(** ** Downloading *)

(** The outcome of one pass through the [try] block of [download_pdf]: the
    opened document, a [RequestException] (from [requests.get] or
    [raise_for_status]), or any other exception. *)
Inductive fetched :=
| Fetched (doc : Document)
| RequestFailed
| Crashed (e : exn).

(** What [download_pdf] does to the world: the request of an attempt, and
    [time.sleep(backoff_factor * multiplier)]. *)
Inductive net_event :=
| Get (attempt : nat)
| Sleep (multiplier : nat).

(** The loop [for attempt in range(retries)], with [todo] iterations left.
    [net attempt] is what the [try] block of that attempt comes to. *)
Fixpoint download_loop (net : nat -> fetched) (retries attempt todo : nat)
  : list net_event * result (option Document) :=
  match todo with
  | O => ([], Ok None)
  | S todo' =>
      match net attempt with
      | Fetched doc => ([Get attempt], Ok (Some doc))
      | Crashed e => ([Get attempt], Raise e)
      | RequestFailed =>
          if attempt <? retries - 1 then
            let '(events, r) := download_loop net retries (S attempt) todo' in
            (Get attempt :: Sleep (2 ^ attempt) :: events, r)
          else ([Get attempt], Raise RuntimeError)
      end
  end.

(** [download_pdf(url, timeout, retries, backoff_factor)], for the responses
    [net] of its url; [None] is the return value of a loop that ran out. *)
Definition download_pdf (net : nat -> fetched) (retries : nat)
  : list net_event * result (option Document) :=
  download_loop net retries 0 retries.

(** [download_pdf(url)] as [extract_text_from_attachment] calls it, with the
    default [retries=3]; with three attempts the loop never runs out, and the
    branch for [None] is not reached. *)
Definition download_default (net : str -> nat -> fetched) (url : str)
  : result Document :=
  match (download_pdf (net url) 3).2 with
  | Ok (Some doc) => Ok doc
  | Ok None => Raise ValueError
  | Raise e => Raise e
  end.

Definition gets (events : list net_event) : list nat :=
  omap (fun ev => match ev with Get n => Some n | Sleep _ => None end) events.

Definition sleeps (events : list net_event) : list nat :=
  omap (fun ev => match ev with Sleep m => Some m | Get _ => None end) events.

(** The events of [k] failed attempts that are retried. *)
Definition retried (k : nat) : list net_event :=
  flat_map (fun j => [Get j; Sleep (2 ^ j)]) (List.seq 0 k).

(** ** The record that names the document *)

(** The fields of an Airtable record that [process_single_record] reads to
    find the document: the attachment list [PDF] and the texts [DOI/URL] and
    [Source URL]. *)
(** The fields of a record that [process_single_record] reads: the list
    under ["PDF"], whose entries may be [None], and the two texts. *)
Record Fields := MkFields {
  PDF : option (list (option attachment));
  DOI_URL : option str;
  Source_URL : option str
}.

Definition SLASH : char := chr "/".

Fixpoint drop_slashes (x : str) : str :=
  match x with
  | c :: rest => if (c =? SLASH)%N then drop_slashes rest else x
  | [] => []
  end.

Fixpoint upto_slash (x : str) : str :=
  match x with
  | c :: rest => if (c =? SLASH)%N then [] else c :: upto_slash rest
  | [] => []
  end.

(** [x.rstrip("/")] *)
Definition rstrip_slash (x : str) : str := rev (drop_slashes (rev x)).

(** [x.split("/")[-1]] *)
Definition last_segment (x : str) : str := rev (upto_slash (rev x)).

(** [a or b] followed by the test [if source_url:], on optional texts. *)
Definition first_truthy (a b : option str) : option str :=
  match a with
  | Some x => if Py.truthy x then Some x else
                match b with
                | Some y => if Py.truthy y then Some y else None
                | None => None
                end
  | None =>
      match b with
      | Some y => if Py.truthy y then Some y else None
      | None => None
      end
  end.

(** [attachment] after the lookup of ["PDF"]: the first entry of a list
    that is not empty. *)
Definition pdf_attachment (fields : Fields) : option attachment :=
  match default [] (PDF fields) with
  | att :: _ => att
  | [] => None
  end.

(** The attachment and the canonical source URL that [process_single_record]
    computes before it opens the document; [None] stands for the
    [ProcessingError] it raises when the record names no document. *)
Definition record_attachment (fields : Fields)
  : option (attachment * option str) :=
  match pdf_attachment fields with
  | Some att => Some (att, None)
  | None =>
      match first_truthy (DOI_URL fields) (Source_URL fields) with
      | Some source_url =>
          let url := Py.strip source_url in
          if Py.contains (s "arxiv.org/abs/") url then
            let arxiv_id := last_segment (rstrip_slash url) in
            Some (ADict {[ "url"%string :=
                             s "https://arxiv.org/pdf/" ++ arxiv_id ++ s ".pdf" ]},
                  Some (s "https://arxiv.org/abs/" ++ arxiv_id))
          else Some (ADict {[ "url"%string := url ]}, Some url)
      | None => None
      end
  end.

(** ** The text a batch of fields is extracted from *)

(** [FieldProcessor._default_context_scope] *)
Definition default_context_scope (batch_name : str) : str :=
  let name := Py.lower batch_name in
  if Py.contains (s "meta") name then s "pre_intro"
  else if Py.contains (s "abstract") name then s "abstract"
  else if Py.contains (s "outcome") name then s "main_body"
  else if Py.contains (s "semantic") name then s "main_body"
  else s "main_body".

(** The value of ["sections"] in the result of
    [extract_text_from_attachment]. *)
Definition sections_dict (out : Output) : gmap str str :=
  {[ s "pre_intro" := pre_intro (sections out);
     s "abstract" := abstract (sections out);
     s "main_body" := main_body (sections out);
     s "end_matter" := end_matter (sections out) ]}.

(** [pdf_data.get("full_text") or "\n\n".join(sections.values())] *)
Definition record_text (out : Output) : str :=
  if Py.truthy (full_text out) then full_text out
  else Py.join [NL; NL]
         [pre_intro (sections out); abstract (sections out);
          main_body (sections out); end_matter (sections out)].

(** Truthiness of an optional dictionary and of an optional text. *)
Definition dict_truthy (d : option (gmap str str)) : bool :=
  match d with
  | Some m => negb (bool_decide (m = ∅))
  | None => false
  end.

Definition scope_truthy (scope : option str) : bool :=
  match scope with Some x => Py.truthy x | None => false end.

(** The scoped text of a batch in [FieldProcessor.process_fields]. *)
Definition scoped_text (sections : option (gmap str str)) (scope : option str)
  (full_text : str) : str :=
  let scoped_text :=
    if scope_truthy scope && dict_truthy sections then
      default full_text (default ∅ sections !! default [] scope)
    else full_text in
  if scope_truthy scope && dict_truthy sections
     && negb (Py.truthy (Py.strip scoped_text))
  then full_text else scoped_text.

(** A field definition of the configuration: [enabled] is the truth value
    of [field.get("enabled", True)], [batch] and [prompt] are absent when
    they are missing. *)
Record Field := MkField {
  field_name : str;
  field_prompt : option str;
  field_batch : option str;
  field_enabled : bool
}.

Record Batch := MkBatch {
  batch_name : str;
  batch_enabled : bool;
  context_scope : str;
  structured_output : bool
}.

(** The dictionary [batch_map], in insertion order. *)
Definition has_batch (name : str) (batch_map : list (str * Batch)) : bool :=
  existsb (fun kv => bool_decide (kv.1 = name)) batch_map.

(** The loop of [FieldProcessor._build_batches] over [self.fields]. *)
Fixpoint build_batches_from (batch_map : list (str * Batch)) (fields : list Field)
  : list (str * Batch) :=
  match fields with
  | [] => batch_map
  | field :: rest =>
      if negb (field_enabled field) then build_batches_from batch_map rest
      else
        match field_batch field with
        | Some name =>
            if negb (Py.truthy name) then build_batches_from batch_map rest
            else if has_batch name batch_map
                 then build_batches_from batch_map rest
                 else build_batches_from
                        (batch_map
                         ++ [(name,
                              {| batch_name := name;
                                 batch_enabled := true;
                                 context_scope := default_context_scope name;
                                 structured_output := true |})])
                        rest
        | None => build_batches_from batch_map rest
        end
  end.

Definition build_batches (fields : list Field) : list (str * Batch) :=
  build_batches_from [] fields.

(** The batch names of the enabled fields, in order. *)
Definition enabled_batches (fields : list Field) : list str :=
  omap (fun f =>
          if field_enabled f then
            match field_batch f with
            | Some name => if Py.truthy name then Some name else None
            | None => None
            end
          else None) fields.

(** What [_build_batches] stores under a name. *)
Definition built_for (kv : str * Batch) : Prop :=
  batch_name kv.2 = kv.1 /\ batch_enabled kv.2 = true
  /\ context_scope kv.2 = default_context_scope kv.1
  /\ structured_output kv.2 = true.

(** ** Documents of ASCII text *)

(** The two dates read by the year detector are ASCII text. *)
Definition ascii_dates (doc : Document) : bool :=
  forallb (fun key => Py.isascii (default [] (default ∅ (metadata doc) !! key)))
    ["creationDate"; "modDate"]%string.

(** The text and the link targets of a page are ASCII text, as far as they
    can be read. *)
Definition ascii_page (page : Page) : bool :=
  match get_text page with Ok text => Py.isascii text | Raise _ => true end
  && match get_links page with
     | Ok links => forallb (fun link => Py.isascii (default [] (uri link))) links
     | Raise _ => true
     end.

(** All that a call [extract_metadata(doc, full_text, pre_intro)] reads is
    ASCII text: the two dates, the first page, [pre_intro] and
    [full_text]. *)
Definition ascii_call (doc : Document) (full_text : str) (pre_intro : list str)
  : bool :=
  ascii_dates doc
  && match pages doc with first_page :: _ => ascii_page first_page | [] => true end
  && forallb Py.isascii pre_intro
  && Py.isascii full_text.

(** The line that the heading at [abstract_idx] adds in front of the
    abstract: the stripped text after the separator, if the inline pattern
    matches the heading line. *)
Definition inline_text (stripped : list str) (abstract_idx : option nat)
  : list str :=
  match abstract_idx with
  | Some a =>
      match stripped !! a with
      | Some header_line =>
          match match_ true INLINE_PATTERN header_line with
          | Some inline => [Py.strip (group inline 1)]
          | None => []
          end
      | None => []
      end
  | None => []
  end.

(** The lines of the failing input of the numbered-heading scan. *)
Definition numbered_heading_lines : list str :=
  map s ["Abstract"; "We study X."; "2. Methods"; "We did Y."]%string.

(** The end-matter heading line, if there is one. *)
Definition heading_line (stripped : list str) (end_idx : option nat) : list str :=
  match end_idx with
  | Some e => match stripped !! e with Some hd => [hd] | None => [] end
  | None => []
  end.

(** The year found in one property value. *)
Definition year_in (val : str) : option str :=
  match search false YEAR_PATTERN val with
  | Some m => Some (group m 1)
  | None => None
  end.

(** * Properties *)

(** ** Minimum of candidates *)

Lemma foldl_min_le (xs : list nat) (x : nat) :
  foldl Nat.min x xs <= x /\ forall y, y ∈ xs -> foldl Nat.min x xs <= y.
Proof.
  revert x. induction xs as [|z xs IH]; intros x; simpl.
  - split; [lia|]. intros y Hy. inversion Hy.
  - destruct (IH (Nat.min x z)) as [H1 H2]. split; [lia|].
    intros y Hy. apply elem_of_cons in Hy as [->|Hy]; [lia|auto].
Qed.

Lemma foldl_min_elem (xs : list nat) (x : nat) :
  foldl Nat.min x xs ∈ x :: xs.
Proof.
  revert x. induction xs as [|z xs IH]; intros x; simpl.
  - apply elem_of_cons. left. reflexivity.
  - specialize (IH (Nat.min x z)).
    rewrite !elem_of_cons in *. destruct IH as [E|IH]; [|right; right; exact IH].
    rewrite E. destruct (Nat.min_spec x z) as [[_ ->]|[_ ->]]; auto.
Qed.

Lemma py_min_spec (l : list nat) (c : nat) :
  c ∈ l ->
  exists m, py_min l = Ok m /\ m ∈ l /\ forall y, y ∈ l -> m <= y.
Proof.
  destruct l as [|x xs]; intros Hc; [inversion Hc|].
  exists (foldl Nat.min x xs). split; [reflexivity|].
  split; [apply foldl_min_elem|].
  intros y Hy. destruct (foldl_min_le xs x) as [H1 H2].
  apply elem_of_cons in Hy as [->|Hy]; auto.
Qed.

(** ** The boundary locator returns the first matching line *)

Lemma find_from_first (patterns : list regex) (f g : str -> str)
  (lines : list str) (idx : nat) :
  match find_from idx patterns (zip (map f lines) (map g lines)) with
  | Some r =>
      idx <= r
      /\ (exists ln, lines !! (r - idx) = Some ln
                     /\ any_match patterns (f ln) (g ln) = true)
      /\ forall j ln, j < r - idx -> lines !! j = Some ln ->
                      any_match patterns (f ln) (g ln) = false
  | None =>
      forall ln, ln ∈ lines -> any_match patterns (f ln) (g ln) = false
  end.
Proof.
  revert idx. induction lines as [|l lines IH]; intros idx; simpl.
  - intros ln Hln. inversion Hln.
  - destruct (any_match patterns (f l) (g l)) eqn:Hl.
    + split; [lia|]. rewrite Nat.sub_diag. split.
      * exists l. split; [reflexivity|exact Hl].
      * intros j ln Hj. lia.
    + specialize (IH (S idx)).
      destruct (find_from (S idx) patterns (zip (map f lines) (map g lines)))
        as [r|].
      * destruct IH as (Hle & (ln & Hln & Hm) & Hbefore).
        split; [lia|]. split.
        -- exists ln. split; [|exact Hm].
           replace (r - idx) with (S (r - S idx)) by lia. exact Hln.
        -- intros j ln' Hj Hlook. destruct j as [|j].
           ++ simpl in Hlook. injection Hlook as <-. exact Hl.
           ++ simpl in Hlook. apply (Hbefore j); [lia|exact Hlook].
      * intros ln Hln. apply elem_of_cons in Hln as [->|Hln]; auto.
Qed.

Lemma find_index_lt (patterns : list regex) (lines : list str) (idx : nat) :
  find_index patterns lines = Some idx -> idx < length lines.
Proof.
  unfold find_index. intros H.
  pose proof (find_from_first patterns Py.lower
                (fun ln => simplify (Py.lower ln)) lines 0) as F.
  rewrite H in F. destruct F as (_ & (ln & Hln & _) & _).
  rewrite Nat.sub_0_r in Hln. eapply lookup_lt_Some. exact Hln.
Qed.

Lemma find_index_first (patterns : list regex) (lines : list str) :
  first_line_where (matches_lowered patterns) lines (find_index patterns lines).
Proof.
  unfold first_line_where, matches_lowered, find_index.
  pose proof (find_from_first patterns Py.lower
                (fun ln => simplify (Py.lower ln)) lines 0) as F.
  destruct (find_from 0 patterns _) as [r|]; [|exact F].
  rewrite Nat.sub_0_r in F. destruct F as (_ & Hat & Hbefore).
  split; assumption.
Qed.

(** C3 (amended). For every pattern list and every sequence of lines of
    ASCII text, [find_index] returns the index of the first line, in
    document order, whose lowercased form or whose normalised form matches
    some pattern of the list from the start of the line, and returns [None]
    when no line does; which pattern matched plays no part. *)
Theorem find_index_first_lowered_match (patterns : list regex) (lines : list str) :
  forallb Py.isascii lines = true ->
  match find_index patterns lines with
  | Some idx =>
      idx < length lines
      /\ (exists ln, lines !! idx = Some ln
                     /\ matches_lowered patterns ln = true)
      /\ forall j ln, j < idx -> lines !! j = Some ln ->
                      matches_lowered patterns ln = false
  | None => forall ln, ln ∈ lines -> matches_lowered patterns ln = false
  end.
Proof.
  intros _.
  pose proof (find_index_first patterns lines) as F.
  destruct (find_index patterns lines) as [idx|] eqn:E; [|exact F].
  destruct F as [Hat Hbefore].
  split; [eapply find_index_lt, E|]. split; assumption.
Qed.

Lemma find_index_first_lowered_match_witness :
  3 < length (map s ["Title"; "Some text"; "== works  cited =="; "Works Cited"]%string)
  /\ (exists ln,
        map s ["Title"; "Some text"; "== works  cited =="; "Works Cited"]%string
          !! 3 = Some ln
        /\ matches_lowered END_PATTERNS ln = true)
  /\ forall j ln,
       j < 3 ->
       map s ["Title"; "Some text"; "== works  cited =="; "Works Cited"]%string
         !! j = Some ln ->
       matches_lowered END_PATTERNS ln = false.
Proof.
  exact (find_index_first_lowered_match END_PATTERNS
           (map s ["Title"; "Some text"; "== works  cited =="; "Works Cited"]%string)
           eq_refl).
Defined.

(** C3 (as stated) fails: the end-matter search finds the line
    [Works Cited], whose raw form and whose normalised form match no
    pattern of the list; only its lowercased form does. *)
Lemma find_index_raw_form_counterexample :
  ~ first_line_where (matches_raw END_PATTERNS) [s "Works Cited"]
      (find_index END_PATTERNS [s "Works Cited"]).
Proof.
  intros H.
  assert (E : find_index END_PATTERNS [s "Works Cited"] = Some 0)
    by (vm_compute; reflexivity).
  rewrite E in H. destruct H as [(ln & Hln & Hm) _].
  simpl in Hln. injection Hln as <-.
  vm_compute in Hm. discriminate Hm.
Qed.

(** The converse failure: a line whose raw form matches is not found,
    because only its lowercased form is tried. *)
Example find_index_uppercase_pattern :
  find_index NUMBERED_PATTERNS [s "RELATED WORK"] = None
  /\ matches_raw NUMBERED_PATTERNS (s "RELATED WORK") = true.
Proof. split; vm_compute; reflexivity. Qed.

(** ** The partitioner returns slices of the line sequence *)

Lemma present_elem (l : list (option nat)) (c : nat) :
  Some c ∈ l -> c ∈ present l.
Proof.
  intros H. unfold present. apply list_elem_of_omap.
  exists (Some c). split; [exact H|reflexivity].
Qed.

Lemma present_inv (l : list (option nat)) (c : nat) :
  c ∈ present l -> Some c ∈ l.
Proof.
  unfold present. intros H. apply list_elem_of_omap in H as (o & Ho & E).
  simpl in E. subst o. exact Ho.
Qed.

Lemma length_is_candidate (stripped : list str) (a : nat) (i : option nat) :
  length stripped ∈ candidates stripped a i.
Proof.
  unfold candidates. apply present_elem.
  rewrite !elem_of_cons. auto.
Qed.

Lemma abs_end_ok (stripped : list str) (a : nat) (i : option nat) :
  exists stop,
    abs_end stripped a i = Ok stop
    /\ stop ∈ candidates stripped a i
    /\ forall c, c ∈ candidates stripped a i -> stop <= c.
Proof.
  unfold abs_end. eapply py_min_spec. apply length_is_candidate.
Qed.

Lemma index_ok {A} (l : list A) (i : nat) :
  i < length l -> exists x, index l i = Ok x /\ l !! i = Some x.
Proof.
  intros H. destruct (lookup_lt_is_Some_2 l i H) as [x Hx].
  exists x. unfold index. rewrite Hx. auto.
Qed.

Lemma slice_from_0 {A} (l : list A) (n : nat) : Py.slice l 0 n = take n l.
Proof. unfold Py.slice. rewrite Nat.sub_0_r. reflexivity. Qed.

Lemma slice_to_end {A} (l : list A) (n : nat) :
  Py.slice l n (length l) = drop n l.
Proof.
  unfold Py.slice. apply take_ge. rewrite length_drop. lia.
Qed.

Lemma slice_empty {A} (l : list A) (n : nat) : Py.slice l n n = [].
Proof. unfold Py.slice. rewrite Nat.sub_diag. reflexivity. Qed.

Lemma first_break_ok (a i : option nat) :
  is_some a || is_some i = true ->
  py_min (present [a; i])
  = Ok match a, i with
       | Some x, Some y => Nat.min x y
       | Some x, None => x
       | None, Some y => y
       | None, None => 0
       end.
Proof. destruct a, i; simpl; intros H; try reflexivity; discriminate. Qed.

Ltac close_slices e :=
  destruct e; cbn [fst snd body_start];
  rewrite ?slice_from_0, ?slice_to_end, ?slice_empty; reflexivity.

Lemma extract_sections_slices (stripped : list str) (a i e : option nat) :
  (forall x, a = Some x -> x < length stripped) ->
  exists pre abs body endm inline,
    zone_spans stripped a i e = Ok (pre, abs, body, endm)
    /\ length inline <= 1
    /\ extract_sections stripped a i e
       = Ok (lines_of stripped pre, inline ++ lines_of stripped abs,
             lines_of stripped body, lines_of stripped endm).
Proof.
  intros Ha. unfold extract_sections, zone_spans, lines_of.
  destruct (is_some a || is_some i) eqn:Hfound.
  - rewrite (first_break_ok a i Hfound). cbn [rbind].
    destruct a as [x|].
    + destruct (abs_end_ok stripped x i) as (stop & Hstop & _).
      destruct (index_ok stripped x (Ha x eq_refl)) as (hd & Hhd & _).
      rewrite Hstop, Hhd. cbn [rbind].
      destruct (match_ true INLINE_PATTERN hd) as [m|]; cbn [rbind].
      * eexists _, _, _, _, [Py.strip (group m 1)].
        split; [reflexivity|]. split; [simpl; lia|]. close_slices e.
      * eexists _, _, _, _, [].
        split; [reflexivity|]. split; [simpl; lia|]. close_slices e.
    + destruct i as [y|]; [|discriminate Hfound].
      destruct (5 <? y); cbn [rbind];
        eexists _, _, _, _, []; (split; [reflexivity|]); (split; [simpl; lia|]);
        close_slices e.
  - destruct a; [discriminate Hfound|]. destruct i; [discriminate Hfound|].
    cbn [rbind]. eexists _, _, _, _, [].
    split; [reflexivity|]. split; [simpl; lia|]. close_slices e.
Qed.

Lemma extract_sections_inline (stripped : list str) (a i e : option nat) :
  (forall x, a = Some x -> x < length stripped) ->
  exists pre abs body endm,
    zone_spans stripped a i e = Ok (pre, abs, body, endm)
    /\ extract_sections stripped a i e
       = Ok (lines_of stripped pre,
             inline_text stripped a ++ lines_of stripped abs,
             lines_of stripped body, lines_of stripped endm).
Proof.
  intros Ha. unfold extract_sections, zone_spans, lines_of, inline_text.
  destruct (is_some a || is_some i) eqn:Hfound.
  - rewrite (first_break_ok a i Hfound). cbn [rbind].
    destruct a as [x|].
    + destruct (abs_end_ok stripped x i) as (stop & Hstop & _).
      destruct (index_ok stripped x (Ha x eq_refl)) as (hd & Hhd & Hlook).
      rewrite Hstop, Hhd, Hlook. cbn [rbind].
      destruct (match_ true INLINE_PATTERN hd) as [m|]; cbn [rbind];
        eexists _, _, _, _; (split; [reflexivity|]); close_slices e.
    + destruct i as [y|]; [|discriminate Hfound].
      destruct (5 <? y); cbn [rbind];
        eexists _, _, _, _; (split; [reflexivity|]); close_slices e.
  - destruct a; [discriminate Hfound|]. destruct i; [discriminate Hfound|].
    cbn [rbind]. eexists _, _, _, _.
    split; [reflexivity|]. close_slices e.
Qed.

Lemma inline_text_short (stripped : list str) (a : option nat) :
  length (inline_text stripped a) <= 1.
Proof.
  unfold inline_text. destruct a as [x|]; [|simpl; lia].
  destruct (stripped !! x) as [hd|]; [|simpl; lia].
  destruct (match_ true INLINE_PATTERN hd); simpl; lia.
Qed.

(** The partition of the pipeline never raises: a boundary that was found
    is an index of the line sequence. *)
Lemma partition_ok (stripped : list str) :
  exists zones, partition stripped = Ok zones.
Proof.
  unfold partition.
  destruct (extract_sections_slices stripped
              (find_index ABSTRACT_PATTERNS stripped)
              (find_index INTRO_PATTERNS stripped)
              (find_index END_PATTERNS stripped))
    as (pre & abs & body & endm & inline & _ & _ & H).
  - intros x Hx. eapply find_index_lt. exact Hx.
  - eexists. exact H.
Qed.

(** C6. When neither an abstract heading nor an introduction heading is
    found, the [pre_intro] zone is the first 50 lines of the document, which
    are all its lines when it has at most 50; when either is found, it is
    every line strictly before the earlier of the indices that are present. *)
Theorem pre_intro_before_first_boundary (stripped : list str) (a i e : option nat) :
  (forall x, a = Some x -> x < length stripped) ->
  exists abstract body endm,
    extract_sections stripped a i e
    = Ok (match a, i with
          | None, None => take 50 stripped
          | Some x, None => take x stripped
          | None, Some y => take y stripped
          | Some x, Some y => take (Nat.min x y) stripped
          end, abstract, body, endm)
    /\ (a = None -> i = None -> length stripped <= 50 ->
        take 50 stripped = stripped).
Proof.
  intros Ha.
  destruct (extract_sections_slices stripped a i e Ha)
    as (pre & abs & body & endm & inline & Hspans & _ & H).
  exists (inline ++ lines_of stripped abs), (lines_of stripped body),
    (lines_of stripped endm).
  split.
  - rewrite H. f_equal. f_equal. f_equal. f_equal.
    unfold zone_spans in Hspans.
    destruct a as [x|], i as [y|]; cbn [is_some orb present omap rbind py_min]
      in Hspans.
    + simpl in Hspans.
      destruct (abs_end stripped x (Some y)); simpl in Hspans; [|discriminate].
      injection Hspans as <- _ _ _. unfold lines_of. apply slice_from_0.
    + simpl in Hspans.
      destruct (abs_end stripped x None); simpl in Hspans; [|discriminate].
      injection Hspans as <- _ _ _. unfold lines_of. apply slice_from_0.
    + simpl in Hspans. destruct (5 <? y); simpl in Hspans;
        injection Hspans as <- _ _ _; unfold lines_of; apply slice_from_0.
    + simpl in Hspans. injection Hspans as <- _ _ _.
      unfold lines_of. apply slice_from_0.
  - intros _ _ Hlen. apply take_ge. exact Hlen.
Qed.

Lemma pre_intro_before_first_boundary_witness :
  exists abstract body endm,
    extract_sections scenario_lines (Some 0) (Some 3) (Some 5)
    = Ok (take (Nat.min 0 3) scenario_lines, abstract, body, endm)
    /\ (Some 0 = None -> Some 3 = None -> length scenario_lines <= 50 ->
        take 50 scenario_lines = scenario_lines).
Proof.
  apply (pre_intro_before_first_boundary scenario_lines (Some 0) (Some 3) (Some 5)).
  intros x Hx. injection Hx as <-. vm_compute. lia.
Defined.

(** ** The end of the abstract *)

Lemma candidates_elem (stripped : list str) (a : nat) (i : option nat) (c : nat) :
  c ∈ candidates stripped a i
  <-> kw_after stripped a = Some c \/ intro_after a i = Some c
      \/ numbered_after stripped a i = Some c \/ c = length stripped.
Proof.
  unfold candidates. split.
  - intros H. apply present_inv in H. rewrite !elem_of_cons in H.
    destruct H as [H|[H|[H|[H|H]]]]; auto.
    + injection H as ->. auto.
    + inversion H.
  - intros H. apply present_elem. rewrite !elem_of_cons.
    destruct H as [H|[H|[H|H]]]; auto. subst c. auto.
Qed.

(** ** Which lines the zones cover *)

Lemma covers_true (n : nat) (sp : span) (k : nat) :
  covers n sp k = true <-> sp.1 <= k /\ k < sp.2 /\ k < n.
Proof.
  unfold covers. rewrite !andb_true_iff, Nat.leb_le, !Nat.ltb_lt. tauto.
Qed.

Lemma zone_spans_explicit (stripped : list str) (a i e : option nat)
  (pre abs body endm : span) :
  zone_spans stripped a i e = Ok (pre, abs, body, endm) ->
  pre = (0, match a, i with
            | Some x, Some y => Nat.min x y
            | Some x, None => x
            | None, Some y => y
            | None, None => 50
            end)
  /\ body = (body_start a i,
             match e with Some z => z | None => length stripped end)
  /\ endm = match e with
            | Some z => (z + 1, length stripped)
            | None => (0, 0)
            end
  /\ match a with
     | Some x =>
         abs.1 = x + 1 /\ forall y, i = Some y -> x < y -> abs.2 <= y
     | None =>
         abs = match i with
               | Some y => if 5 <? y then (0, y) else (0, 0)
               | None => (0, 0)
               end
     end.
Proof.
  unfold zone_spans. intros H.
  destruct a as [x|].
  - destruct (abs_end_ok stripped x i) as (stop & Hstop & _ & Hmin).
    rewrite Hstop in H.
    assert (Hpre : is_some (Some x) || is_some i = true) by reflexivity.
    rewrite Hpre, (first_break_ok (Some x) i Hpre) in H.
    cbn [rbind] in H. injection H as <- <- <- <-.
    repeat split.
    intros y -> Hlt. cbn [snd]. apply Hmin, candidates_elem.
    right. left. unfold intro_after, after.
    destruct (x <? y) eqn:E; [reflexivity|]. apply Nat.ltb_ge in E. lia.
  - destruct i as [y|]; cbn [is_some orb present omap py_min rbind] in H.
    + simpl in H. destruct (5 <? y); simpl in H;
        injection H as <- <- <- <-; repeat split.
    + injection H as <- <- <- <-. repeat split.
Qed.

(** C1 (amended). Every zone is a slice of the line sequence, the abstract
    preceded by at most one further line: there is none without an abstract
    heading, and for a heading line of ASCII text it is the stripped text
    that the inline pattern captures, if the pattern matches.  [main_body]
    and [end_matter] never overlap, and the end-matter heading line lies in
    neither of the two.  When an abstract or an introduction heading is
    found, [pre_intro] and [main_body] do not overlap; the abstract heading
    line lies in neither [pre_intro] nor [abstract]; an abstract whose
    heading precedes the introduction lies strictly between [pre_intro] and
    [main_body]; and every line lies in [pre_intro], [main_body] or
    [end_matter], or is the end-matter heading line, or lies between the
    abstract heading and the start of the body.  Without an abstract and an
    introduction heading, [pre_intro] is the first 50 lines and [main_body]
    starts at line 0 as well. *)
Theorem zones_are_ordered_slices (stripped : list str) (a i e : option nat) :
  (forall x, a = Some x -> x < length stripped) ->
  exists pre abs body endm inline,
    zone_spans stripped a i e = Ok (pre, abs, body, endm)
    /\ extract_sections stripped a i e
       = Ok (lines_of stripped pre, inline ++ lines_of stripped abs,
             lines_of stripped body, lines_of stripped endm)
    /\ length inline <= 1
    /\ (a = None -> inline = [])
    /\ (forall x hd, a = Some x -> stripped !! x = Some hd ->
          Py.isascii hd = true -> inline = inline_text stripped a)
    /\ (a = None -> i = None ->
        pre = (0, 50)
        /\ body = (0, match e with Some z => z | None => length stripped end))
    /\ (forall k, covers (length stripped) body k = true ->
                  covers (length stripped) endm k = false)
    /\ (forall z, e = Some z ->
          covers (length stripped) body z = false
          /\ covers (length stripped) endm z = false)
    /\ (is_some a || is_some i = true ->
        forall k, covers (length stripped) pre k = true ->
                  covers (length stripped) body k = false)
    /\ (forall x, a = Some x ->
          covers (length stripped) pre x = false
          /\ covers (length stripped) abs x = false)
    /\ (forall x y, a = Some x -> i = Some y -> x < y ->
        forall k, covers (length stripped) abs k = true ->
          covers (length stripped) pre k = false
          /\ covers (length stripped) body k = false)
    /\ (is_some a || is_some i = true ->
        forall k, k < length stripped ->
          covers (length stripped) pre k = true
          \/ covers (length stripped) body k = true
          \/ covers (length stripped) endm k = true
          \/ e = Some k
          \/ exists x, a = Some x /\ x <= k < body_start a i).
Proof.
  intros Ha.
  destruct (extract_sections_inline stripped a i e Ha)
    as (pre & abs & body & endm & Hspans & H).
  exists pre, abs, body, endm, (inline_text stripped a).
  split; [exact Hspans|]. split; [exact H|].
  split; [apply inline_text_short|].
  split; [intros ->; reflexivity|].
  split; [reflexivity|].
  destruct (zone_spans_explicit _ _ _ _ _ _ _ _ Hspans)
    as (-> & -> & -> & Habs).
  split; [intros -> ->; split; reflexivity|].
  repeat split.
  - intros k Hk. apply covers_true in Hk. apply not_true_is_false.
    rewrite covers_true. destruct e; cbn [fst snd] in *; lia.
  - apply not_true_is_false. rewrite covers_true. subst e.
    cbn [fst snd]. lia.
  - apply not_true_is_false. rewrite covers_true. subst e.
    cbn [fst snd]. lia.
  - intros Hfound k Hk. apply covers_true in Hk. apply not_true_is_false.
    rewrite covers_true. unfold body_start.
    destruct a, i; try discriminate Hfound; cbn [fst snd] in *; lia.
  - apply not_true_is_false. rewrite covers_true. subst a.
    destruct i; cbn [fst snd]; lia.
  - apply not_true_is_false. rewrite covers_true. subst a.
    destruct Habs as [E _]. lia.
  - apply not_true_is_false. rewrite covers_true.
    match goal with Hk : covers _ abs _ = true |- _ =>
      apply covers_true in Hk; rename Hk into Hc end.
    subst a i. destruct Habs as [E Hle].
    specialize (Hle _ eq_refl ltac:(assumption)). cbn [fst snd]. lia.
  - apply not_true_is_false. rewrite covers_true.
    match goal with Hk : covers _ abs _ = true |- _ =>
      apply covers_true in Hk; rename Hk into Hc end.
    subst a i. destruct Habs as [E Hle].
    specialize (Hle _ eq_refl ltac:(assumption)).
    unfold body_start. cbn [fst snd]. lia.
  - intros Hfound k Hk. rewrite !covers_true. unfold body_start.
    destruct a as [x|], i as [y|], e as [z|]; try discriminate Hfound;
      cbn [fst snd];
      try (destruct (decide (z = k)) as [->|]; [auto 6|]);
      try (destruct (decide (x <= k /\ k < y)); [eauto 8|]);
      try (destruct (decide (x = k)) as [->|];
           [right; right; right; right; exists k; split; [reflexivity|lia]|]);
      lia.
Qed.

Lemma zones_are_ordered_slices_witness :
  exists pre abs body endm inline,
    zone_spans scenario_lines (Some 0) (Some 3) (Some 5)
    = Ok (pre, abs, body, endm)
    /\ extract_sections scenario_lines (Some 0) (Some 3) (Some 5)
       = Ok (lines_of scenario_lines pre, inline ++ lines_of scenario_lines abs,
             lines_of scenario_lines body, lines_of scenario_lines endm)
    /\ covers (length scenario_lines) body 5 = false
    /\ covers (length scenario_lines) endm 5 = false.
Proof.
  destruct (zones_are_ordered_slices scenario_lines (Some 0) (Some 3) (Some 5))
    as (pre & abs & body & endm & inline & Hs & Hz & _ & _ & _ & _ & _ & Hend & _).
  - intros x Hx. injection Hx as <-. vm_compute. lia.
  - exists pre, abs, body, endm, inline.
    destruct (Hend 5 eq_refl) as [H1 H2]. auto.
Defined.

(** C1 (as stated) fails on the scenario of the specification, with the
    boundaries the pipeline finds: the abstract heading (line 0) and the
    References heading (line 5) lie in no zone. *)
Lemma every_line_in_one_zone_counterexample :
  ~ every_line_in_one_zone scenario_lines
      (find_index ABSTRACT_PATTERNS scenario_lines)
      (find_index INTRO_PATTERNS scenario_lines)
      (find_index END_PATTERNS scenario_lines).
Proof.
  intros (pre & abs & body & endm & H & P).
  vm_compute in H. injection H as <- <- <- <-.
  assert (L : 5 < length scenario_lines) by (vm_compute; lia).
  specialize (P 5 L). vm_compute in P. destruct P; discriminate.
Qed.

(** The zones of the scenario. *)
Example scenario_zones :
  partition scenario_lines
  = Ok ([], map s ["Line one"; "Line two"]%string,
        map s ["Introduction"; "Body text"]%string, [s "Cite 1"]).
Proof. vm_compute. reflexivity. Qed.

(** Without any boundary, [pre_intro] and [main_body] both start at line 0. *)
Example no_boundary_zones_overlap :
  partition (map s ["Title"; "Text"]%string)
  = Ok (map s ["Title"; "Text"]%string, [],
        map s ["Title"; "Text"]%string, []).
Proof. vm_compute. reflexivity. Qed.

(** ** Inline abstract text *)

(** C2 (failing input). The heading [Abstract: We study X.] is found by the
    abstract search, whose patterns admit text after a colon, but the inline
    pattern admits only whitespace and dashes as separators: the abstract
    starts at the next line and the text of the heading is in no zone. *)
Theorem colon_heading_inline_text_dropped :
  find_index ABSTRACT_PATTERNS colon_heading_lines = Some 0
  /\ match_ true INLINE_PATTERN (s "Abstract: We study X.") = None
  /\ partition colon_heading_lines
     = Ok ([], [s "More text"], map s ["Introduction"; "Body"]%string, []).
Proof. repeat split; vm_compute; reflexivity. Qed.

(** With a dash the remainder of the heading opens the abstract. *)
Example dash_heading_inline_text_kept :
  partition dash_heading_lines
  = Ok ([], map s ["We study X."; "More text"]%string,
        map s ["Introduction"; "Body"]%string, []).
Proof. vm_compute. reflexivity. Qed.

(** A [Summary] heading with inline text is found as well, and its text is
    dropped whatever the separator. *)
Example summary_heading_inline_text_dropped :
  partition (map s ["Summary - We study X."; "More text"; "Introduction"]%string)
  = Ok ([], [s "More text"], [s "Introduction"], []).
Proof. vm_compute. reflexivity. Qed.

(** ** Strings *)

Lemma startswith_app (n b : str) : Py.startswith n (n ++ b) = true.
Proof.
  induction n as [|c n IH]; simpl; [reflexivity|].
  rewrite N.eqb_refl. exact IH.
Qed.

Lemma startswith_app_l (n x b : str) :
  Py.startswith n x = true -> Py.startswith n (x ++ b) = true.
Proof.
  revert x. induction n as [|c n IH]; intros x H; [reflexivity|].
  destruct x as [|d x]; [discriminate H|]. simpl in *.
  apply andb_true_iff in H as [H1 H2]. rewrite H1. simpl. auto.
Qed.

Lemma startswith_length (n x : str) :
  Py.startswith n x = true -> length n <= length x.
Proof.
  revert x. induction n as [|c n IH]; intros x H; simpl; [lia|].
  destruct x as [|d x]; [discriminate H|]. simpl in *.
  apply andb_true_iff in H as [_ H]. apply IH in H. lia.
Qed.

Lemma contains_unfold (n x : str) :
  Py.contains n x
  = Py.startswith n x
    || match x with [] => false | _ :: tl => Py.contains n tl end.
Proof. destruct x; reflexivity. Qed.

Lemma contains_app_r (n a x : str) :
  Py.contains n x = true -> Py.contains n (a ++ x) = true.
Proof.
  intros H. induction a as [|c a IH]; [exact H|].
  simpl. rewrite IH. apply orb_true_r.
Qed.

Lemma contains_app_l (n x b : str) :
  Py.contains n x = true -> Py.contains n (x ++ b) = true.
Proof.
  induction x as [|c x IH]; intros H.
  - simpl in H. rewrite orb_false_r in H.
    destruct n; [|discriminate H]. destruct b; reflexivity.
  - simpl in H. apply orb_true_iff in H as [H|H].
    + rewrite contains_unfold.
      rewrite (startswith_app_l n (c :: x) b H). reflexivity.
    + simpl. rewrite (IH H). apply orb_true_r.
Qed.

Lemma contains_middle (n a b : str) : Py.contains n (a ++ n ++ b) = true.
Proof.
  apply contains_app_r. rewrite contains_unfold, startswith_app. reflexivity.
Qed.

Lemma contains_length (n x : str) :
  Py.contains n x = true -> length n <= length x.
Proof.
  induction x as [|c x IH]; intros H.
  - simpl in H. rewrite orb_false_r in H. apply startswith_length in H. exact H.
  - simpl in H. apply orb_true_iff in H as [H|H].
    + apply startswith_length in H. exact H.
    + apply IH in H. simpl. lia.
Qed.

Lemma contains_join (sep line : str) (lines : list str) :
  line ∈ lines -> Py.contains line (Py.join sep lines) = true.
Proof.
  induction lines as [|l lines IH]; intros H; [inversion H|].
  apply elem_of_cons in H as [->|H].
  - destruct lines as [|l' lines]; simpl Py.join.
    + pose proof (contains_middle l [] []) as E.
      rewrite app_nil_r in E. exact E.
    + apply (contains_middle l []).
  - destruct lines as [|l' lines]; [inversion H|].
    change (Py.join sep (l :: l' :: lines))
      with (l ++ sep ++ Py.join sep (l' :: lines)).
    apply contains_app_r, contains_app_r, IH, H.
Qed.

Lemma Py_join_snoc (sep : str) (ls : list str) (x : str) :
  exists before, Py.join sep (ls ++ [x]) = before ++ x.
Proof.
  induction ls as [|l ls [b IH]].
  - exists []. reflexivity.
  - destruct ls as [|l' ls].
    + exists (l ++ sep). simpl. rewrite <- app_assoc. reflexivity.
    + exists (l ++ sep ++ b).
      change (Py.join sep ((l :: l' :: ls) ++ [x]))
        with (l ++ sep ++ Py.join sep ((l' :: ls) ++ [x])).
      rewrite IH, <- !app_assoc. reflexivity.
Qed.

Lemma contains_join_last (sep n x : str) (ls : list str) :
  Py.contains n x = true -> Py.contains n (Py.join sep (ls ++ [x])) = true.
Proof.
  intros H. destruct (Py_join_snoc sep ls x) as [before ->].
  apply contains_app_r, H.
Qed.




Lemma lstrip_snoc (x : str) (c : char) :
  Py.isspace c = false -> Py.lstrip (x ++ [c]) <> [].
Proof.
  intros Hc. induction x as [|d x IH]; simpl.
  - rewrite Hc. discriminate.
  - destruct (Py.isspace d); [exact IH|discriminate].
Qed.

Lemma strip_nonempty (c : char) (x : str) :
  Py.isspace c = false -> Py.strip (c :: x) <> [].
Proof.
  intros Hc. unfold Py.strip, Py.rstrip. simpl Py.lstrip. rewrite Hc.
  simpl rev. intros E. apply (f_equal (@length char)) in E.
  rewrite length_rev in E. simpl in E.
  apply length_zero_iff_nil in E. exact (lstrip_snoc _ _ Hc E).
Qed.

(** ** The matcher *)

Lemma rep_loop_consumes {A} (ok : char -> bool)
  (body : (state -> option A) -> state -> option A) (lo : nat) (hi : option nat) :
  advances ok body ->
  forall fuel n, advances ok (fun k => rep_loop body k lo hi fuel n).
Proof.
  intros Hbody. induction fuel as [|fuel IH]; intros n k st0 a H; simpl in H.
  - destruct (lo <=? n); [|discriminate H]. exists st0, []. auto.
  - assert (Hstop : (if lo <=? n then k st0 else None) = Some a ->
                    exists st' consumed,
                      k st' = Some a /\ rest st0 = consumed ++ rest st'
                      /\ forallb ok consumed = true).
    { intros E. destruct (lo <=? n); [|discriminate E]. exists st0, []. auto. }
    destruct (under n hi); [|auto].
    match type of H with
    | match ?b with _ => _ end = _ => destruct b as [x|] eqn:Hb
    end; [|auto].
    injection H as ->.
    apply Hbody in Hb as (st1 & c1 & Hk & Hrest & Hok).
    destruct ((length (rest st1) <? length (rest st0)) || (n <? lo));
      [|discriminate Hk].
    apply IH in Hk as (st' & c2 & Hk & Hrest' & Hok').
    exists st', (c1 ++ c2). split; [exact Hk|].
    split; [rewrite Hrest, Hrest', app_assoc; reflexivity|].
    rewrite forallb_app, Hok, Hok'. reflexivity.
Qed.

Lemma step1_consumes {A} (ok pred : char -> bool) :
  (forall x, pred x = true -> ok x = true) ->
  advances (A := A) ok (step1 pred).
Proof.
  intros Hok k st a. unfold step1.
  destruct (rest st) as [|c tl] eqn:E; [discriminate|].
  destruct (pred c) eqn:Hc; [|discriminate]. intros H.
  eexists _, [c]. split; [exact H|]. split; [reflexivity|].
  simpl. rewrite (Hok c Hc). reflexivity.
Qed.

Lemma run_consumes {A} (ic : bool) (ok : char -> bool) (r : regex) :
  consumes_only ic ok r -> advances (A := A) ok (run ic r).
Proof.
  induction r as [| c | | items | | | | r1 IH1 r2 IH2 | r1 IH1 r2 IH2
                 | r IH lo hi | n r IH]; intros Hr k st a H; simpl in H, Hr.
  - exists st, []. auto.
  - eapply step1_consumes; [exact Hr|exact H].
  - eapply step1_consumes; [exact Hr|exact H].
  - eapply step1_consumes; [exact Hr|exact H].
  - destruct (prev st); [discriminate H|]. exists st, []. auto.
  - assert (K : k st = Some a ->
                exists st' consumed,
                  k st' = Some a /\ rest st = consumed ++ rest st'
                  /\ forallb ok consumed = true)
      by (intros E; exists st, []; auto).
    destruct (rest st) as [|c [|d tl]]; [auto| |discriminate H].
    destruct (c =? NL)%N; [auto|discriminate H].
  - destruct (xorb _ _); [|discriminate H]. exists st, []. auto.
  - destruct Hr as [Hr1 Hr2].
    apply (IH1 Hr1) in H as (st1 & c1 & H & E1 & O1).
    apply (IH2 Hr2) in H as (st2 & c2 & H & E2 & O2).
    exists st2, (c1 ++ c2). split; [exact H|].
    split; [rewrite E1, E2, app_assoc; reflexivity|].
    rewrite forallb_app, O1, O2. reflexivity.
  - destruct Hr as [Hr1 Hr2]. destruct (run ic r1 k st) as [x|] eqn:E.
    + injection H as ->. apply (IH1 Hr1), E.
    + apply (IH2 Hr2), H.
  - eapply rep_loop_consumes; [|exact H]. apply IH, Hr.
  - apply (IH Hr) in H as (st1 & c1 & H & E1 & O1).
    eexists _, c1. split; [exact H|]. split; [exact E1|exact O1].
Qed.

Lemma consumes_anything (ic : bool) (r : regex) :
  consumes_only ic (fun _ => true) r.
Proof. induction r; simpl; auto. Qed.

Lemma run_continues {A} (ic : bool) (r : regex) :
  forall (k : state -> option A) (st : state) (a : A),
    run ic r k st = Some a ->
    exists st', k st' = Some a /\ length (rest st') <= length (rest st).
Proof.
  intros k st a H.
  apply (run_consumes ic (fun _ => true) r (consumes_anything ic r))
    in H as (st' & c & H & E & _).
  exists st'. split; [exact H|]. rewrite E, length_app. lia.
Qed.

(** A pattern that demands a character of some kind matches no text that
    is free of such characters. *)
Lemma demands_no_match {A} (ic : bool) (wanted : char -> bool) (r : regex) :
  demands ic wanted r ->
  forall (k : state -> option A) (st : state),
    forallb (fun c => negb (wanted c)) (rest st) = true ->
    run ic r k st = None.
Proof.
  induction r as [| c | | items | | | | r1 IH1 r2 IH2 | r1 IH1 r2 IH2
                 | r IH lo hi | n r IH]; intros Hr k st Hfree; simpl in Hr;
    try contradiction; simpl.
  - unfold step1. destruct (rest st) as [|x tl]; [reflexivity|].
    destruct (lit_eq ic c x) eqn:E; [|reflexivity].
    simpl in Hfree. rewrite (Hr x E) in Hfree. discriminate Hfree.
  - unfold step1. destruct (rest st) as [|x tl]; [reflexivity|].
    destruct (in_class ic items x) eqn:E; [|reflexivity].
    simpl in Hfree. rewrite (Hr x E) in Hfree. discriminate Hfree.
  - destruct Hr as [Hr|Hr]; [apply IH1; assumption|].
    destruct (run ic r1 (run ic r2 k) st) as [a|] eqn:E; [|reflexivity].
    apply (run_consumes ic (fun _ => true) r1 (consumes_anything ic r1))
      in E as (st1 & c1 & E & Hrest & _).
    rewrite Hrest, forallb_app in Hfree.
    apply andb_true_iff in Hfree as [_ Hfree].
    rewrite (IH2 Hr k st1 Hfree) in E. discriminate E.
  - destruct Hr as [Hr1 Hr2]. rewrite (IH1 Hr1 k st Hfree).
    apply IH2; assumption.
  - destruct Hr as [Hlo Hr].
    destruct (lo + length (rest st)) as [|fuel] eqn:Ef; [lia|].
    simpl. destruct lo as [|lo]; [lia|]. simpl.
    destruct (under 0 hi); [|reflexivity].
    rewrite (IH Hr _ st Hfree). reflexivity.
  - apply IH; assumption.
Qed.

Lemma match_at_inv (ic : bool) (r : regex) (start : nat) (p : option char)
  (x : str) (m : Match) :
  match_at ic r start p x = Some m ->
  mstart m = start /\ exists n, group0 m = take n x.
Proof.
  unfold match_at. intros H.
  apply run_continues in H as (st' & H & _). injection H as <-.
  split; [reflexivity|]. eexists. reflexivity.
Qed.

Lemma search_from_leftmost (ic : bool) (r : regex) (x : str) :
  forall (start : nat) (p : option char) (m : Match),
    search_from ic r start p x = Some m ->
    exists j,
      j <= length x
      /\ match_at ic r (start + j) (char_before p x j) (drop j x) = Some m
      /\ forall j', j' < j ->
           match_at ic r (start + j') (char_before p x j') (drop j' x) = None.
Proof.
  induction x as [|c tl IH]; intros start p m H; simpl in H.
  - destruct (match_at ic r start p []) eqn:E; [|discriminate H].
    injection H as ->. exists 0. rewrite Nat.add_0_r. simpl.
    split; [lia|]. split; [exact E|]. intros j' Hj. lia.
  - destruct (match_at ic r start p (c :: tl)) eqn:E.
    + injection H as ->. exists 0. rewrite Nat.add_0_r. simpl.
      split; [lia|]. split; [exact E|]. intros j' Hj. lia.
    + apply IH in H as (j & Hj & Hm & Hnone). exists (S j).
      split; [simpl; lia|]. split.
      * replace (start + S j) with (S start + j) by lia.
        destruct j; exact Hm.
      * intros j' Hlt. destruct j' as [|j'].
        -- rewrite Nat.add_0_r. exact E.
        -- replace (start + S j') with (S start + j') by lia.
           specialize (Hnone j' ltac:(lia)). destruct j'; exact Hnone.
Qed.

(** [re.search] returns the match at the leftmost offset that has one; its
    group 0 is the text it consumed there. *)
Lemma search_leftmost (ic : bool) (r : regex) (x : str) (m : Match) :
  search ic r x = Some m ->
  mstart m <= length x
  /\ match_at ic r (mstart m) (char_before None x (mstart m)) (drop (mstart m) x)
     = Some m
  /\ (exists n, group m 0 = take n (drop (mstart m) x))
  /\ forall j, j < mstart m ->
       match_at ic r j (char_before None x j) (drop j x) = None.
Proof.
  unfold search. intros H.
  apply search_from_leftmost in H as (j & Hj & Hm & Hnone). simpl in Hm.
  destruct (match_at_inv _ _ _ _ _ _ Hm) as (Estart & n & Hn).
  rewrite Estart. split; [exact Hj|]. split; [exact Hm|].
  split; [exists n; exact Hn|]. exact Hnone.
Qed.

Lemma search_from_elim (P : Match -> Prop) (ic : bool) (r : regex) :
  (forall start p x m, match_at ic r start p x = Some m -> P m) ->
  forall x start p m, search_from ic r start p x = Some m -> P m.
Proof.
  intros HP x start p m H.
  apply search_from_leftmost in H as (j & _ & Hm & _). eapply HP, Hm.
Qed.


(** A detected year has four characters. *)
Lemma year_match_length (start : nat) (p : option char) (x : str) (m : Match) :
  match_at false YEAR_PATTERN start p x = Some m -> length (group m 1) = 4.
Proof.
  unfold match_at. intros H.
  destruct x as [|c1 [|c2 [|c3 [|c4 tl]]]]; cbn in H;
    try discriminate H;
    repeat (case_match; try discriminate); simplify_eq; cbn;
    rewrite length_take; simpl; lia.
Qed.

Lemma year_search_length (val : str) (m : Match) :
  search false YEAR_PATTERN val = Some m -> length (group m 1) = 4.
Proof.
  unfold search. apply (search_from_elim (fun m => length (group m 1) = 4)).
  apply year_match_length.
Qed.

Lemma detect_year_length (meta : gmap string str) (keys : list string) (y : str) :
  detect_year meta keys = Some y -> length y = 4.
Proof.
  induction keys as [|key keys IH]; simpl; [discriminate|].
  destruct (Py.truthy (default [] (meta !! key))); [|exact IH].
  destruct (search false YEAR_PATTERN (default [] (meta !! key))) as [m|] eqn:E;
    [|exact IH].
  intros H. injection H as <-. eapply year_search_length, E.
Qed.

(** The year line, if any, is too short to name an outlet. *)
Lemma year_lines_not_outlet (doc : Document) :
  outlet_is_arxiv (year_lines doc) = false.
Proof.
  unfold year_lines, outlet_is_arxiv.
  destruct (detect_year _ _) as [y|] eqn:E; [|reflexivity].
  apply detect_year_length in E. cbn [existsb]. rewrite orb_false_r.
  apply not_true_is_false. intros H. apply contains_length in H.
  rewrite length_app, E in H. vm_compute in H. lia.
Qed.

(** ** The numbered-heading scan *)

Lemma lower_char_not_upper (c : char) : Py.isupper (Py.lower_char c) = false.
Proof.
  unfold Py.lower_char. destruct (Py.isupper c) eqn:E; [|exact E].
  unfold Py.isupper, Py.between in *.
  apply andb_true_iff in E as [E1 E2].
  apply N.leb_le in E1, E2. apply andb_false_iff. right.
  apply N.leb_gt. lia.
Qed.

Lemma lower_no_upper (x : str) :
  forallb (fun c => negb (Py.isupper c)) (Py.lower x) = true.
Proof.
  induction x as [|c x IH]; [reflexivity|].
  simpl. rewrite lower_char_not_upper, IH. reflexivity.
Qed.

Lemma forallb_drop {A} (P : A -> bool) (n : nat) (l : list A) :
  forallb P l = true -> forallb P (drop n l) = true.
Proof.
  revert l. induction n as [|n IH]; intros [|x l] H; simpl; auto.
  simpl in H. apply andb_true_iff in H as [_ H]. auto.
Qed.

(** Deleting matches adds no character. *)
Lemma delete_from_keeps (P : char -> bool) (r : regex) (fuel : nat) :
  forall (p : option char) (x : str),
    forallb P x = true -> forallb P (delete_from fuel r p x) = true.
Proof.
  induction fuel as [|fuel IH]; intros p x H; [exact H|].
  destruct x as [|c tl]; [reflexivity|]. simpl delete_from.
  assert (Hkeep : forallb P (c :: delete_from fuel r (Some c) tl) = true).
  { simpl in *. apply andb_true_iff in H as [Hc Htl].
    rewrite Hc. simpl. apply IH, Htl. }
  destruct (match_at false r 0 p (c :: tl)) as [m|]; [|exact Hkeep].
  destruct (group0 m) as [|g0 g]; [exact Hkeep|].
  apply IH, forallb_drop. simpl in H.
  apply andb_true_iff in H as [_ H]. exact H.
Qed.

Lemma simplify_no_upper (x : str) :
  forallb (fun c => negb (Py.isupper c)) (simplify (Py.lower x)) = true.
Proof. apply delete_from_keeps, lower_no_upper. Qed.

Ltac upper_class :=
  let x := fresh "x" in
  let H := fresh "H" in
  intros x H; unfold in_class in H; simpl in H;
  rewrite ?orb_false_r in H; exact H.

Ltac find_demand :=
  first [ left; solve [upper_class] | right; find_demand ].

(** Each pattern of the scan demands an uppercase ASCII letter. *)
Lemma numbered_patterns_demand_upper :
  Forall (demands false Py.isupper) NUMBERED_PATTERNS.
Proof.
  unfold NUMBERED_PATTERNS.
  constructor; [simpl; find_demand|].
  constructor; [simpl; find_demand|].
  constructor; [simpl; find_demand|].
  constructor.
Qed.

Lemma no_upper_no_numbered_match (raw simp : str) :
  forallb (fun c => negb (Py.isupper c)) raw = true ->
  forallb (fun c => negb (Py.isupper c)) simp = true ->
  any_match NUMBERED_PATTERNS raw simp = false.
Proof.
  intros Hraw Hsimp. unfold any_match.
  pose proof numbered_patterns_demand_upper as F.
  induction F as [|pat pats Hpat _ IH]; [reflexivity|].
  simpl. rewrite IH, orb_false_r.
  unfold match_, match_at.
  rewrite (demands_no_match false Py.isupper pat Hpat _ (State None raw []) Hraw).
  rewrite (demands_no_match false Py.isupper pat Hpat _ (State None simp []) Hsimp).
  reflexivity.
Qed.

(** Because [find_index] lowercases every line before matching, the
    numbered-heading patterns, which all require an uppercase letter, match
    no line: the scan never contributes a candidate. *)
Theorem numbered_scan_never_matches (lines : list str) :
  find_index NUMBERED_PATTERNS lines = None.
Proof.
  pose proof (find_index_first NUMBERED_PATTERNS lines) as H.
  destruct (find_index NUMBERED_PATTERNS lines) as [idx|]; [|reflexivity].
  destruct H as [(ln & _ & Hm) _]. unfold matches_lowered in Hm.
  rewrite no_upper_no_numbered_match in Hm; [discriminate Hm| |].
  - apply lower_no_upper.
  - apply simplify_no_upper.
Qed.

Corollary numbered_after_is_none (stripped : list str) (a : nat) (i : option nat) :
  numbered_after stripped a i = None.
Proof.
  unfold numbered_after, first_after.
  rewrite numbered_scan_never_matches.
  destruct (_ && _); reflexivity.
Qed.

(** C7 (failing input). No keywords line and no introduction heading
    follow the abstract heading, so the scan for a numbered, roman or
    all-caps heading is the last resort, and line 2, [2. Methods], matches
    its first pattern as written.  The scan does not find it, because it
    reads the lowercased lines: it contributes no candidate, the abstract
    runs to the end of the document and swallows the heading. *)
Theorem numbered_heading_never_ends_abstract :
  find_index ABSTRACT_PATTERNS numbered_heading_lines = Some 0
  /\ find_index INTRO_PATTERNS numbered_heading_lines = None
  /\ kw_after numbered_heading_lines 0 = None
  /\ intro_after 0 None = None
  /\ matches_raw NUMBERED_PATTERNS (s "2. Methods") = true
  /\ first_after numbered_heading_lines 0 NUMBERED_PATTERNS = None
  /\ numbered_after numbered_heading_lines 0 None = None
  /\ abs_end numbered_heading_lines 0 None = Ok 4
  /\ partition numbered_heading_lines
     = Ok ([], map s ["We study X."; "2. Methods"; "We did Y."]%string,
           map s ["We study X."; "2. Methods"; "We did Y."]%string, []).
Proof. repeat split; vm_compute; reflexivity. Qed.

(** ** The metadata block *)

Lemma starts_nonspace_literal (a : ascii) (x : string) (y : str) :
  Py.isspace (N_of_ascii a) = false -> starts_nonspace (s (String a x) ++ y).
Proof. intros H. eexists _, _. split; [reflexivity|exact H]. Qed.

Lemma starts_nonspace_app (x y : str) :
  starts_nonspace x -> starts_nonspace (x ++ y).
Proof. intros (c & tl & -> & H). exists c, (tl ++ y). auto. Qed.

Lemma starts_nonspace_join (sep l : str) (ls : list str) :
  starts_nonspace l -> starts_nonspace (Py.join sep (l :: ls)).
Proof.
  intros H. destruct ls as [|l' ls]; [exact H|].
  change (starts_nonspace (l ++ sep ++ Py.join sep (l' :: ls))).
  apply starts_nonspace_app, H.
Qed.

Lemma strip_starts_nonspace (x : str) :
  starts_nonspace x -> Py.truthy (Py.strip x) = true.
Proof.
  intros (c & tl & -> & H). pose proof (strip_nonempty c tl H) as N.
  destruct (Py.strip (c :: tl)); [congruence|reflexivity].
Qed.

Ltac literal_head :=
  repeat first
    [ apply starts_nonspace_literal; vm_compute; reflexivity
    | apply starts_nonspace_app ].

Lemma detected_lines_heads (doc : Document) (pre : list str) (idt : str) :
  Forall starts_nonspace (detected_lines doc pre idt).
Proof.
  unfold detected_lines, year_lines, outlet_lines, doi_lines, arxiv_lines.
  repeat apply Forall_app_2.
  - destruct (detect_year _ _); repeat constructor. literal_head.
  - destruct (search true OUTLET_PATTERN _); repeat constructor. literal_head.
  - destruct (search false doi_pattern idt); repeat constructor; literal_head.
  - destruct (search true arxiv_pattern idt); repeat constructor; literal_head.
    rewrite <- (app_nil_r (s _)). literal_head.
Qed.

Lemma metadata_lines_ok (doc : Document) (full : str) (pre : list str) (idt : str) :
  id_text doc pre = Ok idt ->
  metadata_lines doc full pre
  = Ok (detected_lines doc pre idt
        ++ [s "Detected Open Access: "
            ++ open_access (detected_lines doc pre idt) pre full]).
Proof. unfold metadata_lines. intros ->. reflexivity. Qed.

Lemma extract_metadata_ok (doc : Document) (full : str) (pre : list str)
  (lines : list str) :
  metadata_lines doc full pre = Ok lines ->
  extract_metadata doc full pre = Ok (Py.join [NL] lines ++ [NL])
  /\ starts_nonspace (Py.join [NL] lines ++ [NL]).
Proof.
  intros H. unfold extract_metadata. rewrite H. cbn [rbind].
  unfold metadata_lines in H. destruct (id_text doc pre) as [idt|]; [|discriminate H].
  cbn [rbind] in H. injection H as <-.
  pose proof (detected_lines_heads doc pre idt) as F.
  destruct (detected_lines doc pre idt) as [|l ls].
  - split; [reflexivity|]. cbn [app Py.join].
    eexists _, _. split; [reflexivity|vm_compute; reflexivity].
  - split; [reflexivity|]. apply starts_nonspace_app.
    change ((l :: ls) ++ ?x) with (l :: (ls ++ x)).
    apply starts_nonspace_join. inversion F. assumption.
Qed.

Lemma collect_head {A} (r : result A) (rs : list (result A)) (xs : list A) :
  collect (r :: rs) = Ok xs -> exists x, r = Ok x.
Proof. simpl. destruct r; [eauto|discriminate]. Qed.

(** The safe zone can be read whenever all pages can. *)
Lemma id_text_ok (doc : Document) (pre : list str) (texts : list str) :
  collect (map get_text (pages doc)) = Ok texts ->
  exists idt, id_text doc pre = Ok idt.
Proof.
  unfold id_text, id_chunks. intros H.
  destruct (pages doc) as [|p ps]; [eexists; reflexivity|].
  apply collect_head in H as [t ->]. eexists. reflexivity.
Qed.

(** ** Only the outlet line can name arXiv as the outlet *)

Lemma startswith_split (n x : str) :
  Py.startswith n x = true -> exists b, x = n ++ b.
Proof.
  revert x. induction n as [|c n IH]; intros x H; [exists x; reflexivity|].
  destruct x as [|d x]; [discriminate H|]. simpl in H.
  apply andb_true_iff in H as [E H]. apply N.eqb_eq in E. subst d.
  destruct (IH x H) as [b ->]. exists b. reflexivity.
Qed.

Lemma contains_split (n x : str) :
  Py.contains n x = true -> exists a b, x = a ++ n ++ b.
Proof.
  induction x as [|c x IH]; intros H.
  - simpl in H. rewrite orb_false_r in H.
    apply startswith_split in H as [b E]. exists [], b. exact E.
  - simpl in H. apply orb_true_iff in H as [H|H].
    + apply startswith_split in H as [b E]. exists [], b. exact E.
    + destruct (IH H) as (a & b & ->). exists (c :: a), b. reflexivity.
Qed.

Lemma contains_prefix_of_part (n d x : str) :
  Py.contains (n ++ d) x = true -> Py.contains n x = true.
Proof.
  intros H. apply contains_split in H as (a & b & ->).
  rewrite <- app_assoc. apply contains_middle.
Qed.

(** A text without spaces does not contain the outlet phrase. *)
Lemma spaceless_not_outlet (d : str) :
  forallb (fun c => negb (c =? 32)%N) d = true ->
  Py.contains (s "Detected Publication Outlet: arXiv") d = false.
Proof.
  intros Hd. apply not_true_is_false. intros H.
  apply contains_split in H as (a & b & ->).
  rewrite !forallb_app in Hd.
  apply andb_true_iff in Hd as [_ Hd]. apply andb_true_iff in Hd as [Hd _].
  vm_compute in Hd. discriminate Hd.
Qed.

Lemma match_at_consumes (ic : bool) (ok : char -> bool) (r : regex)
  (start : nat) (p : option char) (x : str) (m : Match) :
  consumes_only ic ok r ->
  match_at ic r start p x = Some m ->
  forallb ok (group m 0) = true.
Proof.
  unfold match_at. intros Hr H.
  apply (run_consumes ic ok r Hr) in H as (st' & c & H & E & Hok).
  injection H as <-. simpl in E. subst x. simpl.
  rewrite length_app, Nat.add_sub, take_app_length. exact Hok.
Qed.

Ltac spaceless_class :=
  let x := fresh "x" in
  let H := fresh "H" in
  intros x H; destruct (N.eqb_spec x 32) as [->|_];
  [vm_compute in H; discriminate H|reflexivity].

Lemma doi_pattern_spaceless :
  consumes_only false (fun c => negb (c =? 32)%N) doi_pattern.
Proof. simpl. repeat split; spaceless_class. Qed.

Lemma doi_spaceless (idt : str) (m : Match) :
  search false doi_pattern idt = Some m ->
  forallb (fun c => negb (c =? 32)%N) (group m 0) = true.
Proof.
  unfold search.
  apply (search_from_elim
           (fun m => forallb (fun c => negb (c =? 32)%N) (group m 0) = true)).
  intros start p x m'. apply match_at_consumes, doi_pattern_spaceless.
Qed.

Lemma arxiv_id_spaceless :
  consumes_only true (fun c => negb (c =? 32)%N) arxiv_id.
Proof. simpl. repeat split; spaceless_class. Qed.

Lemma run_seq {A} (ic : bool) (r1 r2 : regex) (k : state -> option A)
  (st : state) :
  run ic (Seq r1 r2) k st = run ic r1 (run ic r2 k) st.
Proof. reflexivity. Qed.

Lemma run_group {A} (ic : bool) (n : nat) (r : regex) (k : state -> option A)
  (st : state) :
  run ic (Group n r) k st
  = run ic r
      (fun st1 =>
         k (State (prev st1) (rest st1)
              ((n, take (length (rest st) - length (rest st1)) (rest st))
               :: caps st1)))
      st.
Proof. reflexivity. Qed.

Lemma arxiv_match_spaceless (start : nat) (p : option char) (x : str) (m : Match) :
  match_at true arxiv_pattern start p x = Some m ->
  forallb (fun c => negb (c =? 32)%N) (group m 1) = true.
Proof.
  assert (E0 : arxiv_pattern
               = Seq (lit "arxiv")
                   (Seq (star (Class [one ":"; Space]))
                      (Seq (Group 1 arxiv_id) Eps))) by reflexivity.
  unfold match_at. rewrite E0.
  intros H. rewrite run_seq in H.
  apply (run_consumes true (fun _ => true) _ (consumes_anything _ _))
    in H as (st1 & c1 & H & _ & _).
  rewrite run_seq in H.
  apply (run_consumes true (fun _ => true) _ (consumes_anything _ _))
    in H as (st2 & c2 & H & _ & _).
  rewrite run_seq, run_group in H.
  apply (run_consumes true _ arxiv_id arxiv_id_spaceless)
    in H as (st3 & c3 & H & E & Hok).
  cbn [run] in H. injection H as <-. cbn. rewrite E.
  rewrite length_app, Nat.add_sub, take_app_length. exact Hok.
Qed.

Lemma arxiv_spaceless (idt : str) (m : Match) :
  search true arxiv_pattern idt = Some m ->
  forallb (fun c => negb (c =? 32)%N) (group m 1) = true.
Proof.
  unfold search.
  apply (search_from_elim
           (fun m => forallb (fun c => negb (c =? 32)%N) (group m 1) = true)).
  apply arxiv_match_spaceless.
Qed.

Lemma doi_lines_not_outlet (idt : str) : outlet_is_arxiv (doi_lines idt) = false.
Proof.
  unfold outlet_is_arxiv, doi_lines.
  destruct (search false doi_pattern idt) as [m|] eqn:E; [|reflexivity].
  apply doi_spaceless in E. cbn [existsb].
  change (Py.contains (s "Detected Publication Outlet: arXiv")
            (s "Detected DOI: " ++ group m 0))
    with (Py.contains (s "Detected Publication Outlet: arXiv") (group m 0)).
  change (Py.contains (s "Detected Publication Outlet: arXiv")
            (s "Detected DOI URL: https://doi.org/" ++ group m 0))
    with (Py.contains (s "Detected Publication Outlet: arXiv") (group m 0)).
  rewrite (spaceless_not_outlet _ E). reflexivity.
Qed.

Lemma arxiv_lines_not_outlet (idt : str) :
  outlet_is_arxiv (arxiv_lines idt) = false.
Proof.
  unfold outlet_is_arxiv, arxiv_lines.
  destruct (search true arxiv_pattern idt) as [m|] eqn:E;
    [|vm_compute; reflexivity].
  apply arxiv_spaceless in E. cbn [existsb].
  change (Py.contains (s "Detected Publication Outlet: arXiv")
            (s "Detected arXiv ID: " ++ group m 1))
    with (Py.contains (s "Detected Publication Outlet: arXiv") (group m 1)).
  change (Py.contains (s "Detected Publication Outlet: arXiv")
            (s "Detected arXiv URL: https://arxiv.org/abs/" ++ group m 1))
    with (Py.contains (s "Detected Publication Outlet: arXiv") (group m 1)).
  rewrite (spaceless_not_outlet _ E). reflexivity.
Qed.

(** The test [any("Detected Publication Outlet: arXiv" in line ...)] is
    decided by the outlet line alone. *)
Lemma outlet_is_arxiv_outlet_line (doc : Document) (pre : list str) (idt : str) :
  outlet_is_arxiv (detected_lines doc pre idt) = outlet_is_arxiv (outlet_lines pre).
Proof.
  unfold detected_lines, outlet_is_arxiv. rewrite !existsb_app.
  fold (outlet_is_arxiv (year_lines doc)). fold (outlet_is_arxiv (doi_lines idt)).
  fold (outlet_is_arxiv (arxiv_lines idt)).
  rewrite year_lines_not_outlet, doi_lines_not_outlet, arxiv_lines_not_outlet.
  simpl. rewrite !orb_false_r. reflexivity.
Qed.



(** ** DOI detection *)

Lemma not_doi_prefix (lit : string) (y : str) :
  Py.startswith (s "Detected DOI") (s lit) = false ->
  length (s "Detected DOI") <= length (s lit) ->
  Py.startswith (s "Detected DOI") (s lit ++ y) = false.
Proof.
  generalize (s "Detected DOI") as p. generalize (s lit) as x.
  induction x as [|c x IH]; intros p H L.
  - destruct p; [discriminate H|simpl in L; lia].
  - destruct p as [|d p]; [discriminate H|]. simpl in *.
    destruct (d =? c)%N; [|reflexivity]. simpl in *. apply IH; [exact H|lia].
Qed.

Ltac other_line :=
  first
    [ apply not_doi_prefix; vm_compute; [reflexivity|lia]
    | vm_compute; reflexivity ].

Lemma lines_without_doi (doc : Document) (full : str) (pre : list str)
  (idt : str) (line : str) :
  search false doi_pattern idt = None ->
  line ∈ detected_lines doc pre idt
         ++ [s "Detected Open Access: "
             ++ open_access (detected_lines doc pre idt) pre full] ->
  Py.startswith (s "Detected DOI") line = false.
Proof.
  intros Hnone. generalize (open_access (detected_lines doc pre idt) pre full).
  intros oa. unfold detected_lines, year_lines, outlet_lines, doi_lines,
    arxiv_lines. rewrite Hnone.
  destruct (detect_year _ _), (search true OUTLET_PATTERN _),
    (search true arxiv_pattern idt);
    rewrite ?elem_of_app, ?elem_of_cons, ?elem_of_nil;
    intros H; decompose [or] H; try contradiction; subst line;
    other_line.
Qed.

(** X24. For a call on ASCII text, a DOI-shaped string in the safe zone
    (the [pre_intro] lines, the text of the first page and the link targets
    of the first page) yields the lines [Detected DOI: <doi>] and
    [Detected DOI URL: https://doi.org/<doi>] for the leftmost match; when
    the safe zone holds none, no line reports a DOI, whatever the rest of
    the document holds. *)
Theorem doi_detected_in_safe_zone (doc : Document) (full : str)
  (pre : list str) (idt : str) :
  ascii_call doc full pre = true ->
  id_text doc pre = Ok idt ->
  exists lines block,
    metadata_lines doc full pre = Ok lines
    /\ extract_metadata doc full pre = Ok block
    /\ match search false doi_pattern idt with
       | Some m =>
           (s "Detected DOI: " ++ group m 0) ∈ lines
           /\ (s "Detected DOI URL: https://doi.org/" ++ group m 0) ∈ lines
           /\ Py.contains (s "Detected DOI: " ++ group m 0) block = true
           /\ Py.contains (s "Detected DOI URL: https://doi.org/" ++ group m 0)
                block = true
           /\ (exists n, group m 0 = take n (drop (mstart m) idt))
           /\ forall j, j < mstart m ->
                match_at false doi_pattern j (char_before None idt j)
                  (drop j idt) = None
       | None =>
           forall line, line ∈ lines ->
             Py.startswith (s "Detected DOI") line = false
       end.
Proof.
  intros _ Hid. pose proof (metadata_lines_ok doc full pre idt Hid) as Hl.
  destruct (extract_metadata_ok doc full pre _ Hl) as [Hb _].
  eexists _, _. split; [exact Hl|]. split; [exact Hb|].
  destruct (search false doi_pattern idt) as [m|] eqn:E.
  - destruct (search_leftmost _ _ _ _ E) as (_ & _ & Hsub & Hleft).
    assert (H1 : (s "Detected DOI: " ++ group m 0)
                   ∈ detected_lines doc pre idt
                       ++ [s "Detected Open Access: "
                           ++ open_access (detected_lines doc pre idt) pre full]).
    { apply elem_of_app. left. unfold detected_lines, doi_lines. rewrite E.
      rewrite !elem_of_app. right. right. left. apply elem_of_cons. auto. }
    assert (H2 : (s "Detected DOI URL: https://doi.org/" ++ group m 0)
                   ∈ detected_lines doc pre idt
                       ++ [s "Detected Open Access: "
                           ++ open_access (detected_lines doc pre idt) pre full]).
    { apply elem_of_app. left. unfold detected_lines, doi_lines. rewrite E.
      rewrite !elem_of_app. right. right. left. rewrite !elem_of_cons. auto. }
    split; [exact H1|]. split; [exact H2|].
    split; [apply contains_app_l, contains_join, H1|].
    split; [apply contains_app_l, contains_join, H2|].
    split; [exact Hsub|exact Hleft].
  - intros line. apply lines_without_doi. exact E.
Qed.

Lemma doi_detected_in_safe_zone_witness :
  (exists lines block,
     metadata_lines doi_in_references (full_text_of doi_in_references)
       (pre_intro_of doi_in_references) = Ok lines
     /\ extract_metadata doi_in_references (full_text_of doi_in_references)
          (pre_intro_of doi_in_references) = Ok block
     /\ s "Detected DOI: 10.1234/abc.567" ∈ lines
     /\ s "Detected DOI URL: https://doi.org/10.1234/abc.567" ∈ lines)
  /\ (exists lines block,
        metadata_lines doi_on_second_page (full_text_of doi_on_second_page)
          (pre_intro_of doi_on_second_page) = Ok lines
        /\ extract_metadata doi_on_second_page (full_text_of doi_on_second_page)
             (pre_intro_of doi_on_second_page) = Ok block
        /\ forall line, line ∈ lines ->
             Py.startswith (s "Detected DOI") line = false).
Proof.
  split.
  - destruct (doi_detected_in_safe_zone doi_in_references
                (full_text_of doi_in_references)
                (pre_intro_of doi_in_references)
                (id_text_of doi_in_references))
      as (lines & block & Hl & Hb & Hdoi).
    + vm_compute. reflexivity.
    + vm_compute. reflexivity.
    + exists lines, block. split; [exact Hl|]. split; [exact Hb|].
      assert (E : exists m,
                 search false doi_pattern (id_text_of doi_in_references) = Some m
                 /\ group m 0 = s "10.1234/abc.567").
      { eexists. split; vm_compute; reflexivity. }
      destruct E as (m & E & G). rewrite E, G in Hdoi.
      destruct Hdoi as (H1 & H2 & _). split; assumption.
  - destruct (doi_detected_in_safe_zone doi_on_second_page
                (full_text_of doi_on_second_page)
                (pre_intro_of doi_on_second_page)
                (id_text_of doi_on_second_page))
      as (lines & block & Hl & Hb & Hdoi).
    + vm_compute. reflexivity.
    + vm_compute. reflexivity.
    + exists lines, block. split; [exact Hl|]. split; [exact Hb|].
      exact Hdoi.
Defined.

(** On a one-page document the DOI that follows the References heading is
    on the first page, hence in the safe zone, and is reported. *)
Lemma doi_after_references_counterexample :
  ~ doi_after_references_undetected doi_in_references.
Proof.
  intros H.
  assert (E : Py.contains (s "Detected DOI")
                (value [] (extract_metadata doi_in_references
                             (full_text_of doi_in_references)
                             (pre_intro_of doi_in_references))) = false).
  { eapply (H (full_text_of doi_in_references) _ 4 (pre_intro_of doi_in_references));
      vm_compute; reflexivity. }
  vm_compute in E. discriminate E.
Qed.

(** C4 (failing input). The document has one page; its References heading
    is line 4 and the only DOI-shaped string follows it, on line 5.  The
    safe zone, built to avoid the end matter, takes in the whole first
    page: the DOI of the reference is reported as the DOI of the
    document. *)
Theorem doi_after_references_reported :
  extract_text_and_lines doi_in_references
  = Ok (full_text_of doi_in_references,
        map s ["Abstract"; "Line one"; "Introduction"; "Body text";
               "References"; "Cite 1 doi:10.1234/abc.567"]%string)
  /\ find_index END_PATTERNS
       (map s ["Abstract"; "Line one"; "Introduction"; "Body text";
               "References"; "Cite 1 doi:10.1234/abc.567"]%string) = Some 4
  /\ search false doi_pattern
       (Py.join [NL]
          (map s ["Abstract"; "Line one"; "Introduction"; "Body text";
                  "References"]%string)) = None
  /\ partition
       (map s ["Abstract"; "Line one"; "Introduction"; "Body text";
               "References"; "Cite 1 doi:10.1234/abc.567"]%string)
     = Ok (pre_intro_of doi_in_references, [s "Line one"],
           map s ["Introduction"; "Body text"]%string,
           [s "Cite 1 doi:10.1234/abc.567"])
  /\ extract_metadata doi_in_references (full_text_of doi_in_references)
       (pre_intro_of doi_in_references)
     = Ok (Py.join [NL]
             [s "Detected DOI: 10.1234/abc.567";
              s "Detected DOI URL: https://doi.org/10.1234/abc.567";
              s "No arXiv ID detected.";
              s "Detected Open Access: No"] ++ [NL]).
Proof. repeat split; vm_compute; reflexivity. Qed.

(** With the end matter on a second page the same DOI is not reported. *)
Example doi_on_second_page_block :
  find_index END_PATTERNS
    (map Py.strip (Py.splitlines (full_text_of doi_on_second_page))) = Some 4
  /\ extract_metadata doi_on_second_page (full_text_of doi_on_second_page)
       (pre_intro_of doi_on_second_page)
     = Ok (Py.join [NL]
             [s "No arXiv ID detected."; s "Detected Open Access: Yes"] ++ [NL]).
Proof. split; vm_compute; reflexivity. Qed.

(** ** The returned sections *)

Lemma process_ok (doc : Document) (texts : list str) :
  collect (map get_text (pages doc)) = Ok texts ->
  exists pre abs body endm block,
    partition (map Py.strip (Py.splitlines (Py.join [NL] texts)))
    = Ok (pre, abs, body, endm)
    /\ extract_metadata doc (Py.join [NL] texts) pre = Ok block
    /\ starts_nonspace block
    /\ process doc
       = Ok {| sections :=
                 {| pre_intro := Py.strip (block ++ Py.join [NL] pre);
                    abstract :=
                      Py.strip (Py.join (s " ")
                                  (filter (fun l => Py.truthy l = true)
                                          (map Py.strip abs)));
                    main_body := Py.strip (Py.join [NL] body);
                    end_matter := Py.strip (Py.join [NL] endm) |};
               full_text := Py.join [NL] texts |}.
Proof.
  intros H.
  destruct (partition_ok (map Py.strip (Py.splitlines (Py.join [NL] texts))))
    as ([[[pre abs] body] endm] & Hp).
  destruct (id_text_ok doc pre texts H) as [idt Hid].
  pose proof (metadata_lines_ok doc (Py.join [NL] texts) pre idt Hid) as Hl.
  destruct (extract_metadata_ok doc _ pre _ Hl) as [Hb Hhead].
  eexists pre, abs, body, endm, _.
  split; [exact Hp|]. split; [exact Hb|]. split; [exact Hhead|].
  unfold process, extract_text_and_lines. rewrite H. cbn [rbind].
  rewrite Hp. cbn [rbind]. rewrite Hb. cbn [rbind].
  rewrite (strip_starts_nonspace _ (starts_nonspace_app _ _ Hhead)).
  reflexivity.
Qed.

(** C10. Whenever the pages can be read, the returned [pre_intro] section
    is the stripped metadata block followed by the [pre_intro] lines; the
    block starts with a detection line, so the section is not empty and
    the full text is never substituted for it. *)
Theorem pre_intro_section_nonempty (doc : Document) (texts : list str) :
  collect (map get_text (pages doc)) = Ok texts ->
  exists out pre abs body endm block,
    process doc = Ok out
    /\ partition (map Py.strip (Py.splitlines (Py.join [NL] texts)))
       = Ok (pre, abs, body, endm)
    /\ extract_metadata doc (Py.join [NL] texts) pre = Ok block
    /\ Py.contains (s "Detected Open Access: ") block = true
    /\ (Py.contains (s "Detected arXiv ID: ") block = true
        \/ Py.contains (s "No arXiv ID detected.") block = true)
    /\ pre_intro (sections out) = Py.strip (block ++ Py.join [NL] pre)
    /\ pre_intro (sections out) <> [].
Proof.
  intros H.
  destruct (process_ok doc texts H)
    as (pre & abs & body & endm & block & Hp & Hb & Hhead & Hout).
  eexists _, pre, abs, body, endm, block.
  split; [exact Hout|]. split; [exact Hp|]. split; [exact Hb|].
  destruct (id_text_ok doc pre texts H) as [idt Hid].
  pose proof (metadata_lines_ok doc (Py.join [NL] texts) pre idt Hid) as Hl.
  destruct (extract_metadata_ok doc _ pre _ Hl) as [Hb' _].
  rewrite Hb in Hb'.
  match type of Hb' with
  | _ = Ok ?b => assert (E : block = b) by congruence
  end.
  split; [|split; [|split; [reflexivity|]]].
  - rewrite E. apply contains_app_l.
    apply contains_join_last, (contains_middle _ []).
  - assert (Hin : forall line, line ∈ arxiv_lines idt ->
                    Py.contains line block = true).
    { intros line Hline. rewrite E. apply contains_app_l, contains_join.
      unfold detected_lines. rewrite !elem_of_app. auto. }
    unfold arxiv_lines in Hin.
    destruct (search true arxiv_pattern idt) as [am|].
    + left. apply (contains_prefix_of_part _ (group am 1)), Hin.
      apply elem_of_cons. auto.
    + right. apply Hin, elem_of_cons. auto.
  - cbn [pre_intro sections].
    pose proof (strip_starts_nonspace _
                  (starts_nonspace_app _ (Py.join [NL] pre) Hhead)) as T.
    destruct (Py.strip (block ++ Py.join [NL] pre)); [discriminate T|discriminate].
Qed.

Lemma pre_intro_section_nonempty_witness :
  exists out pre abs body endm block,
    process doi_in_references = Ok out
    /\ partition (map Py.strip
                    (Py.splitlines (Py.join [NL] (texts_of doi_in_references))))
       = Ok (pre, abs, body, endm)
    /\ extract_metadata doi_in_references
         (Py.join [NL] (texts_of doi_in_references)) pre = Ok block
    /\ Py.contains (s "Detected Open Access: ") block = true
    /\ (Py.contains (s "Detected arXiv ID: ") block = true
        \/ Py.contains (s "No arXiv ID detected.") block = true)
    /\ pre_intro (sections out) = Py.strip (block ++ Py.join [NL] pre)
    /\ pre_intro (sections out) <> [].
Proof.
  apply (pre_intro_section_nonempty doi_in_references (texts_of doi_in_references)).
  vm_compute. reflexivity.
Defined.

(** ** Documents without pages *)

Lemma empty_document_block (doc : Document) :
  pages doc = [] ->
  extract_metadata doc [] []
  = Ok (Py.join [NL]
          (year_lines doc
           ++ [s "No arXiv ID detected."; s "Detected Open Access: No"])
        ++ [NL]).
Proof.
  intros Hp.
  assert (Hid : id_text doc [] = Ok []).
  { unfold id_text, id_chunks. rewrite Hp. reflexivity. }
  pose proof (metadata_lines_ok doc [] [] [] Hid) as Hl.
  destruct (extract_metadata_ok doc [] [] _ Hl) as [Hb _].
  rewrite Hb. f_equal. f_equal. f_equal.
  assert (Hd : detected_lines doc [] []
               = year_lines doc ++ [s "No arXiv ID detected."]).
  { unfold detected_lines.
    replace (outlet_lines []) with (@nil str) by (vm_compute; reflexivity).
    replace (doi_lines []) with (@nil str) by (vm_compute; reflexivity).
    replace (arxiv_lines []) with [s "No arXiv ID detected."]
      by (vm_compute; reflexivity).
    reflexivity. }
  rewrite Hd, <- app_assoc. f_equal. cbn [app]. f_equal. f_equal.
  unfold open_access, outlet_is_arxiv. rewrite existsb_app.
  fold (outlet_is_arxiv (year_lines doc)). rewrite year_lines_not_outlet.
  vm_compute. reflexivity.
Qed.

(** C8 (amended). A document without pages, whose dates are ASCII text,
    does not raise: its text and its line sequence are empty, the four
    zones are empty, and the metadata block ends with a newline and holds
    the arXiv-absence line and the open-access line, preceded by a
    publication-year line when the creation or modification date of the
    document holds a year; without such a date the block holds the two
    lines only. *)
Theorem empty_document_sections (doc : Document) :
  ascii_dates doc = true ->
  pages doc = [] ->
  extract_text_and_lines doc = Ok ([], [])
  /\ partition [] = Ok ([], [], [], [])
  /\ extract_metadata doc [] []
     = Ok (Py.join [NL]
             (year_lines doc
              ++ [s "No arXiv ID detected."; s "Detected Open Access: No"])
           ++ [NL])
  /\ (year_lines doc = [] -> extract_metadata doc [] [] = Ok bare_block)
  /\ exists block,
       extract_metadata doc [] [] = Ok block
       /\ process doc
          = Ok {| sections :=
                    {| pre_intro := Py.strip block;
                       abstract := [];
                       main_body := [];
                       end_matter := [] |};
                  full_text := [] |}.
Proof.
  intros _ Hp.
  assert (Ht : collect (map get_text (pages doc)) = Ok []) by (rewrite Hp; reflexivity).
  assert (Hz : partition [] = Ok ([], [], [], [])) by (vm_compute; reflexivity).
  split; [unfold extract_text_and_lines; rewrite Ht; reflexivity|].
  split; [exact Hz|].
  split; [apply empty_document_block, Hp|].
  split.
  - intros Hy. rewrite (empty_document_block doc Hp), Hy. reflexivity.
  - destruct (process_ok doc [] Ht)
      as (pre & abs & body & endm & block & Hpart & Hb & _ & Hout).
    change (partition [] = Ok (pre, abs, body, endm)) in Hpart.
    rewrite Hz in Hpart.
    assert (pre = [] /\ abs = [] /\ body = [] /\ endm = [])
      as (-> & -> & -> & ->) by (repeat split; congruence).
    exists block. split; [exact Hb|].
    rewrite Hout, app_nil_r. reflexivity.
Qed.

Lemma empty_document_sections_witness :
  extract_metadata dated_empty_document [] []
  = Ok (Py.join [NL]
          [s "Detected Publication Year: 2021"; s "No arXiv ID detected.";
           s "Detected Open Access: No"] ++ [NL])
  /\ extract_metadata {| pages := []; metadata := None |} [] [] = Ok bare_block.
Proof.
  split.
  - destruct (empty_document_sections dated_empty_document eq_refl eq_refl)
      as (_ & _ & H & _).
    rewrite H. vm_compute. reflexivity.
  - destruct (empty_document_sections {| pages := []; metadata := None |}
                eq_refl eq_refl)
      as (_ & _ & _ & H & _).
    apply H. reflexivity.
Defined.

(** C8 (as stated) fails for a document without pages whose creation date
    holds a year: its block has a publication-year line as well. *)
Lemma empty_document_bare_block_counterexample :
  ~ empty_document_bare_block dated_empty_document.
Proof.
  intros H. specialize (H eq_refl). vm_compute in H. discriminate H.
Qed.

(** ** The document handle *)

(** C9. When the attachment resolves to an open document, the handle is
    closed exactly once, after the body of the [try] block has run and
    before the call returns; the outcome of the call is the outcome of the
    body, so an exception raised by text extraction, boundary search,
    partitioning or metadata extraction reaches the caller after the close. *)
Theorem handle_closed_exactly_once
  (fitz_open : str -> result Document) (path_exists : str -> bool)
  (download_pdf : str -> result Document)
  (att : attachment) (doc : Document) (t : list event) :
  resolve fitz_open path_exists download_pdf att = Ok doc ->
  extract_text_from_attachment fitz_open path_exists download_pdf att t
  = (t ++ [Opened; Closed], process doc)
  /\ closes (t ++ [Opened; Closed]) = closes t + 1
  /\ forall e, process doc = Raise e ->
       extract_text_from_attachment fitz_open path_exists download_pdf att t
       = (t ++ [Opened; Closed], Raise e).
Proof.
  intros H.
  assert (E : extract_text_from_attachment fitz_open path_exists download_pdf att t
              = (t ++ [Opened; Closed], process doc)).
  { unfold extract_text_from_attachment, mbind, opening, try_finally, lift, close.
    rewrite H, <- app_assoc. reflexivity. }
  split; [exact E|]. split.
  - unfold closes. rewrite filter_app, length_app. reflexivity.
  - intros e He. rewrite E, He. reflexivity.
Qed.

Lemma handle_closed_exactly_once_witness :
  extract_text_from_attachment
    (fun _ => Ok unreadable_document) (fun _ => true) (fun _ => Raise RuntimeError)
    (AStr (s "paper.pdf")) []
  = ([Opened; Closed], Raise FitzError).
Proof.
  destruct (handle_closed_exactly_once
              (fun _ => Ok unreadable_document) (fun _ => true)
              (fun _ => Raise RuntimeError)
              (AStr (s "paper.pdf")) unreadable_document [] eq_refl)
    as (_ & _ & H).
  apply H. vm_compute. reflexivity.
Defined.

(** A document that cannot be opened leaves no handle behind. *)
Example unopened_document_not_closed :
  extract_text_from_attachment
    (fun _ => Raise FitzError) (fun _ => false) (fun _ => Raise RuntimeError)
    (ADict {[ "url"%string := s "https://example.org/paper.pdf" ]}) []
  = ([], Raise RuntimeError).
Proof. vm_compute. reflexivity. Qed.

Example invalid_attachment :
  extract_text_from_attachment
    (fun _ => Raise FitzError) (fun _ => false) (fun _ => Raise RuntimeError)
    AOther []
  = ([], Raise ValueError).
Proof. reflexivity. Qed.

(** * Further properties of the loader *)

(** ** The partitioner *)

(** X1. Whatever the document, the numbered-heading scan yields no
    candidate: the abstract ends at the keywords line or the introduction
    heading after it, whichever comes first, or else at the end of the
    document, also when a numbered or all-caps heading follows. *)
Theorem abstract_end_ignores_numbered_headings (stripped : list str) (a : nat)
  (i : option nat) :
  first_after stripped a NUMBERED_PATTERNS = None
  /\ numbered_after stripped a i = None
  /\ abs_end stripped a i
     = Ok match kw_after stripped a, intro_after a i with
          | Some k, Some y => Nat.min (Nat.min k y) (length stripped)
          | Some k, None => Nat.min k (length stripped)
          | None, Some y => Nat.min y (length stripped)
          | None, None => length stripped
          end.
Proof.
  split; [|split].
  - unfold first_after. rewrite numbered_scan_never_matches. reflexivity.
  - apply numbered_after_is_none.
  - unfold abs_end, candidates. rewrite numbered_after_is_none.
    destruct (kw_after stripped a), (intro_after a i); reflexivity.
Qed.

(** X2. [extract_sections] raises exactly when an abstract index is given
    that is not an index of the line sequence, and what it raises then is
    [IndexError]; an introduction or end index beyond the document never
    makes it raise. *)
Theorem extract_sections_raises_iff (stripped : list str) (a i e : option nat) :
  ((exists x, a = Some x /\ length stripped <= x)
   /\ extract_sections stripped a i e = Raise IndexError)
  \/ ((forall x, a = Some x -> x < length stripped)
      /\ exists zones, extract_sections stripped a i e = Ok zones).
Proof.
  destruct a as [x|].
  - destruct (le_lt_dec (length stripped) x) as [Hge|Hlt].
    + left. split; [eauto|].
      unfold extract_sections.
      rewrite (first_break_ok (Some x) i eq_refl). cbn [is_some orb rbind].
      destruct (abs_end_ok stripped x i) as (stop & -> & _). cbn [rbind].
      unfold index. rewrite (lookup_ge_None_2 stripped x Hge). reflexivity.
    + right. split; [intros y [= <-]; exact Hlt|].
      destruct (extract_sections_slices stripped (Some x) i e)
        as (pre & abs & body & endm & inline & _ & _ & H).
      * intros y [= <-]. exact Hlt.
      * eexists. exact H.
  - right. split; [discriminate|].
    destruct (extract_sections_slices stripped None i e)
      as (pre & abs & body & endm & inline & _ & _ & H); [discriminate|].
    eexists. exact H.
Qed.

Lemma slice_heading_drop {A} (l : list A) (b z : nat) (hd : A) :
  b <= z -> l !! z = Some hd ->
  Py.slice l b z ++ hd :: drop (z + 1) l = drop b l.
Proof.
  intros Hb Hz. unfold Py.slice.
  rewrite <- (take_drop (z - b) (drop b l)) at 2. f_equal.
  rewrite drop_drop. replace (b + (z - b)) with z by lia.
  replace (z + 1) with (S z) by lia. symmetry. apply drop_S, Hz.
Qed.

Lemma zones_of_spans (stripped : list str) (a i e : option nat) :
  (forall x, a = Some x -> x < length stripped) ->
  exists pre abs body endm,
    extract_sections stripped a i e = Ok (pre, abs, body, endm)
    /\ pre = take match a, i with
                  | Some x, Some y => Nat.min x y
                  | Some x, None => x
                  | None, Some y => y
                  | None, None => 50
                  end stripped
    /\ body = Py.slice stripped (body_start a i)
                match e with Some z => z | None => length stripped end
    /\ endm = match e with Some z => drop (z + 1) stripped | None => [] end
    /\ (a = None ->
        abs = match i with
              | Some y => if 5 <? y then take y stripped else []
              | None => []
              end).
Proof.
  intros Ha.
  destruct (extract_sections_slices stripped a i e Ha)
    as (pre & abs & body & endm & inline & Hspans & _ & H).
  destruct (zone_spans_explicit _ _ _ _ _ _ _ _ Hspans)
    as (-> & -> & -> & Habs).
  eexists _, _, _, _. split; [exact H|].
  unfold lines_of. cbn [fst snd]. rewrite slice_from_0.
  split; [reflexivity|]. split; [reflexivity|]. split.
  - destruct e; cbn [fst snd]; [apply slice_to_end|apply slice_empty].
  - intros ->.
    assert (H2 : exists p b en,
               extract_sections stripped None i e
               = Ok (p, match i with
                        | Some y => if 5 <? y then take y stripped else []
                        | None => []
                        end, b, en)).
    { unfold extract_sections. destruct i as [y|]; cbn [is_some orb rbind].
      - rewrite (first_break_ok None (Some y) eq_refl). cbn [rbind].
        destruct (5 <? y); cbn [rbind]; eauto.
      - eauto. }
    destruct H2 as (p & b & en & H2). rewrite H in H2.
    injection H2 as _ H2 _ _. exact H2.
Qed.

(** X3. From the start of the body on nothing is lost but the place of the
    end-matter heading: when the end index lies at or after the start of the
    body, [main_body], the heading line and [end_matter] concatenate to the
    lines of the document from the body start; without an end index
    [main_body] is all of them and [end_matter] is empty. *)
Theorem body_and_end_matter_rebuild (stripped : list str) (a i e : option nat) :
  (forall x, a = Some x -> x < length stripped) ->
  (forall z, e = Some z -> body_start a i <= z < length stripped) ->
  exists pre abs body endm,
    extract_sections stripped a i e = Ok (pre, abs, body, endm)
    /\ body ++ heading_line stripped e ++ endm = drop (body_start a i) stripped
    /\ (e = None -> endm = []).
Proof.
  intros Ha He.
  destruct (zones_of_spans stripped a i e Ha)
    as (pre & abs & body & endm & H & _ & -> & -> & _).
  eexists _, _, _, _. split; [exact H|]. split; [|intros ->; reflexivity].
  unfold heading_line. destruct e as [z|].
  - destruct (He z eq_refl) as [Hb Hz].
    destruct (lookup_lt_is_Some_2 stripped z Hz) as [hd Hhd]. rewrite Hhd.
    apply slice_heading_drop; assumption.
  - rewrite !app_nil_r. apply slice_to_end.
Qed.

Lemma body_and_end_matter_rebuild_witness :
  exists pre abs body endm,
    extract_sections scenario_lines (Some 0) (Some 3) (Some 5)
    = Ok (pre, abs, body, endm)
    /\ body ++ heading_line scenario_lines (Some 5) ++ endm
       = drop (body_start (Some 0) (Some 3)) scenario_lines
    /\ (Some 5 = None -> endm = []).
Proof.
  apply (body_and_end_matter_rebuild scenario_lines (Some 0) (Some 3) (Some 5)).
  - intros x [= <-]. vm_compute. lia.
  - intros z [= <-]. vm_compute. lia.
Defined.

(** X4. Without an abstract heading, and with the end-matter heading, if
    there is one, at or after the introduction heading at line [y] and
    inside the document: [pre_intro], [main_body], the end-matter heading
    line and [end_matter] concatenate to the whole document, and the
    abstract is a copy of [pre_intro] when [y > 5] and empty otherwise. *)
Theorem introduction_only_rebuilds_document (stripped : list str) (y : nat)
  (e : option nat) :
  (forall z, e = Some z -> y <= z < length stripped) ->
  exists pre abs body endm,
    extract_sections stripped None (Some y) e = Ok (pre, abs, body, endm)
    /\ pre ++ body ++ heading_line stripped e ++ endm = stripped
    /\ abs = (if 5 <? y then pre else []).
Proof.
  intros He.
  destruct (zones_of_spans stripped None (Some y) e)
    as (pre & abs & body & endm & H & -> & -> & -> & Habs); [discriminate|].
  eexists _, _, _, _. split; [exact H|]. split; [|apply Habs; reflexivity].
  cbn [body_start].
  rewrite <- (take_drop y stripped) at 4. f_equal.
  unfold heading_line. destruct e as [z|].
  - destruct (He z eq_refl) as [Hb Hz].
    destruct (lookup_lt_is_Some_2 stripped z Hz) as [hd Hhd]. rewrite Hhd.
    apply slice_heading_drop; assumption.
  - rewrite !app_nil_r. apply slice_to_end.
Qed.

Lemma introduction_only_rebuilds_document_witness :
  exists pre abs body endm,
    extract_sections (map s ["Title"; "Introduction"; "Body"; "References"; "R1"]%string)
      None (Some 1) (Some 3) = Ok (pre, abs, body, endm)
    /\ pre ++ body
       ++ heading_line (map s ["Title"; "Introduction"; "Body"; "References"; "R1"]%string)
            (Some 3)
       ++ endm
       = map s ["Title"; "Introduction"; "Body"; "References"; "R1"]%string
    /\ abs = (if 5 <? 1 then pre else []).
Proof.
  apply (introduction_only_rebuilds_document
           (map s ["Title"; "Introduction"; "Body"; "References"; "R1"]%string)
           1 (Some 3)).
  intros z [= <-]. vm_compute. lia.
Defined.

(** X5. [_first_after(start, patterns)] returns the index of the first line
    strictly after [start] that matches, which is an index of the document,
    and [None] when no later line matches. *)
Theorem first_after_is_first_later_match (patterns : list regex)
  (stripped : list str) (start : nat) :
  match first_after stripped start patterns with
  | Some j =>
      start < j < length stripped
      /\ (exists ln, stripped !! j = Some ln
                     /\ matches_lowered patterns ln = true)
      /\ forall k ln, start < k < j -> stripped !! k = Some ln ->
                      matches_lowered patterns ln = false
  | None =>
      forall k ln, start < k -> stripped !! k = Some ln ->
                   matches_lowered patterns ln = false
  end.
Proof.
  unfold first_after.
  pose proof (find_index_first patterns (drop (start + 1) stripped)) as F.
  destruct (find_index patterns (drop (start + 1) stripped)) as [j|] eqn:E.
  - destruct F as [(ln & Hln & Hm) Hbefore].
    rewrite lookup_drop in Hln. split.
    + apply lookup_lt_Some in Hln. lia.
    + split; [exists ln; auto|].
      intros k ln' [Hk1 Hk2] Hlook.
      apply (Hbefore (k - (start + 1))); [lia|].
      rewrite lookup_drop. replace (start + 1 + (k - (start + 1))) with k by lia.
      exact Hlook.
  - intros k ln Hk Hlook. apply F.
    apply list_elem_of_lookup. exists (k - (start + 1)).
    rewrite lookup_drop. replace (start + 1 + (k - (start + 1))) with k by lia.
    exact Hlook.
Qed.

(** ** What can fail *)

Lemma collect_raises {A} (rs : list (result A)) (e : exn) :
  collect rs = Raise e
  <-> exists before after, rs = map Ok before ++ Raise e :: after.
Proof.
  induction rs as [|r rs IH].
  - split; [discriminate|]. intros (before & after & H).
    destruct before; discriminate H.
  - destruct r as [x|e'].
    + assert (Hc : collect (Ok x :: rs) = Raise e <-> collect rs = Raise e).
      { simpl. destruct (collect rs); simpl; split; congruence. }
      rewrite Hc, IH. split.
      * intros (before & after & ->). exists (x :: before), after. reflexivity.
      * intros (before & after & H).
        destruct before as [|b before]; [discriminate H|].
        simpl in H. injection H as _ H. eauto.
    + simpl. split.
      * intros [= ->]. exists [], rs. reflexivity.
      * intros (before & after & H). destruct before; [|discriminate H].
        simpl in H. injection H as ->. reflexivity.
Qed.

Lemma id_text_raises (doc : Document) (pre : list str) (e : exn) :
  id_text doc pre = Raise e
  <-> exists p ps, pages doc = p :: ps /\ get_text p = Raise e.
Proof.
  unfold id_text, id_chunks. destruct (pages doc) as [|p ps].
  - split; [discriminate|]. intros (p & ps & H & _). discriminate H.
  - destruct (get_text p) as [t|e'] eqn:E; simpl.
    + split; [discriminate|]. intros (p' & ps' & [= <- <-] & H). congruence.
    + split.
      * intros [= ->]. eauto.
      * intros (p' & ps' & [= <- <-] & H). congruence.
Qed.

(** X6. [extract_metadata] raises exactly when the document has a first page
    whose text cannot be read, with the exception of that read; a failure of
    [get_links] is swallowed, and the block is then the one of the same
    document without links on its first page. *)
Theorem extract_metadata_raises_iff (doc : Document) (full : str) (pre : list str) :
  (forall e, extract_metadata doc full pre = Raise e
             <-> exists p ps, pages doc = p :: ps /\ get_text p = Raise e)
  /\ forall p ps e,
       pages doc = p :: ps -> get_links p = Raise e ->
       extract_metadata doc full pre
       = extract_metadata
           {| pages := {| get_text := get_text p; get_links := Ok [] |} :: ps;
              metadata := metadata doc |} full pre.
Proof.
  split.
  - intros e. rewrite <- (id_text_raises doc pre e).
    unfold extract_metadata, metadata_lines.
    destruct (id_text doc pre) as [idt|e']; cbn [rbind].
    + split; intros E; [|discriminate E].
      destruct (detected_lines doc pre idt ++ _); discriminate E.
    + reflexivity.
  - intros p ps e Hp Hl.
    unfold extract_metadata, metadata_lines, id_text, id_chunks, detected_lines,
      year_lines.
    rewrite Hp. cbn [pages metadata get_text get_links]. rewrite Hl. reflexivity.
Qed.

(** X7. The body of the [try] block raises exactly when the text of some page
    cannot be read, and what reaches the caller is the exception of the
    first such page: boundary search, partitioning and metadata extraction
    add no failure of their own. *)
Theorem process_raises_iff (doc : Document) (e : exn) :
  process doc = Raise e
  <-> exists before p after texts,
        pages doc = before ++ p :: after
        /\ map get_text before = map Ok texts
        /\ get_text p = Raise e.
Proof.
  assert (H1 : process doc = Raise e
               <-> collect (map get_text (pages doc)) = Raise e).
  { destruct (collect (map get_text (pages doc))) as [texts|e'] eqn:E.
    - destruct (process_ok doc texts E) as (? & ? & ? & ? & ? & _ & _ & _ & ->).
      split; discriminate.
    - unfold process, extract_text_and_lines. rewrite E. cbn [rbind].
      split; intros [= ->]; reflexivity. }
  rewrite H1, collect_raises. split.
  - intros (texts & rest & H).
    apply map_eq_app in H as (before & tl & -> & Hb & Htl).
    destruct tl as [|p after]; [discriminate Htl|].
    simpl in Htl. injection Htl as Hp _.
    exists before, p, after, texts. auto.
  - intros (before & p & after & texts & -> & Hb & Hp).
    exists texts, (map get_text after).
    rewrite map_app, Hb. simpl. rewrite Hp. reflexivity.
Qed.

(** ** The metadata block *)

Lemma literal_prefix_mismatch (p lit : str) (y : str) :
  Py.startswith p lit = false -> length p <= length lit ->
  Py.startswith p (lit ++ y) = false.
Proof.
  revert p. induction lit as [|c x IH]; intros p H L.
  - destruct p; [discriminate H|simpl in L; lia].
  - destruct p as [|d p]; [discriminate H|]. simpl in *.
    destruct (d =? c)%N; [|reflexivity]. simpl in *. apply IH; [exact H|lia].
Qed.

Ltac not_open_access_line :=
  first
    [ apply literal_prefix_mismatch; vm_compute; [reflexivity|lia]
    | vm_compute; reflexivity ].

(** X8. The block ends with the open-access line, which reads
    [Detected Open Access: Yes] or [Detected Open Access: No], and no
    other line of the block is an open-access line. *)
Theorem open_access_line_is_last (doc : Document) (full : str) (pre : list str)
  (lines : list str) :
  metadata_lines doc full pre = Ok lines ->
  exists detected final,
    lines = detected ++ [final]
    /\ extract_metadata doc full pre
       = Ok (Py.join [NL] (detected ++ [final]) ++ [NL])
    /\ (final = s "Detected Open Access: Yes"
        \/ final = s "Detected Open Access: No")
    /\ forall line, line ∈ detected ->
         Py.startswith (s "Detected Open Access") line = false.
Proof.
  intros H. destruct (extract_metadata_ok doc full pre lines H) as [Hb _].
  unfold metadata_lines in H.
  destruct (id_text doc pre) as [idt|]; [|discriminate H].
  cbn [rbind] in H. injection H as <-.
  eexists _, _. split; [reflexivity|]. split; [exact Hb|]. split.
  - unfold open_access.
    destruct (outlet_is_arxiv _); [left; reflexivity|].
    destruct (has_marker _); [left|right]; reflexivity.
  - unfold detected_lines, year_lines, outlet_lines, doi_lines, arxiv_lines.
    intros line.
    destruct (detect_year _ _), (search true OUTLET_PATTERN _),
      (search false doi_pattern idt), (search true arxiv_pattern idt);
      rewrite ?elem_of_app, ?elem_of_cons, ?elem_of_nil;
      intros Hl; decompose [or] Hl; try contradiction; subst line;
      not_open_access_line.
Qed.

Lemma open_access_line_is_last_witness :
  exists detected final,
    [s "No arXiv ID detected."; s "Detected Open Access: No"]
    = detected ++ [final]
    /\ extract_metadata {| pages := []; metadata := None |} [] []
       = Ok (Py.join [NL] (detected ++ [final]) ++ [NL])
    /\ (final = s "Detected Open Access: Yes"
        \/ final = s "Detected Open Access: No")
    /\ forall line, line ∈ detected ->
         Py.startswith (s "Detected Open Access") line = false.
Proof.
  apply (open_access_line_is_last {| pages := []; metadata := None |} [] []).
  vm_compute. reflexivity.
Defined.

(** X9. For a call on ASCII text, an outlet that starts with [arXiv] forces
    open access: when the outlet pattern finds such an outlet in the
    [pre_intro] text, the block has the line [Detected Open Access: Yes]
    whether or not a license marker occurs anywhere. *)
Theorem arxiv_outlet_forces_open_access (doc : Document) (full : str)
  (pre : list str) (idt : str) (m : Match) :
  ascii_call doc full pre = true ->
  id_text doc pre = Ok idt ->
  search true OUTLET_PATTERN (Py.join [NL] pre) = Some m ->
  Py.startswith (s "arXiv") (Py.strip (group m 1)) = true ->
  exists lines,
    metadata_lines doc full pre = Ok lines
    /\ (s "Detected Publication Outlet: " ++ Py.strip (group m 1)) ∈ lines
    /\ s "Detected Open Access: Yes" ∈ lines.
Proof.
  intros _ Hid Hm Hstart.
  rewrite (metadata_lines_ok doc full pre idt Hid). eexists. split; [reflexivity|].
  assert (Hout : outlet_lines pre
                 = [s "Detected Publication Outlet: " ++ Py.strip (group m 1)]).
  { unfold outlet_lines. rewrite Hm. reflexivity. }
  split.
  - apply elem_of_app. left. unfold detected_lines. rewrite Hout.
    rewrite !elem_of_app, elem_of_cons. auto.
  - apply elem_of_app. right. apply elem_of_cons. left.
    unfold open_access. rewrite outlet_is_arxiv_outlet_line, Hout.
    apply startswith_split in Hstart as [b ->].
    unfold outlet_is_arxiv. cbn [existsb].
    change (s "Detected Publication Outlet: " ++ s "arXiv" ++ b)
      with ([] ++ s "Detected Publication Outlet: arXiv" ++ b).
    rewrite contains_middle. reflexivity.
Qed.

Lemma arxiv_outlet_forces_open_access_witness :
  exists lines,
    metadata_lines {| pages := []; metadata := None |} (s "No licence here")
      [s "Accepted for publication in arXiv"] = Ok lines
    /\ (s "Detected Publication Outlet: " ++ s "arXiv") ∈ lines
    /\ s "Detected Open Access: Yes" ∈ lines.
Proof.
  assert (Hm : exists m,
             search true OUTLET_PATTERN
               (Py.join [NL] [s "Accepted for publication in arXiv"]) = Some m
             /\ Py.strip (group m 1) = s "arXiv").
  { eexists. split; vm_compute; reflexivity. }
  destruct Hm as (m & Hm & Hg). rewrite <- Hg.
  apply (arxiv_outlet_forces_open_access
           {| pages := []; metadata := None |} (s "No licence here")
           [s "Accepted for publication in arXiv"]
           (s "Accepted for publication in arXiv") m).
  - vm_compute. reflexivity.
  - vm_compute. reflexivity.
  - exact Hm.
  - rewrite Hg. vm_compute. reflexivity.
Defined.

(** The test is case-sensitive: a lowercase outlet does not force it. *)
Example lowercase_arxiv_outlet_not_forced :
  metadata_lines {| pages := []; metadata := None |} (s "No licence here")
    [s "Accepted for publication in arxiv"]
  = Ok [s "Detected Publication Outlet: arxiv"; s "No arXiv ID detected.";
        s "Detected Open Access: No"].
Proof. vm_compute. reflexivity. Qed.

(** ** The publication year *)

Lemma lit_eq_exact (p c : char) : lit_eq false p c = true -> c = p.
Proof.
  unfold lit_eq. rewrite andb_false_l, orb_false_r. apply N.eqb_eq.
Qed.

Lemma digit_class (c : char) :
  in_class false [Digit] c = true -> Py.isdigit c = true.
Proof.
  unfold in_class. simpl. rewrite !orb_false_r. auto.
Qed.

Lemma year_match_shape (start : nat) (p : option char) (x : str) (m : Match) :
  match_at false YEAR_PATTERN start p x = Some m ->
  exists c3 c4,
    (group m 1 = s "20" ++ [c3; c4] \/ group m 1 = s "19" ++ [c3; c4])
    /\ Py.isdigit c3 = true /\ Py.isdigit c4 = true.
Proof.
  unfold match_at. intros H.
  destruct x as [|c1 [|c2 [|c3 [|c4 tl]]]]; cbn in H;
    try discriminate H;
    repeat (case_match; try discriminate); simplify_eq; cbn;
    replace (S (S (S (S (length tl)))) - length tl) with 4 by lia;
    cbn [take firstn];
    repeat match goal with
           | H : lit_eq false _ _ = true |- _ => apply lit_eq_exact in H; subst
           | H : in_class false [Digit] _ = true |- _ => apply digit_class in H
           end;
    exists c3, c4; (split; [|split; assumption]);
    first [left; reflexivity | right; reflexivity].
Qed.

Lemma detect_year_shape (meta : gmap string str) (keys : list string) (y : str) :
  detect_year meta keys = Some y ->
  exists c3 c4,
    (y = s "20" ++ [c3; c4] \/ y = s "19" ++ [c3; c4])
    /\ Py.isdigit c3 = true /\ Py.isdigit c4 = true.
Proof.
  induction keys as [|key keys IH]; simpl; [discriminate|].
  destruct (Py.truthy (default [] (meta !! key))); [|exact IH].
  destruct (search false YEAR_PATTERN (default [] (meta !! key))) as [m|] eqn:E;
    [|exact IH].
  intros [= <-]. revert E. unfold search.
  apply (search_from_elim
           (fun m => exists c3 c4,
                       (group m 1 = s "20" ++ [c3; c4]
                        \/ group m 1 = s "19" ++ [c3; c4])
                       /\ Py.isdigit c3 = true /\ Py.isdigit c4 = true)).
  apply year_match_shape.
Qed.

Lemma detect_year_step (meta : gmap string str) (key : string) (keys : list string) :
  detect_year meta (key :: keys)
  = match year_in (default [] (meta !! key)) with
    | Some y => Some y
    | None => detect_year meta keys
    end.
Proof.
  simpl. unfold year_in. destruct (default [] (meta !! key)) as [|c val] eqn:E.
  - simpl. replace (search false YEAR_PATTERN []) with (@None Match)
      by (vm_compute; reflexivity). reflexivity.
  - simpl. destruct (search false YEAR_PATTERN (c :: val)); reflexivity.
Qed.

(** X10. For a document whose dates are ASCII text, there is at most one
    publication-year line; it carries four characters, [19] or [20]
    followed by two digits, taken from the creation date when that holds
    such a year and from the modification date otherwise; a document
    without properties, or whose two dates hold no year, has no year
    line. *)
Theorem year_line_from_first_dated_property (doc : Document) :
  ascii_dates doc = true ->
  (forall line, line ∈ year_lines doc ->
     exists c3 c4,
       (line = s "Detected Publication Year: 20" ++ [c3; c4]
        \/ line = s "Detected Publication Year: 19" ++ [c3; c4])
       /\ Py.isdigit c3 = true /\ Py.isdigit c4 = true)
  /\ year_lines doc
     = match year_in (default [] (default ∅ (metadata doc) !! "creationDate"%string)) with
       | Some y => [s "Detected Publication Year: " ++ y]
       | None =>
           match year_in (default [] (default ∅ (metadata doc) !! "modDate"%string)) with
           | Some y => [s "Detected Publication Year: " ++ y]
           | None => []
           end
       end.
Proof.
  intros _. split.
  - unfold year_lines. intros line Hl.
    destruct (detect_year _ _) as [y|] eqn:E; [|inversion Hl].
    apply elem_of_cons in Hl as [->|Hl]; [|inversion Hl].
    apply detect_year_shape in E as (c3 & c4 & [->| ->] & H3 & H4);
      exists c3, c4; (split; [|split; assumption]);
      [left|right]; reflexivity.
  - unfold year_lines. rewrite !detect_year_step. simpl detect_year.
    destruct (year_in _); [reflexivity|]. destruct (year_in _); reflexivity.
Qed.

Lemma year_line_from_first_dated_property_witness :
  year_lines
    {| pages := [];
       metadata := Some {[ "creationDate"%string := s "D:none";
                           "modDate"%string := s "D:19991231235959Z" ]} |}
  = [s "Detected Publication Year: 1999"].
Proof.
  destruct (year_line_from_first_dated_property
              {| pages := [];
                 metadata := Some {[ "creationDate"%string := s "D:none";
                                     "modDate"%string := s "D:19991231235959Z" ]} |})
    as [_ H].
  - vm_compute. reflexivity.
  - rewrite H. vm_compute. reflexivity.
Defined.

(** The scenario of the specification: the creation date wins. *)
Example year_of_creation_date :
  year_lines
    {| pages := [];
       metadata := Some {[ "creationDate"%string := s "D:20210615120000Z";
                           "modDate"%string := s "D:20230101000000Z" ]} |}
  = [s "Detected Publication Year: 2021"].
Proof. vm_compute. reflexivity. Qed.

(** ** The returned sections *)

Lemma lstrip_split (x : str) :
  exists ws, x = ws ++ Py.lstrip x /\ forallb Py.isspace ws = true.
Proof.
  induction x as [|c x (ws & E & H)]; [exists []; auto|].
  simpl. destruct (Py.isspace c) eqn:Hc.
  - exists (c :: ws). simpl. rewrite Hc, H. split; [f_equal; exact E|reflexivity].
  - exists []. auto.
Qed.

Lemma lstrip_head (x : str) (c : char) (tl : str) :
  Py.lstrip x = c :: tl -> Py.isspace c = false.
Proof.
  induction x as [|d x IH]; simpl; [discriminate|].
  destruct (Py.isspace d) eqn:Hd; [exact IH|].
  intros [= <- _]. exact Hd.
Qed.

Lemma lstrip_fixed (c : char) (tl : str) :
  Py.isspace c = false -> Py.lstrip (c :: tl) = c :: tl.
Proof. intros H. simpl. rewrite H. reflexivity. Qed.

Lemma lstrip_lstrip (x : str) : Py.lstrip (Py.lstrip x) = Py.lstrip x.
Proof.
  destruct (Py.lstrip x) as [|c tl] eqn:E; [reflexivity|].
  apply lstrip_fixed. eapply lstrip_head, E.
Qed.

Lemma rstrip_split (y : str) :
  exists ws, y = Py.rstrip y ++ ws /\ forallb Py.isspace ws = true.
Proof.
  unfold Py.rstrip. destruct (lstrip_split (rev y)) as (ws & E & H).
  exists (rev ws). split.
  - rewrite <- rev_app_distr, <- E, rev_involutive. reflexivity.
  - rewrite forallb_forall in *. intros c Hc. apply H, in_rev, Hc.
Qed.

Lemma rstrip_rstrip (y : str) : Py.rstrip (Py.rstrip y) = Py.rstrip y.
Proof.
  unfold Py.rstrip. rewrite rev_involutive, lstrip_lstrip. reflexivity.
Qed.

(** Stripping twice is stripping once. *)
Lemma strip_strip (x : str) : Py.strip (Py.strip x) = Py.strip x.
Proof.
  unfold Py.strip.
  assert (E : Py.lstrip (Py.rstrip (Py.lstrip x)) = Py.rstrip (Py.lstrip x)).
  { destruct (rstrip_split (Py.lstrip x)) as (ws & E & _).
    destruct (Py.rstrip (Py.lstrip x)) as [|c tl] eqn:R; [reflexivity|].
    apply lstrip_fixed. apply (lstrip_head x c (tl ++ ws)).
    rewrite E at 1. reflexivity. }
  rewrite E. apply rstrip_rstrip.
Qed.

(** X11. Every section of the result is stripped: none starts or ends with
    whitespace, so stripping a returned section again changes nothing. *)
Theorem returned_sections_are_stripped (doc : Document) (texts : list str) :
  collect (map get_text (pages doc)) = Ok texts ->
  exists out,
    process doc = Ok out
    /\ full_text out = Py.join [NL] texts
    /\ Py.strip (pre_intro (sections out)) = pre_intro (sections out)
    /\ Py.strip (abstract (sections out)) = abstract (sections out)
    /\ Py.strip (main_body (sections out)) = main_body (sections out)
    /\ Py.strip (end_matter (sections out)) = end_matter (sections out).
Proof.
  intros H.
  destruct (process_ok doc texts H)
    as (pre & abs & body & endm & block & _ & _ & _ & Hout).
  eexists. split; [exact Hout|]. cbn [sections pre_intro abstract main_body
                                       end_matter full_text].
  split; [reflexivity|]. repeat split; apply strip_strip.
Qed.

Lemma returned_sections_are_stripped_witness :
  exists out,
    process doi_in_references = Ok out
    /\ full_text out = Py.join [NL] (texts_of doi_in_references)
    /\ Py.strip (pre_intro (sections out)) = pre_intro (sections out)
    /\ Py.strip (abstract (sections out)) = abstract (sections out)
    /\ Py.strip (main_body (sections out)) = main_body (sections out)
    /\ Py.strip (end_matter (sections out)) = end_matter (sections out).
Proof.
  apply (returned_sections_are_stripped doi_in_references
           (texts_of doi_in_references)).
  vm_compute. reflexivity.
Defined.

(** ** The abstract is one line *)

Lemma forallb_rev_keeps {A} (P : A -> bool) (l : list A) :
  forallb P l = true -> forallb P (rev l) = true.
Proof.
  rewrite !forallb_forall. intros H x Hx. apply H, in_rev, Hx.
Qed.

Lemma lstrip_keeps (P : char -> bool) (x : str) :
  forallb P x = true -> forallb P (Py.lstrip x) = true.
Proof.
  intros H. destruct (lstrip_split x) as (ws & E & _).
  rewrite E, forallb_app in H. apply andb_true_iff in H as [_ H]. exact H.
Qed.

Lemma strip_keeps (P : char -> bool) (x : str) :
  forallb P x = true -> forallb P (Py.strip x) = true.
Proof.
  intros H. unfold Py.strip, Py.rstrip.
  apply forallb_rev_keeps, lstrip_keeps, forallb_rev_keeps, lstrip_keeps, H.
Qed.

Lemma join_keeps (P : char -> bool) (sep : str) (ls : list str) :
  forallb P sep = true ->
  Forall (fun l => forallb P l = true) ls ->
  forallb P (Py.join sep ls) = true.
Proof.
  intros Hsep H. induction H as [|l ls Hl _ IH]; [reflexivity|].
  destruct ls as [|l' ls]; [exact Hl|].
  change (Py.join sep (l :: l' :: ls)) with (l ++ sep ++ Py.join sep (l' :: ls)).
  rewrite !forallb_app, Hl, Hsep, IH. reflexivity.
Qed.

(** No line of [splitlines] holds a line boundary. *)
Lemma splitlines_from_no_break (n : nat) :
  forall (x cur : str),
    length x <= n ->
    forallb (fun c => negb (Py.islinebreak c)) cur = true ->
    Forall (fun l => forallb (fun c => negb (Py.islinebreak c)) l = true)
      (Py.splitlines_from cur x).
Proof.
  induction n as [|n IH]; intros x cur Hn Hcur.
  - destruct x; [|simpl in Hn; lia]. simpl.
    destruct cur; repeat constructor. apply (forallb_rev_keeps _ (c :: cur)), Hcur.
  - destruct x as [|c rest]; simpl.
    + destruct cur; repeat constructor.
      apply (forallb_rev_keeps _ (c :: cur)), Hcur.
    + simpl in Hn. destruct (Py.islinebreak c) eqn:Hc.
      * constructor; [apply forallb_rev_keeps, Hcur|].
        destruct rest as [|c' rest']; [apply IH; [simpl; lia|reflexivity]|].
        destruct ((c =? 13)%N && (c' =? 10)%N).
        -- apply IH; [simpl in Hn; lia|reflexivity].
        -- apply IH; [lia|reflexivity].
      * apply IH; [lia|]. simpl. rewrite Hc, Hcur. reflexivity.
Qed.

Lemma stripped_lines_no_break (text : str) :
  Forall (fun l => forallb (fun c => negb (Py.islinebreak c)) l = true)
    (map Py.strip (Py.splitlines text)).
Proof.
  apply Forall_map.
  eapply Forall_impl;
    [apply (splitlines_from_no_break (length text) text []); [lia|reflexivity]|].
  intros l Hl. apply strip_keeps, Hl.
Qed.

(** The inline remainder of a heading is part of the heading. *)
Lemma inline_group_keeps (P : char -> bool) (hd : str) (m : Match) :
  match_ true INLINE_PATTERN hd = Some m ->
  forallb P hd = true -> forallb P (group m 1) = true.
Proof.
  assert (E0 : INLINE_PATTERN
               = Seq (lit "abstract")
                   (Seq (plus (Class dash_class))
                      (Seq (Group 1 (star Dot)) Eps))) by reflexivity.
  unfold match_, match_at. rewrite E0. intros H Hhd.
  rewrite run_seq in H.
  apply (run_consumes true (fun _ => true) _ (consumes_anything _ _))
    in H as (st1 & c1 & H & E1 & _).
  rewrite run_seq in H.
  apply (run_consumes true (fun _ => true) _ (consumes_anything _ _))
    in H as (st2 & c2 & H & E2 & _).
  rewrite run_seq, run_group in H.
  apply (run_consumes true (fun _ => true) _ (consumes_anything _ _))
    in H as (st3 & c3 & H & E3 & _).
  cbn [run] in H. injection H as <-. cbn.
  simpl in E1. rewrite E1, E2, E3, !forallb_app in Hhd.
  rewrite E3, length_app, Nat.add_sub, take_app_length.
  repeat (apply andb_true_iff in Hhd as [? Hhd]). assumption.
Qed.

Lemma slice_keeps {A} (Q : A -> Prop) (l : list A) (lo hi : nat) :
  Forall Q l -> Forall Q (Py.slice l lo hi).
Proof. intros H. unfold Py.slice. apply Forall_take, Forall_drop, H. Qed.

(** The lines of the abstract zone are made of characters of the lines. *)
Lemma abstract_zone_keeps (P : char -> bool) (stripped : list str)
  (a i e : option nat) (pre abs body endm : list str) :
  extract_sections stripped a i e = Ok (pre, abs, body, endm) ->
  Forall (fun l => forallb P l = true) stripped ->
  Forall (fun l => forallb P l = true) abs.
Proof.
  intros H Hs. unfold extract_sections in H.
  destruct (if is_some a || is_some i then _ else _) as [pre'|];
    [|discriminate H].
  cbn [rbind] in H. destruct a as [x|].
  - destruct (abs_end stripped x i) as [stop|]; [|discriminate H].
    cbn [rbind] in H. unfold index in H.
    destruct (stripped !! x) as [hd|] eqn:Hhd; [|discriminate H].
    cbn [rbind] in H.
    assert (Phd : forallb P hd = true).
    { apply (Forall_lookup_1 _ _ _ _ Hs Hhd). }
    destruct (match_ true INLINE_PATTERN hd) as [m|] eqn:Hm;
      cbn [rbind] in H; injection H as _ <- _ _.
    + constructor; [|apply slice_keeps, Hs].
      apply strip_keeps.
      apply (inline_group_keeps P hd m Hm Phd).
    + apply slice_keeps, Hs.
  - destruct i as [y|]; cbn [rbind] in H.
    + destruct (5 <? y); cbn [rbind] in H; injection H as _ <- _ _;
        [apply Forall_take, Hs|constructor].
    + injection H as _ <- _ _. constructor.
Qed.

(** X12. The returned abstract is a single line: it holds no line boundary
    of [str.splitlines], in particular no newline, whatever the pages
    hold. *)
Theorem abstract_section_is_one_line (doc : Document) (texts : list str) :
  collect (map get_text (pages doc)) = Ok texts ->
  exists out,
    process doc = Ok out
    /\ forallb (fun c => negb (Py.islinebreak c)) (abstract (sections out)) = true
    /\ Py.contains [NL] (abstract (sections out)) = false.
Proof.
  intros H.
  destruct (process_ok doc texts H)
    as (pre & abs & body & endm & block & Hp & _ & _ & Hout).
  eexists. split; [exact Hout|]. cbn [sections abstract].
  assert (Habs : Forall (fun l => forallb (fun c => negb (Py.islinebreak c)) l = true)
                   abs).
  { unfold partition in Hp. eapply abstract_zone_keeps; [exact Hp|].
    apply stripped_lines_no_break. }
  assert (Hfree : forallb (fun c => negb (Py.islinebreak c))
                    (Py.strip (Py.join (s " ")
                                 (filter (fun l => Py.truthy l = true)
                                         (map Py.strip abs)))) = true).
  { apply strip_keeps, join_keeps; [reflexivity|].
    apply Forall_forall. intros l Hl.
    apply list_elem_of_filter in Hl as [_ Hl].
    apply list_elem_of_fmap in Hl as (l0 & -> & Hl0).
    apply strip_keeps. exact (proj1 (Forall_forall _ _) Habs l0 Hl0). }
  split; [exact Hfree|].
  apply not_true_is_false. intros Hc.
  apply contains_split in Hc as (x & y & Hxy).
  rewrite Hxy, !forallb_app in Hfree.
  apply andb_true_iff in Hfree as [_ Hfree].
  apply andb_true_iff in Hfree as [Hfree _]. discriminate Hfree.
Qed.

Lemma abstract_section_is_one_line_witness :
  exists out,
    process doi_in_references = Ok out
    /\ forallb (fun c => negb (Py.islinebreak c)) (abstract (sections out)) = true
    /\ Py.contains [NL] (abstract (sections out)) = false.
Proof.
  apply (abstract_section_is_one_line doi_in_references
           (texts_of doi_in_references)).
  vm_compute. reflexivity.
Defined.

(** * The download *)

Lemma retried_from_step (a k : nat) :
  flat_map (fun j => [Get j; Sleep (2 ^ j)]) (List.seq a (S k))
  = Get a :: Sleep (2 ^ a)
    :: flat_map (fun j => [Get j; Sleep (2 ^ j)]) (List.seq (S a) k).
Proof. reflexivity. Qed.

(** [k] failed attempts that are followed by another one. *)
Lemma download_loop_skips (net : nat -> fetched) (retries : nat) (k : nat) :
  forall attempt todo,
    attempt + todo = retries -> k < todo ->
    (forall j, j < k -> net (attempt + j) = RequestFailed) ->
    download_loop net retries attempt todo
    = (flat_map (fun j => [Get j; Sleep (2 ^ j)]) (List.seq attempt k)
       ++ fst (download_loop net retries (attempt + k) (todo - k)),
       snd (download_loop net retries (attempt + k) (todo - k))).
Proof.
  induction k as [|k IH]; intros attempt todo Hsum Hk Hfail.
  - rewrite Nat.add_0_r, Nat.sub_0_r. simpl.
    destruct (download_loop net retries attempt todo). reflexivity.
  - destruct todo as [|todo]; [lia|].
    rewrite retried_from_step. simpl download_loop.
    pose proof (Hfail 0 ltac:(lia)) as H0. rewrite Nat.add_0_r in H0.
    rewrite H0.
    assert (Hlt : (attempt <? retries - 1) = true) by (apply Nat.ltb_lt; lia).
    rewrite Hlt.
    rewrite (IH (S attempt) todo); [|lia|lia|].
    + replace (S attempt + k) with (attempt + S k) by lia.
      replace (S todo - S k) with (todo - k) by lia. reflexivity.
    + intros j Hj. replace (S attempt + j) with (attempt + S j) by lia.
      apply Hfail. lia.
Qed.

Lemma download_first_answer (net : nat -> fetched) (retries k : nat) :
  k < retries ->
  (forall j, j < k -> net j = RequestFailed) ->
  net k <> RequestFailed ->
  download_pdf net retries
  = (retried k ++ [Get k],
     match net k with
     | Fetched doc => Ok (Some doc)
     | Crashed e => Raise e
     | RequestFailed => Raise RuntimeError
     end).
Proof.
  intros Hk Hfail Hans. unfold download_pdf, retried.
  rewrite (download_loop_skips net retries k 0 retries); [|lia|lia|exact Hfail].
  simpl (0 + k). destruct (retries - k) as [|todo] eqn:E; [lia|].
  simpl. destruct (net k); [reflexivity|contradiction|reflexivity].
Qed.

Lemma download_all_fail (net : nat -> fetched) (retries : nat) :
  0 < retries ->
  (forall j, j < retries -> net j = RequestFailed) ->
  download_pdf net retries
  = (retried (retries - 1) ++ [Get (retries - 1)], Raise RuntimeError).
Proof.
  intros Hr Hfail. unfold download_pdf, retried.
  rewrite (download_loop_skips net retries (retries - 1) 0 retries);
    [|lia|lia|intros j Hj; apply Hfail; lia].
  simpl (0 + (retries - 1)).
  replace (retries - (retries - 1)) with 1 by lia. simpl.
  rewrite (Hfail (retries - 1)) by lia.
  rewrite Nat.ltb_irrefl. reflexivity.
Qed.

Lemma sleeps_retried_from (a k : nat) :
  sleeps (flat_map (fun j => [Get j; Sleep (2 ^ j)]) (List.seq a k))
  = map (fun j => 2 ^ j) (List.seq a k)
  /\ gets (flat_map (fun j => [Get j; Sleep (2 ^ j)]) (List.seq a k))
     = List.seq a k.
Proof.
  revert a. induction k as [|k IH]; intros a; [split; reflexivity|].
  rewrite retried_from_step. destruct (IH (S a)) as [H1 H2].
  split; cbn [sleeps gets omap] in *; simpl; f_equal; assumption.
Qed.

Lemma sleeps_retried (k : nat) :
  sleeps (retried k) = map (fun j => 2 ^ j) (List.seq 0 k)
  /\ gets (retried k) = List.seq 0 k.
Proof. apply sleeps_retried_from. Qed.

Lemma sum_powers (a k : nat) :
  foldr Nat.add 0 (map (fun j => 2 ^ j) (List.seq a k)) = 2 ^ a * (2 ^ k - 1).
Proof.
  revert a. induction k as [|k IH]; intros a; simpl; [lia|].
  rewrite IH. rewrite Nat.add_0_r.
  assert (0 < 2 ^ k) by (apply Nat.neq_0_lt_0, Nat.pow_nonzero; lia).
  simpl. nia.
Qed.

(** X13. [download_pdf] stops at the first attempt that does not fail with a
    [RequestException]: it returns the document fetched then, or lets any
    other exception through at once without a retry; before it, each failed
    attempt [j] was followed by a sleep of [backoff_factor * 2^j], which
    add up to [backoff_factor * (2^k - 1)]. *)
Theorem download_stops_at_first_answer (net : nat -> fetched) (retries k : nat) :
  k < retries ->
  (forall j, j < k -> net j = RequestFailed) ->
  net k <> RequestFailed ->
  exists events,
    download_pdf net retries
    = (events,
       match net k with
       | Fetched doc => Ok (Some doc)
       | Crashed e => Raise e
       | RequestFailed => Raise RuntimeError
       end)
    /\ gets events = List.seq 0 (S k)
    /\ sleeps events = map (fun j => 2 ^ j) (List.seq 0 k)
    /\ foldr Nat.add 0 (sleeps events) = 2 ^ k - 1.
Proof.
  intros Hk Hfail Hans. eexists.
  split; [apply download_first_answer; assumption|].
  destruct (sleeps_retried k) as [Hs Hg].
  assert (E1 : gets (retried k ++ [Get k]) = List.seq 0 (S k)).
  { unfold gets in *. rewrite omap_app, Hg, seq_S. reflexivity. }
  assert (E2 : sleeps (retried k ++ [Get k]) = map (fun j => 2 ^ j) (List.seq 0 k)).
  { unfold sleeps in *. rewrite omap_app, Hs. simpl. apply app_nil_r. }
  split; [exact E1|]. split; [exact E2|].
  rewrite E2, sum_powers. simpl. lia.
Qed.

Lemma download_stops_at_first_answer_witness :
  exists events,
    download_pdf
      (fun j => if j <? 2 then RequestFailed
                else Fetched {| pages := []; metadata := None |}) 3
    = (events, Ok (Some {| pages := []; metadata := None |}))
    /\ gets events = List.seq 0 3
    /\ sleeps events = map (fun j => 2 ^ j) (List.seq 0 2)
    /\ foldr Nat.add 0 (sleeps events) = 2 ^ 2 - 1.
Proof.
  apply (download_stops_at_first_answer
           (fun j => if j <? 2 then RequestFailed
                     else Fetched {| pages := []; metadata := None |}) 3 2).
  - lia.
  - intros j Hj. destruct j as [|[|j]]; [reflexivity|reflexivity|lia].
  - discriminate.
Defined.

(** X14. When every attempt fails with a [RequestException], [download_pdf]
    makes exactly [retries] requests, sleeps between them but not after the
    last one, and raises [RuntimeError]. *)
Theorem download_gives_up_after_retries (net : nat -> fetched) (retries : nat) :
  0 < retries ->
  (forall j, j < retries -> net j = RequestFailed) ->
  exists events,
    download_pdf net retries = (events, Raise RuntimeError)
    /\ gets events = List.seq 0 retries
    /\ sleeps events = map (fun j => 2 ^ j) (List.seq 0 (retries - 1))
    /\ last events = Some (Get (retries - 1)).
Proof.
  intros Hr Hfail. eexists.
  split; [apply download_all_fail; assumption|].
  destruct (sleeps_retried (retries - 1)) as [Hs Hg].
  split; [|split].
  - unfold gets in *. rewrite omap_app, Hg. simpl.
    replace retries with (S (retries - 1)) at 3 by lia.
    rewrite seq_S. reflexivity.
  - unfold sleeps in *. rewrite omap_app, Hs. simpl. apply app_nil_r.
  - apply last_snoc.
Qed.

Lemma download_gives_up_after_retries_witness :
  exists events,
    download_pdf (fun _ => RequestFailed) 3 = (events, Raise RuntimeError)
    /\ gets events = List.seq 0 3
    /\ sleeps events = map (fun j => 2 ^ j) (List.seq 0 (3 - 1))
    /\ last events = Some (Get (3 - 1)).
Proof.
  apply (download_gives_up_after_retries (fun _ => RequestFailed) 3).
  - lia.
  - reflexivity.
Defined.

Lemma first_answer (net : nat -> fetched) (n : nat) :
  (forall j, j < n -> net j = RequestFailed)
  \/ exists k, k < n /\ (forall j, j < k -> net j = RequestFailed)
               /\ net k <> RequestFailed.
Proof.
  induction n as [|n [IH|(k & Hk & Hfail & Hans)]].
  - left. intros j Hj. lia.
  - destruct (net n) eqn:E.
    + right. exists n. split; [lia|]. split; [exact IH|]. congruence.
    + left. intros j Hj. destruct (decide (j = n)) as [->|]; [exact E|].
      apply IH. lia.
    + right. exists n. split; [lia|]. split; [exact IH|]. congruence.
  - right. exists k. split; [lia|]. auto.
Qed.

(** X15. Whatever the responses, [download_pdf] makes at most [retries]
    requests, numbered from 0, and sleeps once between two requests; it
    returns [None] only when [retries] is 0, in which case it makes no
    request at all. *)
Theorem download_request_bounds (net : nat -> fetched) (retries : nat) :
  exists events r n,
    download_pdf net retries = (events, r)
    /\ gets events = List.seq 0 n /\ n <= retries
    /\ sleeps events = map (fun j => 2 ^ j) (List.seq 0 (n - 1))
    /\ (r = Ok None <-> retries = 0)
    /\ (retries = 0 -> events = []).
Proof.
  destruct retries as [|retries].
  - exists [], (Ok None), 0. repeat split; auto.
  - destruct (first_answer net (S retries)) as [Hfail|(k & Hk & Hfail & Hans)].
    + eexists _, _, (S retries).
      split; [apply (download_all_fail net (S retries)); [lia|exact Hfail]|].
      destruct (sleeps_retried (S retries - 1)) as [Hs Hg].
      unfold gets, sleeps in *. rewrite !omap_app, Hg, Hs. simpl.
      rewrite Nat.sub_0_r, app_nil_r, <- seq_S.
      repeat split; try lia; discriminate.
    + eexists _, _, (S k).
      split; [apply (download_first_answer net (S retries) k); assumption|].
      destruct (sleeps_retried k) as [Hs Hg].
      unfold gets, sleeps in *. rewrite !omap_app, Hg, Hs. simpl.
      rewrite Nat.sub_0_r, app_nil_r, <- seq_S.
      repeat split; try lia; try discriminate.
      destruct (net k); [discriminate|contradiction|discriminate].
Qed.

(** X16. A remote attachment whose three download attempts all fail with a
    [RequestException] makes [extract_text_from_attachment] raise
    [RuntimeError] without a handle being opened or closed; once an attempt
    delivers the document, the handle is opened and closed once and the
    outcome is that of the [try] block on that document. *)
Theorem remote_attachment_download (fitz_open : str -> result Document)
  (path_exists : str -> bool) (net : str -> nat -> fetched)
  (d : gmap string str) (url : str) (t : list event) :
  d !! "url"%string = Some url ->
  path_exists url = false ->
  ((forall j, j < 3 -> net url j = RequestFailed) ->
   extract_text_from_attachment fitz_open path_exists (download_default net)
     (ADict d) t
   = (t, Raise RuntimeError))
  /\ (forall k doc,
        k < 3 -> (forall j, j < k -> net url j = RequestFailed) ->
        net url k = Fetched doc ->
        extract_text_from_attachment fitz_open path_exists (download_default net)
          (ADict d) t
        = (t ++ [Opened; Closed], process doc)).
Proof.
  intros Hurl Hlocal.
  assert (E : resolve fitz_open path_exists (download_default net) (ADict d)
              = download_default net url).
  { simpl. rewrite Hurl, Hlocal. reflexivity. }
  unfold extract_text_from_attachment, mbind, opening, try_finally, lift, close.
  rewrite E. unfold download_default. split.
  - intros Hfail.
    rewrite (download_all_fail (net url) 3); [reflexivity|lia|exact Hfail].
  - intros k doc Hk Hfail Hdoc.
    rewrite (download_first_answer (net url) 3 k Hk Hfail); [|congruence].
    rewrite Hdoc. cbn [snd]. rewrite <- app_assoc. reflexivity.
Qed.

Lemma remote_attachment_download_witness :
  extract_text_from_attachment (fun _ => Raise FitzError) (fun _ => false)
    (download_default (fun _ _ => RequestFailed))
    (ADict {[ "url"%string := s "https://example.org/paper.pdf" ]}) []
  = ([], Raise RuntimeError)
  /\ extract_text_from_attachment (fun _ => Raise FitzError) (fun _ => false)
       (download_default
          (fun _ j => if j <? 1 then RequestFailed
                      else Fetched unreadable_document))
       (ADict {[ "url"%string := s "https://example.org/paper.pdf" ]}) []
     = ([] ++ [Opened; Closed], process unreadable_document).
Proof.
  assert (Hurl : ({[ "url"%string := s "https://example.org/paper.pdf" ]}
                    : gmap string str) !! "url"%string
                 = Some (s "https://example.org/paper.pdf")) by reflexivity.
  split.
  - destruct (remote_attachment_download (fun _ => Raise FitzError)
                (fun _ => false) (fun _ _ => RequestFailed) _ _ [] Hurl eq_refl)
      as [H _].
    apply H. reflexivity.
  - destruct (remote_attachment_download (fun _ => Raise FitzError)
                (fun _ => false)
                (fun _ j => if j <? 1 then RequestFailed
                            else Fetched unreadable_document)
                _ _ [] Hurl eq_refl)
      as [_ H].
    apply (H 1).
    + lia.
    + intros j Hj. destruct j; [reflexivity|lia].
    + reflexivity.
Defined.

(** * The attachment of a record *)

Lemma rstrip_slash_snoc (x : str) : rstrip_slash (x ++ [SLASH]) = rstrip_slash x.
Proof.
  unfold rstrip_slash. rewrite rev_app_distr. reflexivity.
Qed.

Lemma rstrip_slash_slashes (x : str) (k : nat) :
  rstrip_slash (x ++ repeat SLASH k) = rstrip_slash x.
Proof.
  induction k as [|k IH]; [rewrite app_nil_r; reflexivity|].
  change (repeat SLASH (S k)) with (SLASH :: repeat SLASH k).
  rewrite repeat_cons, app_assoc, rstrip_slash_snoc. exact IH.
Qed.

Lemma rstrip_slash_fixed (x : str) (c : char) :
  (c =? SLASH)%N = false -> rstrip_slash (x ++ [c]) = x ++ [c].
Proof.
  intros Hc. unfold rstrip_slash. rewrite rev_app_distr.
  cbn [rev app drop_slashes]. rewrite Hc.
  cbn [rev]. rewrite rev_involutive. reflexivity.
Qed.

Lemma upto_slash_stops (b rest : str) :
  forallb (fun c => negb (c =? SLASH)%N) b = true ->
  upto_slash (b ++ SLASH :: rest) = b.
Proof.
  induction b as [|c b IH]; [reflexivity|].
  cbn [forallb app upto_slash].
  intros H. apply andb_true_iff in H as [Hc Hb].
  apply negb_true_iff in Hc. rewrite Hc, (IH Hb). reflexivity.
Qed.

Lemma last_segment_after_slash (p b : str) :
  forallb (fun c => negb (c =? SLASH)%N) b = true ->
  last_segment (p ++ SLASH :: b) = b.
Proof.
  intros Hb. unfold last_segment.
  rewrite rev_app_distr. simpl. rewrite <- app_assoc. simpl.
  rewrite upto_slash_stops by (apply forallb_rev_keeps, Hb).
  apply rev_involutive.
Qed.

Lemma arxiv_id_of_link (p b : str) (k : nat) :
  b <> [] ->
  forallb (fun c => negb (c =? SLASH)%N) b = true ->
  last_segment (rstrip_slash (p ++ SLASH :: b ++ repeat SLASH k)) = b.
Proof.
  intros Hne Hb.
  replace (p ++ SLASH :: b ++ repeat SLASH k)
    with ((p ++ SLASH :: b) ++ repeat SLASH k)
    by (rewrite <- app_assoc; reflexivity).
  rewrite rstrip_slash_slashes.
  destruct (exists_last Hne) as (b' & c & ->).
  assert (Hc : (c =? SLASH)%N = false).
  { rewrite forallb_app in Hb. apply andb_true_iff in Hb as [_ Hc].
    simpl in Hc. rewrite andb_true_r in Hc. apply negb_true_iff, Hc. }
  replace (p ++ SLASH :: b' ++ [c]) with ((p ++ SLASH :: b') ++ [c])
    by (rewrite <- app_assoc; reflexivity).
  rewrite (rstrip_slash_fixed _ c Hc), <- app_assoc. simpl.
  apply last_segment_after_slash. exact Hb.
Qed.

(** X17. An arXiv abstract link is rewritten from its last path segment
    alone: when the stripped link contains [arxiv.org/abs/] and ends, apart
    from trailing slashes, in a segment [b] after a slash, the document is
    fetched from [https://arxiv.org/pdf/b.pdf] and the canonical URL is
    [https://arxiv.org/abs/b], whatever precedes that slash. *)
Theorem arxiv_link_uses_last_segment (fields : Fields) (src p b : str) (k : nat) :
  pdf_attachment fields = None ->
  first_truthy (DOI_URL fields) (Source_URL fields) = Some src ->
  Py.contains (s "arxiv.org/abs/") (Py.strip src) = true ->
  Py.strip src = p ++ SLASH :: b ++ repeat SLASH k ->
  b <> [] ->
  forallb (fun c => negb (c =? SLASH)%N) b = true ->
  record_attachment fields
  = Some (ADict {[ "url"%string := s "https://arxiv.org/pdf/" ++ b ++ s ".pdf" ]},
          Some (s "https://arxiv.org/abs/" ++ b)).
Proof.
  intros Hpdf Hsrc Harxiv Hshape Hne Hb.
  unfold record_attachment. rewrite Hpdf, Hsrc. cbn zeta.
  rewrite Harxiv, Hshape, (arxiv_id_of_link p b k Hne Hb). reflexivity.
Qed.

Lemma arxiv_link_uses_last_segment_witness :
  record_attachment
    {| PDF := Some [];
       DOI_URL := None;
       Source_URL := Some (s " https://arxiv.org/abs/hep-th/9901001/ ") |}
  = Some (ADict {[ "url"%string :=
                     s "https://arxiv.org/pdf/" ++ s "9901001" ++ s ".pdf" ]},
          Some (s "https://arxiv.org/abs/" ++ s "9901001")).
Proof.
  apply (arxiv_link_uses_last_segment _
           (s " https://arxiv.org/abs/hep-th/9901001/ ")
           (s "https://arxiv.org/abs/hep-th") (s "9901001") 1).
  - reflexivity.
  - reflexivity.
  - vm_compute. reflexivity.
  - vm_compute. reflexivity.
  - discriminate.
  - vm_compute. reflexivity.
Defined.

Lemma lstrip_blank (w : str) : forallb Py.isspace w = true -> Py.lstrip w = [].
Proof.
  induction w as [|c w IH]; simpl; [reflexivity|].
  intros H. apply andb_true_iff in H as [Hc Hw]. rewrite Hc. exact (IH Hw).
Qed.

Lemma strip_blank (w : str) : forallb Py.isspace w = true -> Py.strip w = [].
Proof.
  intros H. unfold Py.strip. rewrite (lstrip_blank w H). reflexivity.
Qed.

(** X18. A ["DOI/URL"] that holds only whitespace is still taken as the
    source: the ["Source URL"] is not consulted, the record is not rejected,
    and the attachment names the empty URL. *)
Theorem blank_doi_url_masks_source_url (fields : Fields) (w : str) :
  pdf_attachment fields = None ->
  DOI_URL fields = Some w ->
  w <> [] ->
  forallb Py.isspace w = true ->
  record_attachment fields = Some (ADict {[ "url"%string := [] ]}, Some []).
Proof.
  intros Hpdf Hdoi Hne Hw.
  unfold record_attachment, first_truthy. rewrite Hpdf, Hdoi.
  destruct w as [|c w]; [contradiction|]. cbn [Py.truthy]. cbn zeta.
  rewrite (strip_blank (c :: w) Hw). reflexivity.
Qed.

Lemma blank_doi_url_masks_source_url_witness :
  record_attachment
    {| PDF := None;
       DOI_URL := Some (s "  ");
       Source_URL := Some (s "https://example.org/paper.pdf") |}
  = Some (ADict {[ "url"%string := [] ]}, Some []).
Proof.
  apply (blank_doi_url_masks_source_url _ (s "  "));
    [reflexivity|reflexivity|discriminate|reflexivity].
Defined.

(** X19. [Invalid attachment format] can only come from the ["PDF"] list:
    when opening and downloading raise no [ValueError] themselves, an
    attachment of a record that makes [extract_text_from_attachment] raise
    it is the first entry of that list, and is neither a path nor a
    dictionary with a ["url"]; an attachment built from a link never is. *)
Theorem invalid_format_only_from_pdf_list (fitz_open : str -> result Document)
  (path_exists : str -> bool) (download : str -> result Document)
  (fields : Fields) (att : attachment) (canonical : option str) :
  (forall u, fitz_open u <> Raise ValueError) ->
  (forall u, download u <> Raise ValueError) ->
  record_attachment fields = Some (att, canonical) ->
  resolve fitz_open path_exists download att = Raise ValueError ->
  pdf_attachment fields = Some att /\ canonical = None
  /\ (att = AOther \/ exists d, att = ADict d /\ d !! "url"%string = None).
Proof.
  intros Hopen Hdown Hrec Hres.
  assert (Hshape : att = AOther \/ exists d, att = ADict d /\ d !! "url"%string = None).
  { destruct att as [path|d|]; simpl in Hres.
    - destruct (Hopen _ Hres).
    - destruct (d !! "url"%string) as [url|] eqn:E; [|right; eauto].
      destruct (path_exists url); [destruct (Hopen _ Hres)|destruct (Hdown _ Hres)].
    - left. reflexivity. }
  unfold record_attachment in Hrec.
  destruct (pdf_attachment fields) as [att'|].
  - injection Hrec as -> <-. auto.
  - exfalso.
    destruct (first_truthy _ _) as [src|]; [|discriminate].
    cbn zeta in Hrec.
    destruct (Py.contains _ _); injection Hrec as <- _;
      destruct Hshape as [?|(d & [= <-] & Hd)]; try discriminate;
      rewrite lookup_singleton in Hd; discriminate.
Qed.

Lemma invalid_format_only_from_pdf_list_witness :
  pdf_attachment {| PDF := Some [Some AOther]; DOI_URL := None;
                    Source_URL := None |} = Some AOther
  /\ (None : option str) = None
  /\ (AOther = AOther \/ exists d, AOther = ADict d /\ d !! "url"%string = None).
Proof.
  apply (invalid_format_only_from_pdf_list (fun _ => Raise FitzError)
           (fun _ => false) (fun _ => Raise RuntimeError)
           {| PDF := Some [Some AOther]; DOI_URL := None; Source_URL := None |}
           AOther None).
  - discriminate.
  - discriminate.
  - reflexivity.
  - reflexivity.
Defined.

(** * The text given to a batch of fields *)

Ltac distinct_keys := let H := fresh in intros H; vm_compute in H; discriminate H.

Lemma sections_dict_lookup (out : Output) :
  sections_dict out !! s "pre_intro" = Some (pre_intro (sections out))
  /\ sections_dict out !! s "abstract" = Some (abstract (sections out))
  /\ sections_dict out !! s "main_body" = Some (main_body (sections out)).
Proof.
  unfold sections_dict. split; [|split].
  - apply lookup_insert_eq.
  - rewrite lookup_insert_ne by distinct_keys. apply lookup_insert_eq.
  - rewrite lookup_insert_ne by distinct_keys.
    rewrite lookup_insert_ne by distinct_keys. apply lookup_insert_eq.
Qed.

Lemma sections_dict_truthy (out : Output) :
  dict_truthy (Some (sections_dict out)) = true.
Proof.
  unfold dict_truthy, sections_dict.
  rewrite bool_decide_eq_false_2; [reflexivity|]. apply insert_non_empty.
Qed.

Lemma default_context_scope_cases (name : str) :
  (Py.contains (s "meta") (Py.lower name) = true
   /\ default_context_scope name = s "pre_intro")
  \/ (Py.contains (s "meta") (Py.lower name) = false
      /\ Py.contains (s "abstract") (Py.lower name) = true
      /\ default_context_scope name = s "abstract")
  \/ (Py.contains (s "meta") (Py.lower name) = false
      /\ Py.contains (s "abstract") (Py.lower name) = false
      /\ default_context_scope name = s "main_body").
Proof.
  unfold default_context_scope. cbn zeta.
  destruct (Py.contains (s "meta") (Py.lower name)); [left; auto|].
  destruct (Py.contains (s "abstract") (Py.lower name)); [right; left; auto|].
  right; right.
  destruct (Py.contains (s "outcome") (Py.lower name)),
    (Py.contains (s "semantic") (Py.lower name)); auto.
Qed.

Lemma scoped_text_of_section (out : Output) (scope sec ft : str) :
  Py.truthy scope = true ->
  sections_dict out !! scope = Some sec ->
  Py.strip sec = sec ->
  scoped_text (Some (sections_dict out)) (Some scope) ft
  = if Py.truthy sec then sec else ft.
Proof.
  intros Hscope Hsec Hstrip. unfold scoped_text.
  rewrite sections_dict_truthy. cbn [scope_truthy from_option andb].
  rewrite Hscope. cbn [andb from_option]. unfold id.
  match goal with
  | |- context [from_option _ _ ?l] =>
      replace l with (Some sec) by (symmetry; exact Hsec)
  end.
  cbn [from_option]. rewrite Hstrip. destruct (Py.truthy sec); reflexivity.
Qed.

(** X20. The text a batch is extracted from, for a document that was read:
    the default scope of any batch name is one of [pre_intro], [abstract]
    and [main_body], never [end_matter]; the batch gets that section as
    returned when the section is not empty, and the full text otherwise. *)
Theorem batch_text_is_section_or_full_text (doc : Document) (texts : list str)
  (name : str) :
  collect (map get_text (pages doc)) = Ok texts ->
  exists out sec,
    process doc = Ok out
    /\ default_context_scope name ∈ [s "pre_intro"; s "abstract"; s "main_body"]
    /\ sections_dict out !! default_context_scope name = Some sec
    /\ scoped_text (Some (sections_dict out)) (Some (default_context_scope name))
         (record_text out)
       = if Py.truthy sec then sec else record_text out.
Proof.
  intros H.
  destruct (process_ok doc texts H)
    as (pre & abs & body & endm & block & _ & _ & _ & Hout).
  match type of Hout with _ = Ok ?o => set (out := o) in * end.
  destruct (sections_dict_lookup out) as (Lp & La & Lb).
  exists out.
  destruct (default_context_scope_cases name)
    as [[_ ->]|[(_ & _ & ->)|(_ & _ & ->)]].
  - exists (pre_intro (sections out)). split; [exact Hout|].
    split; [repeat constructor|]. split; [exact Lp|].
    apply scoped_text_of_section; [reflexivity|exact Lp|apply strip_strip].
  - exists (abstract (sections out)). split; [exact Hout|].
    split; [repeat constructor|]. split; [exact La|].
    apply scoped_text_of_section; [reflexivity|exact La|apply strip_strip].
  - exists (main_body (sections out)). split; [exact Hout|].
    split; [repeat constructor|]. split; [exact Lb|].
    apply scoped_text_of_section; [reflexivity|exact Lb|apply strip_strip].
Qed.

Lemma batch_text_is_section_or_full_text_witness :
  exists out sec,
    process doi_in_references = Ok out
    /\ default_context_scope (s "Outcomes")
       ∈ [s "pre_intro"; s "abstract"; s "main_body"]
    /\ sections_dict out !! default_context_scope (s "Outcomes") = Some sec
    /\ scoped_text (Some (sections_dict out))
         (Some (default_context_scope (s "Outcomes"))) (record_text out)
       = if Py.truthy sec then sec else record_text out.
Proof.
  apply (batch_text_is_section_or_full_text doi_in_references
           (texts_of doi_in_references) (s "Outcomes")).
  vm_compute. reflexivity.
Defined.

(** X21. A batch whose name contains [meta], in any case, is always
    extracted from the [pre_intro] section of a document that was read:
    that section holds the metadata block, so it is never empty and the
    full text never replaces it. *)
Theorem meta_batch_reads_pre_intro (doc : Document) (texts : list str)
  (name : str) :
  collect (map get_text (pages doc)) = Ok texts ->
  Py.contains (s "meta") (Py.lower name) = true ->
  exists out,
    process doc = Ok out
    /\ scoped_text (Some (sections_dict out)) (Some (default_context_scope name))
         (record_text out)
       = pre_intro (sections out)
    /\ pre_intro (sections out) <> [].
Proof.
  intros H Hmeta.
  destruct (process_ok doc texts H)
    as (pre & abs & body & endm & block & Hp & Hb & Hhead & Hout).
  match type of Hout with _ = Ok ?o => set (out := o) in * end.
  destruct (sections_dict_lookup out) as (Lp & _ & _).
  exists out. split; [exact Hout|].
  assert (Hscope : default_context_scope name = s "pre_intro").
  { destruct (default_context_scope_cases name)
      as [[_ E]|[(F & _)|(F & _)]]; [exact E|congruence|congruence]. }
  rewrite Hscope.
  assert (Hne : Py.truthy (pre_intro (sections out)) = true).
  { apply strip_starts_nonspace, starts_nonspace_app, Hhead. }
  split.
  - rewrite (scoped_text_of_section out (s "pre_intro")
               (pre_intro (sections out)) (record_text out) eq_refl Lp
               (strip_strip _)).
    rewrite Hne. reflexivity.
  - intros E. rewrite E in Hne. discriminate Hne.
Qed.

Lemma meta_batch_reads_pre_intro_witness :
  exists out,
    process doi_in_references = Ok out
    /\ scoped_text (Some (sections_dict out))
         (Some (default_context_scope (s "Paper Metadata"))) (record_text out)
       = pre_intro (sections out)
    /\ pre_intro (sections out) <> [].
Proof.
  apply (meta_batch_reads_pre_intro doi_in_references
           (texts_of doi_in_references) (s "Paper Metadata")).
  - vm_compute. reflexivity.
  - vm_compute. reflexivity.
Defined.

(** X22. Whatever the sections and the scope of a batch, the text it is
    extracted from is blank only when the full text is blank. *)
Theorem scoped_text_not_blank (sections : option (gmap str str))
  (scope : option str) (ft : str) :
  Py.truthy (Py.strip ft) = true ->
  Py.truthy (Py.strip (scoped_text sections scope ft)) = true.
Proof.
  intros Hft. unfold scoped_text.
  destruct (scope_truthy scope && dict_truthy sections); cbn [andb]; [|exact Hft].
  destruct (Py.truthy (Py.strip (default ft (default ∅ sections !! default [] scope))))
    eqn:E; cbn [negb]; [exact E|exact Hft].
Qed.

Lemma scoped_text_not_blank_witness :
  Py.truthy (Py.strip (scoped_text (Some {[ s "abstract" := s "  " ]})
                         (Some (s "abstract")) (s "The full text.")))
  = true.
Proof.
  apply (scoped_text_not_blank (Some {[ s "abstract" := s "  " ]})
           (Some (s "abstract")) (s "The full text.")).
  reflexivity.
Defined.


(** * The batches of a configuration *)

Lemma has_batch_spec (name : str) (batch_map : list (str * Batch)) :
  has_batch name batch_map = true <-> name ∈ map fst batch_map.
Proof.
  unfold has_batch. rewrite existsb_exists. split.
  - intros ([k b] & Hin & Hk). apply bool_decide_eq_true in Hk. simpl in Hk.
    subst k. apply list_elem_of_In, in_map_iff. exists (name, b). auto.
  - intros Hin. apply list_elem_of_In, in_map_iff in Hin as ([k b] & Hk & Hin).
    simpl in Hk. subst k. exists (name, b). split; [exact Hin|].
    apply bool_decide_eq_true. reflexivity.
Qed.

Lemma enabled_batches_cons (field : Field) (rest : list Field) :
  enabled_batches (field :: rest)
  = if field_enabled field then
      match field_batch field with
      | Some name =>
          if Py.truthy name then name :: enabled_batches rest
          else enabled_batches rest
      | None => enabled_batches rest
      end
    else enabled_batches rest.
Proof.
  unfold enabled_batches. cbn [omap list_omap].
  destruct (field_enabled field); [|reflexivity].
  destruct (field_batch field) as [name|]; [|reflexivity].
  destruct (Py.truthy name); reflexivity.
Qed.

Lemma build_batches_from_spec (fields : list Field) :
  forall batch_map,
    NoDup (map fst batch_map) ->
    Forall built_for batch_map ->
    NoDup (map fst (build_batches_from batch_map fields))
    /\ Forall built_for (build_batches_from batch_map fields)
    /\ forall name,
         name ∈ map fst (build_batches_from batch_map fields)
         <-> name ∈ map fst batch_map \/ name ∈ enabled_batches fields.
Proof.
  induction fields as [|field rest IH]; intros batch_map Hnd Hall.
  - simpl. split; [exact Hnd|]. split; [exact Hall|].
    intros name. split; [auto|]. intros [H|H]; [exact H|]. inversion H.
  - cbn [build_batches_from]. rewrite enabled_batches_cons.
    destruct (field_enabled field); cbn [negb];
      [|apply IH; assumption].
    destruct (field_batch field) as [name|]; [|apply IH; assumption].
    destruct (Py.truthy name) eqn:Htruthy; cbn [negb];
      [|apply IH; assumption].
    destruct (has_batch name batch_map) eqn:Hhas.
    + destruct (IH batch_map Hnd Hall) as (H1 & H2 & H3).
      split; [exact H1|]. split; [exact H2|].
      intros n. rewrite H3, elem_of_cons. split; [tauto|].
      intros [H|[->|H]]; auto. left. apply has_batch_spec, Hhas.
    + assert (Hnot : name ∉ map fst batch_map).
      { intros Hin. apply has_batch_spec in Hin. congruence. }
      match goal with
      | |- context [build_batches_from (batch_map ++ [?kv]) rest] =>
          destruct (IH (batch_map ++ [kv])) as (H1 & H2 & H3)
      end.
      * rewrite map_app. simpl. apply NoDup_app. split; [exact Hnd|].
        split; [|apply NoDup_singleton].
        intros x Hx Hx'. apply list_elem_of_singleton in Hx'. subst x.
        exact (Hnot Hx).
      * apply Forall_app. split; [exact Hall|].
        constructor; [|constructor]. repeat split.
      * split; [exact H1|]. split; [exact H2|].
        intros n. rewrite H3, map_app, elem_of_app, elem_of_cons. simpl.
        rewrite list_elem_of_singleton. tauto.
Qed.

(** X23. [_build_batches] creates exactly one batch for each batch name of
    an enabled field: the names in the map are distinct, a name is in it
    exactly when an enabled field has it as its non-empty batch, and every
    batch is enabled, structured, and scoped by its name. *)
Theorem build_batches_one_per_name (fields : list Field) :
  NoDup (map fst (build_batches fields))
  /\ Forall built_for (build_batches fields)
  /\ forall name,
       name ∈ map fst (build_batches fields) <-> name ∈ enabled_batches fields.
Proof.
  destruct (build_batches_from_spec fields []) as (H1 & H2 & H3).
  - apply NoDup_nil_2.
  - constructor.
  - split; [exact H1|]. split; [exact H2|].
    intros name. rewrite (H3 name). simpl. split; [|auto].
    intros [H|H]; [inversion H|exact H].
Qed.
